(** * DynamicProperties: field collections and the dynamic group registrar

    A shallow embedding of [DynamicProperties.py] and [demo.py].

    - Python dictionaries are finite maps ([gmap]) with string keys.
    - The keyword arguments of a host field constructor are kept as the
      dictionary the code builds, next to the name of the constructor.
    - Registrars are mutable objects: they live in a heap and are named by
      their address; the class attribute [registered_properties] holds
      addresses.
    - The two dictionaries of a registrar are objects of their own: they
      live in a store, and a synthesized record class refers to the very
      pair its registrar had when the class was built.
    - The host application keeps the installed classes, the properties it
      defined for them and the attributes set on its types; what it accepts
      is its own decision and part of the state.
    - Exceptions are values; a computation returns its result or the
      exception it raised, together with the state reached. *)

From Stdlib Require Import QArith_base.
From stdpp Require Import gmap strings list fin_maps.

Open Scope string_scope.

(** ** Python values that occur as keyword arguments *)

(** A finite float literal is kept as the rational number it denotes: the
    code only stores and forwards such values. *)
#[warnings="-register-all"] Inductive pyval : Type :=
| VNone
| VBool (b : bool)
| VInt (z : Z)
| VFloat (q : Q)
| VStr (s : string)
| VTuple (l : list pyval)
| VList (l : list pyval)
| VSet (l : list pyval)
| VType (n : string).

(** The field constructors imported from [bpy.props]. *)
Inductive prop_fn : Type :=
| BoolProperty
| EnumProperty
| FloatProperty
| FloatVectorProperty
| IntProperty
| PointerProperty
| StringProperty.

(** A call of a field constructor with an unpacked keyword dictionary: the
    constructor together with the dictionary it was called with. *)
Record bpy_prop : Type := BpyProp {
  prop_ctor : prop_fn;
  prop_args : gmap string pyval
}.

(** A descriptor: the tuple [(type_str, name, description)]. *)
Record meta_entry : Type := Meta {
  meta_kind : string;
  meta_name : string;
  meta_description : pyval
}.

(** The dictionary display that unpacks [a] and then [b]: the entries of [b]
    win over those of [a]. *)
Definition unpack2 (a b : gmap string pyval) : gmap string pyval := b ∪ a.

(** [d.get(k, dflt)] *)
Definition dict_get (d : gmap string pyval) (k : string) (dflt : pyval) : pyval :=
  match d !! k with
  | Some v => v
  | None => dflt
  end.

(** ** class PropertyCollection *)

Module PropertyCollection.

Record t : Type := Build {
  props : gmap string bpy_prop;
  meta : gmap string meta_entry
}.

Definition add_header (key text : string) (self : t) : t :=
  {| props := props self;
     meta := <[key := Meta "header" text (VStr "")]> (meta self) |}.

Definition add_float (key name : string) (kwargs : gmap string pyval) (self : t) : t :=
  let args := {[ "name" := VStr name ]} in
  let args := unpack2 kwargs args in
  {| props := <[key := BpyProp FloatProperty args]> (props self);
     meta := <[key := Meta "float" name (dict_get kwargs "description" (VStr ""))]> (meta self) |}.

Definition add_bool (key name : string) (kwargs : gmap string pyval) (self : t) : t :=
  let args := {[ "name" := VStr name ]} in
  let args := unpack2 kwargs args in
  {| props := <[key := BpyProp BoolProperty args]> (props self);
     meta := <[key := Meta "bool" name (dict_get kwargs "description" (VStr ""))]> (meta self) |}.

Definition add_str (key name : string) (kwargs : gmap string pyval) (self : t) : t :=
  let args := {[ "name" := VStr name ]} in
  let args := unpack2 kwargs args in
  {| props := <[key := BpyProp StringProperty args]> (props self);
     meta := <[key := Meta "str" name (dict_get kwargs "description" (VStr ""))]> (meta self) |}.

Definition add_vec2 (key name : string) (kwargs : gmap string pyval) (self : t) : t :=
  let args := <["size" := VInt 2]> {[ "name" := VStr name ]} in
  let args := unpack2 kwargs args in
  {| props := <[key := BpyProp FloatVectorProperty args]> (props self);
     meta := <[key := Meta "vec2" name (dict_get kwargs "description" (VStr ""))]> (meta self) |}.

Definition add_vec3 (key name : string) (kwargs : gmap string pyval) (self : t) : t :=
  let args := <["size" := VInt 3]> {[ "name" := VStr name ]} in
  let args := unpack2 kwargs args in
  {| props := <[key := BpyProp FloatVectorProperty args]> (props self);
     meta := <[key := Meta "vec3" name (dict_get kwargs "description" (VStr ""))]> (meta self) |}.

Definition add_rgb (key name : string) (kwargs : gmap string pyval) (self : t) : t :=
  let args :=
    <["size" := VInt 3]> (<["name" := VStr name]> (<["subtype" := VStr "COLOR"]>
      (<["min" := VFloat (0 # 1)]> {[ "max" := VFloat (1 # 1) ]}))) in
  let args := unpack2 kwargs args in
  {| props := <[key := BpyProp FloatVectorProperty args]> (props self);
     meta := <[key := Meta "rgb" name (dict_get kwargs "description" (VStr ""))]> (meta self) |}.

Definition add_rgba (key name : string) (kwargs : gmap string pyval) (self : t) : t :=
  let args :=
    <["size" := VInt 4]> (<["name" := VStr name]> (<["subtype" := VStr "COLOR"]>
      (<["min" := VFloat (0 # 1)]> {[ "max" := VFloat (1 # 1) ]}))) in
  let args := unpack2 kwargs args in
  {| props := <[key := BpyProp FloatVectorProperty args]> (props self);
     meta := <[key := Meta "rgba" name (dict_get kwargs "description" (VStr ""))]> (meta self) |}.

Definition add_enum (key name : string) (kwargs : gmap string pyval) (self : t) : t :=
  let args := {[ "name" := VStr name ]} in
  let args := unpack2 kwargs args in
  {| props := <[key := BpyProp EnumProperty args]> (props self);
     meta := <[key := Meta "enum" name (dict_get kwargs "description" (VStr ""))]> (meta self) |}.

Definition add_file (key name : string) (kwargs : gmap string pyval) (self : t) : t :=
  let args := <["name" := VStr name]> {[ "subtype" := VStr "FILE_PATH" ]} in
  let args := unpack2 kwargs args in
  {| props := <[key := BpyProp StringProperty args]> (props self);
     meta := <[key := Meta "file" name (dict_get kwargs "description" (VStr ""))]> (meta self) |}.

Definition add_dir (key name : string) (kwargs : gmap string pyval) (self : t) : t :=
  let args := <["name" := VStr name]> {[ "subtype" := VStr "DIR_PATH" ]} in
  let args := unpack2 kwargs args in
  {| props := <[key := BpyProp StringProperty args]> (props self);
     meta := <[key := Meta "dir" name (dict_get kwargs "description" (VStr ""))]> (meta self) |}.

Definition add_image (key name : string) (description : string) (self : t) : t :=
  {| props := <[key := BpyProp PointerProperty
                  (<["name" := VStr name]> (<["description" := VStr description]>
                     {[ "type" := VType "Image" ]}))]> (props self);
     meta := <[key := Meta "image" name (VStr description)]> (meta self) |}.

Definition remove (key : string) (self : t) : t :=
  let props' := if decide (key ∈ dom (props self)) then delete key (props self)
                else props self in
  let meta' := if decide (key ∈ dom (meta self)) then delete key (meta self)
               else meta self in
  {| props := props'; meta := meta' |}.

(** [clear] rebinds both dictionaries to fresh empty ones, whatever [self]
    held, and declares the [enabled] flag. *)
Definition clear (enabled : bool) (self : t) : t :=
  let self := {| props := ∅; meta := ∅ |} in
  add_bool "enabled" "enabled"
    (<["default" := VBool enabled]> {[ "options" := VSet [VStr "HIDDEN"] ]}) self.

(** [__init__]: the object starts without attributes; [clear] creates them. *)
Definition init (enabled : bool) : t :=
  clear enabled {| props := ∅; meta := ∅ |}.

End PropertyCollection.

(** ** Operations on a collection, as data *)

(** The kinds declared through a keyword dictionary. *)
Inductive field_kind : Type :=
| KFloat | KBool | KStr | KVec2 | KVec3 | KRgb | KRgba | KEnum | KFile | KDir.

Definition add_kind (k : field_kind) :
  string → string → gmap string pyval → PropertyCollection.t → PropertyCollection.t :=
  match k with
  | KFloat => PropertyCollection.add_float
  | KBool => PropertyCollection.add_bool
  | KStr => PropertyCollection.add_str
  | KVec2 => PropertyCollection.add_vec2
  | KVec3 => PropertyCollection.add_vec3
  | KRgb => PropertyCollection.add_rgb
  | KRgba => PropertyCollection.add_rgba
  | KEnum => PropertyCollection.add_enum
  | KFile => PropertyCollection.add_file
  | KDir => PropertyCollection.add_dir
  end.

Inductive coll_op : Type :=
| OAdd (k : field_kind) (key name : string) (kwargs : gmap string pyval)
| OAddImage (key name description : string)
| OAddHeader (key text : string)
| ORemove (key : string)
| OClear (enabled : bool).

Definition run_op (o : coll_op) (c : PropertyCollection.t) : PropertyCollection.t :=
  match o with
  | OAdd k key name kwargs => add_kind k key name kwargs c
  | OAddImage key name description => PropertyCollection.add_image key name description c
  | OAddHeader key text => PropertyCollection.add_header key text c
  | ORemove key => PropertyCollection.remove key c
  | OClear enabled => PropertyCollection.clear enabled c
  end.

Definition run_ops (os : list coll_op) (c : PropertyCollection.t) : PropertyCollection.t :=
  foldl (λ c o, run_op o c) c os.

(** The key an operation is applied to; [clear] names none. *)
Definition op_key (o : coll_op) : option string :=
  match o with
  | OAdd _ key _ _ | OAddImage key _ _ | OAddHeader key _ | ORemove key => Some key
  | OClear _ => None
  end.

(** ** Exceptions and results *)

Inductive exn : Type :=
| TypeError (msg : string)
| AttributeError (attr : string)
| KeyError (key : string)
| RuntimeError (msg : string)
| ValueError (msg : string).

Inductive outcome (A : Type) : Type :=
| Return (a : A)
| Raise (e : exn).
Arguments Return {A} a.
Arguments Raise {A} e.

(** ** class BaseDynamicPropertyGroup: a record of a synthesized type *)

Module BaseDynamicPropertyGroup.

(** [meta] is the class attribute set by the registrar; [values] holds the
    current value of every property of this record. *)
Record t : Type := Build {
  meta : gmap string meta_entry;
  values : gmap string pyval
}.

Definition getattr (self : t) (key : string) : outcome pyval :=
  match values self !! key with
  | Some v => Return v
  | None => Raise (AttributeError key)
  end.

(** One turn of the loop of [items]. *)
Definition items_step (self : t) (key : string) (m : meta_entry)
    (acc : outcome (gmap string (string * pyval))) : outcome (gmap string (string * pyval)) :=
  match acc with
  | Raise e => Raise e
  | Return items =>
      if bool_decide (key ≠ "enabled") && bool_decide (meta_kind m ≠ "header") then
        match getattr self key with
        | Return v => Return (<[key := (meta_kind m, v)]> items)
        | Raise e => Raise e
        end
      else Return items
  end.

Definition items (self : t) : outcome (gmap string (string * pyval)) :=
  map_fold (items_step self) (Return ∅) (meta self).

End BaseDynamicPropertyGroup.

(** ** Host types and synthesized classes *)

(** A [bpy.types] class, known here by its [__name__]. *)
Record StructMetaProp : Type := BpyType { __name__ : string }.

#[global] Instance StructMetaProp_eq_dec : EqDecision StructMetaProp.
Proof. solve_decision. Defined.

Definition get_key (bpy_type : StructMetaProp) (name : string) : string :=
  __name__ bpy_type ++ name.

(** The class built by [type(key + 'PropertyGroup', ...)].  [pc_id] stands
    for the identity of the class object.  Its [__annotations__] and its
    [meta] are the registrar's own two dictionaries, the objects themselves
    and no copies: [pc_dicts] is the place of that pair in the store of
    dictionaries. *)
Record property_class_t : Type := PropertyClass {
  pc_id : nat;
  pc_pyname : string;
  pc_dicts : nat;
  pc_bpy_type : StructMetaProp;
  pc_name : string;
  pc_title : string
}.

(** The class built by [type('DYNAMIC_PT_' + key, ...)]. *)
Record panel_class_t : Type := PanelClass {
  pn_id : nat;
  pn_pyname : string;
  pn_bpy_type : StructMetaProp;
  pn_name : string;
  pn_title : string;
  bl_label : string;
  bl_parent_id : string;
  bl_context : option string;
  context_attr : option string
}.

Inductive bpy_class : Type :=
| RecordCls (c : property_class_t)
| PanelCls (c : panel_class_t).

Definition cls_id (c : bpy_class) : nat :=
  match c with
  | RecordCls c => pc_id c
  | PanelCls c => pn_id c
  end.

(** An instance attribute: never assigned, assigned [None], or an object. *)
Inductive attr (A : Type) : Type :=
| Unset
| PyNone
| Obj (a : A).
Arguments Unset {A}.
Arguments PyNone {A}.
Arguments Obj {A} a.

(** ** class DynamicProperties *)

Module DynamicProperties.

(** [coll] is the place, in the store of dictionaries, of the pair [props]
    and [meta] the registrar inherits from [PropertyCollection]. *)
Record t : Type := Build {
  coll : nat;
  bpy_type : StructMetaProp;
  name : string;
  title : string;
  panel_parent_id : string;
  property_class : attr bpy_class;
  panel_class : attr bpy_class
}.

Definition set_coll (c : nat) (d : t) : t :=
  Build c (bpy_type d) (name d) (title d) (panel_parent_id d)
    (property_class d) (panel_class d).

Definition set_property_class (a : attr bpy_class) (d : t) : t :=
  Build (coll d) (bpy_type d) (name d) (title d) (panel_parent_id d)
    a (panel_class d).

Definition set_panel_class (a : attr bpy_class) (d : t) : t :=
  Build (coll d) (bpy_type d) (name d) (title d) (panel_parent_id d)
    (property_class d) a.

End DynamicProperties.

(** ** The class methods of BaseDynamicPropertyGroup

    [setattr] and [delattr] on the target type: the attributes a type has
    received, by the name of the type and the name of the attribute. *)
Definition pointer_to (cls : property_class_t) : bpy_prop :=
  BpyProp PointerProperty
    (<["name" := VStr (pc_title cls)]> (<["description" := VStr ""]>
       {[ "type" := VType (pc_pyname cls) ]})).

Definition PropertyGroup_register (cls : property_class_t)
    (attrs : gmap (string * string) bpy_prop) : gmap (string * string) bpy_prop :=
  <[(__name__ (pc_bpy_type cls), pc_name cls) := pointer_to cls]> attrs.

Definition PropertyGroup_unregister (cls : property_class_t)
    (attrs : gmap (string * string) bpy_prop)
    : outcome unit * gmap (string * string) bpy_prop :=
  match attrs !! (__name__ (pc_bpy_type cls), pc_name cls) with
  | Some _ => (Return tt, delete (__name__ (pc_bpy_type cls), pc_name cls) attrs)
  | None => (Raise (AttributeError (pc_name cls)), attrs)
  end.

(** ** The state: registrar objects, their dictionaries, the table, the host *)

(** What the host answers when it is handed a class to install.  [Accept]:
    it installs the class and returns.  [Refuse]: it raises and nothing has
    changed.  [Halfway]: it raises in the middle of its work; a record class
    is then installed with the properties [defined] only and its class
    method [register] has not run, and for a panel class the installed
    panel of the same name has been taken out while the new one is not
    installed. *)
Inductive verdict : Type :=
| Accept
| Refuse
| Halfway (defined : list string).

(** [heap] holds the registrar objects and [dicts] the pairs of
    dictionaries made by [clear].  [registered_properties] is the class
    attribute of [DynamicProperties].  The rest belongs to the host
    application: [host] lists the installed classes, [rna_properties] gives
    the properties defined for an installed record class, [type_attrs] the
    attributes set on the host types, and [verdict_of] what the host
    answers to a class it is handed.  [next_class] numbers the class
    objects created so far. *)
Record world : Type := World {
  heap : list DynamicProperties.t;
  dicts : list PropertyCollection.t;
  registered_properties : gmap string nat;
  host : list bpy_class;
  rna_properties : gmap nat (gmap string bpy_prop);
  type_attrs : gmap (string * string) bpy_prop;
  verdict_of : bpy_class → verdict;
  next_class : nat
}.

Definition init_world : world := World [] [] ∅ [] ∅ ∅ (λ _, Accept) 0.

Definition set_heap (h : list DynamicProperties.t) (w : world) : world :=
  World h (dicts w) (registered_properties w) (host w) (rna_properties w)
    (type_attrs w) (verdict_of w) (next_class w).

Definition set_dicts (l : list PropertyCollection.t) (w : world) : world :=
  World (heap w) l (registered_properties w) (host w) (rna_properties w)
    (type_attrs w) (verdict_of w) (next_class w).

Definition set_registered_properties (t : gmap string nat) (w : world) : world :=
  World (heap w) (dicts w) t (host w) (rna_properties w)
    (type_attrs w) (verdict_of w) (next_class w).

Definition set_host (h : list bpy_class) (w : world) : world :=
  World (heap w) (dicts w) (registered_properties w) h (rna_properties w)
    (type_attrs w) (verdict_of w) (next_class w).

Definition set_rna_properties (r : gmap nat (gmap string bpy_prop)) (w : world) : world :=
  World (heap w) (dicts w) (registered_properties w) (host w) r
    (type_attrs w) (verdict_of w) (next_class w).

Definition set_type_attrs (a : gmap (string * string) bpy_prop) (w : world) : world :=
  World (heap w) (dicts w) (registered_properties w) (host w) (rna_properties w)
    a (verdict_of w) (next_class w).

Definition set_verdict_of (v : bpy_class → verdict) (w : world) : world :=
  World (heap w) (dicts w) (registered_properties w) (host w) (rna_properties w)
    (type_attrs w) v (next_class w).

Definition set_next_class (n : nat) (w : world) : world :=
  World (heap w) (dicts w) (registered_properties w) (host w) (rna_properties w)
    (type_attrs w) (verdict_of w) n.

(** Computations over the state that may raise. *)
Definition M (A : Type) : Type := world → outcome A * world.

Definition ret {A : Type} (a : A) : M A := λ w, (Return a, w).

Definition bind {A B : Type} (m : M A) (f : A → M B) : M B := λ w,
  match m w with
  | (Return a, w') => f a w'
  | (Raise e, w') => (Raise e, w')
  end.

Notation "'let!' x ':=' m 'in' k" := (bind m (λ x, k))
  (at level 10, x name, m at level 100, k at level 200).
Notation "m '>>' k" := (bind m (λ _, k))
  (at level 100, k at level 200, right associativity).

Definition raise {A : Type} (e : exn) : M A := λ w, (Raise e, w).

(** [try: body / except: pass] -- the effects made before the exception stay. *)
Definition try_pass (body : M unit) : M unit := λ w,
  match body w with
  | (Return _, w') => (Return tt, w')
  | (Raise _, w') => (Return tt, w')
  end.

(** Whether a computation has returned. *)
Definition is_Return {A : Type} (r : outcome A * world) : bool :=
  match r.1 with
  | Return _ => true
  | Raise _ => false
  end.

Definition get_self (self : nat) : M DynamicProperties.t := λ w,
  match heap w !! self with
  | Some d => (Return d, w)
  | None => (Raise (AttributeError "self"), w)
  end.

Definition update_self (self : nat) (f : DynamicProperties.t → DynamicProperties.t) : M unit := λ w,
  match heap w !! self with
  | Some d => (Return tt, set_heap (<[self := f d]> (heap w)) w)
  | None => (Raise (AttributeError "self"), w)
  end.

(** Reading [self.props] and [self.meta]. *)
Definition get_dicts (place : nat) : M PropertyCollection.t := λ w,
  match dicts w !! place with
  | Some c => (Return c, w)
  | None => (Raise (AttributeError "props"), w)
  end.

(** Reading [self.property_class] or [self.panel_class]: [None] is a value,
    an attribute never assigned raises. *)
Definition read_attr (what : string) (a : attr bpy_class) : M (option bpy_class) :=
  match a with
  | Unset => raise (AttributeError what)
  | PyNone => ret None
  | Obj c => ret (Some c)
  end.

(** The next class object, as [type(...)] allocates it. *)
Definition new_class_id : M nat := λ w,
  (Return (next_class w), set_next_class (S (next_class w)) w).

(** ** The methods of the collection, called on a registrar

    [clear] binds [self.props] and [self.meta] to new dictionaries; the old
    pair stays as it is for whoever still refers to it.  Every other method
    changes the dictionaries the registrar has, in place. *)
Definition on_collection (self : nat) (o : coll_op) : M unit :=
  let! d := get_self self in
  match o with
  | OClear enabled => λ w,
      (Return tt,
       set_heap (<[self := DynamicProperties.set_coll (length (dicts w)) d]> (heap w))
         (set_dicts (dicts w ++ [PropertyCollection.init enabled]) w))
  | _ =>
      let! c := get_dicts (DynamicProperties.coll d) in
      λ w, (Return tt, set_dicts (<[DynamicProperties.coll d := run_op o c]> (dicts w)) w)
  end.

(** ** The host's registration primitives

    [bpy.utils] belongs to the host application.  What follows is the part
    of its behaviour the registrar meets.
    - [register_class] refuses a class object that is installed already.
      Whether it takes another class is the host's own decision: the class
      may name a parent panel that is not installed, or carry a keyword a
      field constructor does not know.
    - Installing a record class defines one property per annotation; the
      host writes the key as [attr] into the keyword dictionary of the
      constructor, and then runs the class method [register] of the class.
    - Installing a panel class first takes out the installed panel class of
      the same name.
    - [unregister_class] refuses what is not installed, [None] included.
      For a record class it first runs the class method [unregister]; when
      that raises, the class stays installed. *)

Definition installed (c : bpy_class) (h : list bpy_class) : bool :=
  bool_decide (cls_id c ∈ cls_id <$> h).

(** The constructor call once the host has defined the property [key]. *)
Definition tag_attr (key : string) (p : bpy_prop) : bpy_prop :=
  BpyProp (prop_ctor p) (<["attr" := VStr key]> (prop_args p)).

(** The annotations after the host has defined the properties chosen by
    [P], and the properties it has defined. *)
Definition define_props (P : string → bool) (ps : gmap string bpy_prop)
    : gmap string bpy_prop :=
  map_imap (λ key p, Some (if P key then tag_attr key p else p)) ps.

Definition defined_props (P : string → bool) (ps : gmap string bpy_prop)
    : gmap string bpy_prop :=
  map_imap (λ key p, if P key then Some (tag_attr key p) else None) ps.

Definition install_record (cls : property_class_t) (P : string → bool) (w : world) : world :=
  let w := set_host (host w ++ [RecordCls cls]) w in
  match dicts w !! pc_dicts cls with
  | Some c =>
      set_rna_properties
        (<[pc_id cls := defined_props P (PropertyCollection.props c)]> (rna_properties w))
        (set_dicts
           (<[pc_dicts cls :=
                PropertyCollection.Build (define_props P (PropertyCollection.props c))
                                         (PropertyCollection.meta c)]> (dicts w)) w)
  | None => w
  end.

(** A panel class without [bl_idname] is known to the host by the name of
    the class. *)
Definition same_panel (cls : panel_class_t) (c : bpy_class) : bool :=
  match c with
  | PanelCls c => String.eqb (pn_pyname c) (pn_pyname cls)
  | RecordCls _ => false
  end.

Definition displace (cls : panel_class_t) (h : list bpy_class) : list bpy_class :=
  filter (λ c, same_panel cls c = false) h.

Definition register_class (c : bpy_class) : M unit := λ w,
  if installed c (host w)
  then (Raise (ValueError "register_class: already registered"), w)
  else
    match c with
    | RecordCls cls =>
        match verdict_of w c with
        | Accept =>
            let w := install_record cls (λ _, true) w in
            (Return tt, set_type_attrs (PropertyGroup_register cls (type_attrs w)) w)
        | Refuse => (Raise (RuntimeError "register_class: refused"), w)
        | Halfway defined =>
            (Raise (TypeError "register_class: property refused"),
             install_record cls (λ key, bool_decide (key ∈ defined)) w)
        end
    | PanelCls cls =>
        match verdict_of w c with
        | Accept => (Return tt, set_host (displace cls (host w) ++ [c]) w)
        | Refuse => (Raise (RuntimeError "register_class: refused"), w)
        | Halfway _ =>
            (Raise (RuntimeError "register_class: refused"),
             set_host (displace cls (host w)) w)
        end
    end.

Definition remove_class (c : bpy_class) (h : list bpy_class) : list bpy_class :=
  filter (λ c', cls_id c' ≠ cls_id c) h.

Definition unregister_class (o : option bpy_class) : M unit :=
  match o with
  | None => raise (TypeError "unregister_class: not a class")
  | Some c => λ w,
      if installed c (host w)
      then
        match c with
        | RecordCls cls =>
            match PropertyGroup_unregister cls (type_attrs w) with
            | (Return _, attrs) =>
                (Return tt,
                 set_rna_properties (delete (pc_id cls) (rna_properties w))
                   (set_host (remove_class c (host w)) (set_type_attrs attrs w)))
            | (Raise e, _) => (Raise e, w)
            end
        | PanelCls _ => (Return tt, set_host (remove_class c (host w)) w)
        end
      else (Raise (RuntimeError "unregister_class: not registered"), w)
  end.

(** ** DynamicProperties: the methods *)

(** [__init__]: the inherited initializer makes the two dictionaries with
    [clear]; the address of the new registrar object is returned.  Neither
    [property_class] nor [panel_class] is assigned here. *)
Definition DynamicProperties_init (bpy_type : StructMetaProp) (name title : string)
    (enabled : bool) (panel_parent_id : string) : M nat := λ w,
  let self :=
    DynamicProperties.Build (length (dicts w))
      bpy_type name title panel_parent_id Unset Unset in
  (Return (length (heap w)),
   set_heap (heap w ++ [self]) (set_dicts (dicts w ++ [PropertyCollection.init enabled]) w)).

(** [del self.registered_properties[key]] *)
Definition del_registered (key : string) : M unit := λ w,
  match registered_properties w !! key with
  | Some _ => (Return tt, set_registered_properties (delete key (registered_properties w)) w)
  | None => (Raise (KeyError key), w)
  end.

Definition unregister (self : nat) : M unit :=
  try_pass (let! d := get_self self in
            let! c := read_attr "property_class" (DynamicProperties.property_class d) in
            unregister_class c) >>
  try_pass (let! d := get_self self in
            let! c := read_attr "panel_class" (DynamicProperties.panel_class d) in
            unregister_class c) >>
  try_pass (let! d := get_self self in
            let key := get_key (DynamicProperties.bpy_type d) (DynamicProperties.name d) in
            del_registered key) >>
  update_self self (DynamicProperties.set_property_class PyNone) >>
  update_self self (DynamicProperties.set_panel_class PyNone).

(** The fixed lookup from the name of the target type to the panel's
    [bl_context] and [context_attr]. *)
Definition placement (type_name : string) : option (string * string) :=
  if String.eqb type_name "Light" then Some ("data", "light")
  else if String.eqb type_name "Material" then Some ("material", "material")
  else if String.eqb type_name "Object" then Some ("object", "object")
  else if String.eqb type_name "RenderEngine" then Some ("render", "engine")
  else None.

(** [register], called with its default base classes. *)
Definition register (self : nat) : M unit :=
  let! d := get_self self in
  let type_name := __name__ (DynamicProperties.bpy_type d) in
  let key := get_key (DynamicProperties.bpy_type d) (DynamicProperties.name d) in
  let! pid := new_class_id in
  let property_class :=
    PropertyClass pid (key ++ "PropertyGroup") (DynamicProperties.coll d)
      (DynamicProperties.bpy_type d) (DynamicProperties.name d) (DynamicProperties.title d) in
  let! nid := new_class_id in
  let panel_class (ctx : string * string) :=
    PanelClass nid ("DYNAMIC_PT_" ++ key)
      (DynamicProperties.bpy_type d) (DynamicProperties.name d) (DynamicProperties.title d)
      (DynamicProperties.title d) (DynamicProperties.panel_parent_id d)
      (Some ctx.1) (Some ctx.2) in
  let! panel_class :=
    match placement type_name with
    | Some ctx => ret (panel_class ctx)
    | None => raise (TypeError
                ("DynamicProperties cannot be associated to type " ++ type_name))
    end in
  unregister self >>
  register_class (RecordCls property_class) >>
  register_class (PanelCls panel_class) >>
  update_self self (DynamicProperties.set_property_class (Obj (RecordCls property_class))) >>
  update_self self (DynamicProperties.set_panel_class (Obj (PanelCls panel_class))) >>
  (λ w, (Return tt, set_registered_properties (<[key := self]> (registered_properties w)) w)).

(** [find] reads the table with [dict.get]. *)
Definition find (bpy_type : StructMetaProp) (name : string) (w : world) : option nat :=
  let key := get_key bpy_type name in
  registered_properties w !! key.

(** ** Sequences of calls *)

(** [CHost] is no call of this program but a step of its surroundings: from
    then on the host answers as [v] says (another add-on has installed or
    removed the panel a registrar names as its parent, and the like). *)
Inductive call : Type :=
| CNew (bpy_type : StructMetaProp) (name title : string) (enabled : bool)
       (panel_parent_id : string)
| CRegister (self : nat)
| CUnregister (self : nat)
| CCollection (self : nat) (o : coll_op)
| CHost (v : bpy_class → verdict).

(** A call that raises leaves the state it reached; the caller goes on. *)
Definition run_call (c : call) (w : world) : world :=
  match c with
  | CNew bpy_type name title enabled panel_parent_id =>
      (DynamicProperties_init bpy_type name title enabled panel_parent_id w).2
  | CRegister self => (register self w).2
  | CUnregister self => (unregister self w).2
  | CCollection self o => (on_collection self o w).2
  | CHost v => set_verdict_of v w
  end.

Definition run_calls (cs : list call) (w : world) : world :=
  foldl (λ w c, run_call c w) w cs.

(** The installed record classes, and the installed panel classes, that
    belong to a (target type, group name) pair. *)
Definition for_group (bpy_type : StructMetaProp) (name : string) (c : bpy_class) : bool :=
  match c with
  | RecordCls c =>
      bool_decide (pc_bpy_type c = bpy_type) && bool_decide (pc_name c = name)
  | PanelCls c =>
      bool_decide (pn_bpy_type c = bpy_type) && bool_decide (pn_name c = name)
  end.

Definition is_record (c : bpy_class) : bool :=
  match c with RecordCls _ => true | PanelCls _ => false end.

Definition installed_records (bpy_type : StructMetaProp) (name : string) (w : world)
    : list bpy_class :=
  filter (λ c, is_record c && for_group bpy_type name c = true) (host w).

Definition installed_panels (bpy_type : StructMetaProp) (name : string) (w : world)
    : list bpy_class :=
  filter (λ c, negb (is_record c) && for_group bpy_type name c = true) (host w).

Definition Light : StructMetaProp := BpyType "Light".

(** ** Notions used by the statements *)

(** The entries each [add_<kind>] method writes itself (its dictionary
    literal), and the constructor it calls. *)
Definition kind_entries (k : field_kind) (name : string) : gmap string pyval :=
  match k with
  | KFloat | KBool | KStr | KEnum => {[ "name" := VStr name ]}
  | KVec2 => <["size" := VInt 2]> {[ "name" := VStr name ]}
  | KVec3 => <["size" := VInt 3]> {[ "name" := VStr name ]}
  | KRgb =>
      <["size" := VInt 3]> (<["name" := VStr name]> (<["subtype" := VStr "COLOR"]>
        (<["min" := VFloat (0 # 1)]> {[ "max" := VFloat (1 # 1) ]})))
  | KRgba =>
      <["size" := VInt 4]> (<["name" := VStr name]> (<["subtype" := VStr "COLOR"]>
        (<["min" := VFloat (0 # 1)]> {[ "max" := VFloat (1 # 1) ]})))
  | KFile => <["name" := VStr name]> {[ "subtype" := VStr "FILE_PATH" ]}
  | KDir => <["name" := VStr name]> {[ "subtype" := VStr "DIR_PATH" ]}
  end.

Definition kind_ctor (k : field_kind) : prop_fn :=
  match k with
  | KFloat => FloatProperty
  | KBool => BoolProperty
  | KStr | KFile | KDir => StringProperty
  | KVec2 | KVec3 | KRgb | KRgba => FloatVectorProperty
  | KEnum => EnumProperty
  end.

(** The dictionary handed to the field constructor by an [add_<kind>] call. *)
Definition passed_options (k : field_kind) (key name : string)
    (kwargs : gmap string pyval) (c : PropertyCollection.t) : option (gmap string pyval) :=
  prop_args <$> PropertyCollection.props (add_kind k key name kwargs c) !! key.

(** The merge in the words of the specification: the caller's options win
    over the kind's entries, except that the colour kinds force their
    subtype and range. *)
Definition spec_options (k : field_kind) (name : string)
    (kwargs : gmap string pyval) : gmap string pyval :=
  let merged := kwargs ∪ kind_entries k name in
  match k with
  | KRgb | KRgba =>
      <["subtype" := VStr "COLOR"]> (<["min" := VFloat (0 # 1)]>
        (<["max" := VFloat (1 # 1)]> merged))
  | _ => merged
  end.

(** The reserved field is present, declared as a boolean. *)
Definition enabled_is_bool (c : PropertyCollection.t) : bool :=
  match PropertyCollection.meta c !! "enabled", PropertyCollection.props c !! "enabled" with
  | Some m, Some p =>
      String.eqb (meta_kind m) "bool" &&
      match prop_ctor p with BoolProperty => true | _ => false end
  | _, _ => false
  end.

(** The declaration of the reserved field with a given default. *)
Definition enabled_prop (enabled : bool) : bpy_prop :=
  BpyProp BoolProperty
    (<["name" := VStr "enabled"]> (<["default" := VBool enabled]>
       {[ "options" := VSet [VStr "HIDDEN"] ]})).

(** A float field [f] with default 1.0 and a header [h]; a record of the
    type made from it, never edited. *)
Definition float_and_header : PropertyCollection.t :=
  PropertyCollection.add_header "h" "H"
    (PropertyCollection.add_float "f" "F" {[ "default" := VFloat (1 # 1) ]}
       (PropertyCollection.init true)).

Definition float_and_header_record : BaseDynamicPropertyGroup.t :=
  BaseDynamicPropertyGroup.Build (PropertyCollection.meta float_and_header)
    (<["enabled" := VBool true]> {[ "f" := VFloat (1 # 1) ]}).

(** The entry [items] makes for a descriptor and a value. *)
Definition item_of (m : meta_entry) (v : pyval) : string * pyval := (meta_kind m, v).

(** [key] is listed by [items]: neither the flag nor a header. *)
Definition listed (key : string) (m : meta_entry) : Prop :=
  key ≠ "enabled" ∧ meta_kind m ≠ "header".

(** What the loop of [items] has built after visiting the descriptors [m]. *)
Definition items_of (self : BaseDynamicPropertyGroup.t) (m : gmap string meta_entry)
    (d : gmap string (string * pyval)) : Prop :=
  ∀ key e, d !! key = Some e ↔
    ∃ mm v, m !! key = Some mm ∧ listed key mm
            ∧ BaseDynamicPropertyGroup.values self !! key = Some v
            ∧ e = item_of mm v.

(** Every descriptor that is not a header has a constructor under its key. *)
Definition declared (c : PropertyCollection.t) : Prop :=
  ∀ key m, PropertyCollection.meta c !! key = Some m → meta_kind m ≠ "header" →
    is_Some (PropertyCollection.props c !! key).

(** The target types for which [register] knows a placement. *)
Definition recognized (bpy_type : StructMetaProp) : Prop :=
  is_Some (placement (__name__ bpy_type)).

(** The installed classes once the class held by an attribute, if any, has
    been taken out. *)
Definition drop_attr (a : attr bpy_class) (h : list bpy_class) : list bpy_class :=
  match a with
  | Obj c => remove_class c h
  | _ => h
  end.

(** The state after an attempt to unregister what an attribute holds: an
    exception of [unregister_class] is swallowed and the state it left
    stays. *)
Definition try_drop (a : attr bpy_class) (w : world) : world :=
  match a with
  | Obj c => (unregister_class (Some c) w).2
  | _ => w
  end.

(** The registrar [d] with both handles set to [None]. *)
Definition unregistered (d : DynamicProperties.t) : DynamicProperties.t :=
  DynamicProperties.set_panel_class PyNone (DynamicProperties.set_property_class PyNone d).

(** The state [unregister] leaves for the registrar [d] at address [self]. *)
Definition after_unregister (self : nat) (d : DynamicProperties.t) (w : world) : world :=
  let w' := try_drop (DynamicProperties.panel_class d)
              (try_drop (DynamicProperties.property_class d) w) in
  set_heap (<[self := unregistered d]> (heap w'))
    (set_registered_properties
       (delete (get_key (DynamicProperties.bpy_type d) (DynamicProperties.name d))
               (registered_properties w')) w').

(** The two classes [register] builds for [d], the first numbered [n]. *)
Definition property_class_for (n : nat) (d : DynamicProperties.t) : property_class_t :=
  let key := get_key (DynamicProperties.bpy_type d) (DynamicProperties.name d) in
  PropertyClass n (key ++ "PropertyGroup") (DynamicProperties.coll d)
    (DynamicProperties.bpy_type d) (DynamicProperties.name d) (DynamicProperties.title d).

Definition panel_class_for (n : nat) (d : DynamicProperties.t) (ctx : string * string)
    : panel_class_t :=
  let key := get_key (DynamicProperties.bpy_type d) (DynamicProperties.name d) in
  PanelClass (S n) ("DYNAMIC_PT_" ++ key)
    (DynamicProperties.bpy_type d) (DynamicProperties.name d) (DynamicProperties.title d)
    (DynamicProperties.title d) (DynamicProperties.panel_parent_id d)
    (Some ctx.1) (Some ctx.2).

Definition new_property_class (n : nat) (d : DynamicProperties.t) : bpy_class :=
  RecordCls (property_class_for n d).

Definition new_panel_class (n : nat) (d : DynamicProperties.t) (ctx : string * string)
    : bpy_class :=
  PanelCls (panel_class_for n d ctx).

(** The registrar [d] once [register] has assigned both handles. *)
Definition registered_as (n : nat) (d : DynamicProperties.t) (ctx : string * string)
    : DynamicProperties.t :=
  DynamicProperties.set_panel_class (Obj (new_panel_class n d ctx))
    (DynamicProperties.set_property_class (Obj (new_property_class n d)) (unregistered d)).

(** The last three statements of [register]. *)
Definition finish_register (self : nat) (d : DynamicProperties.t) (n : nat)
    (ctx : string * string) (w : world) : world :=
  set_registered_properties
    (<[get_key (DynamicProperties.bpy_type d) (DynamicProperties.name d) := self]>
       (registered_properties w))
    (set_heap (<[self := registered_as n d ctx]> (heap w)) w).

(** [register] for a registrar [d] of a type with placement [ctx], step by
    step: the previous pair is unregistered, the two classes are handed to
    the host, and only then the handles and the table are written. *)
Definition attempt_register (self : nat) (d : DynamicProperties.t) (ctx : string * string)
    (w : world) : outcome unit * world :=
  let n := next_class w in
  let u := after_unregister self d (set_next_class (S (S n)) w) in
  match register_class (new_property_class n d) u with
  | (Raise e, u1) => (Raise e, u1)
  | (Return _, u1) =>
      match register_class (new_panel_class n d ctx) u1 with
      | (Raise e, u2) => (Raise e, u2)
      | (Return _, u2) => (Return tt, finish_register self d n ctx u2)
      end
  end.

(** The state [register] leaves when the host has accepted both classes. *)
Definition registered_state (self : nat) (d : DynamicProperties.t) (ctx : string * string)
    (w : world) : world :=
  let n := next_class w in
  let u := after_unregister self d (set_next_class (S (S n)) w) in
  let i := install_record (property_class_for n d) (λ _, true) u in
  let u1 := set_type_attrs (PropertyGroup_register (property_class_for n d) (type_attrs i)) i in
  let u2 := set_host (displace (panel_class_for n d ctx) (host u1)
                        ++ [new_panel_class n d ctx]) u1 in
  finish_register self d n ctx u2.

(** The registrar [d] holds the class [c] in one of its handles. *)
Definition holds (d : DynamicProperties.t) (c : bpy_class) : Prop :=
  DynamicProperties.property_class d = Obj c ∨ DynamicProperties.panel_class d = Obj c.

(** The class [c] was made for the registrar [d], which holds it in the
    handle of its sort. *)
Definition owns (d : DynamicProperties.t) (c : bpy_class) : Prop :=
  for_group (DynamicProperties.bpy_type d) (DynamicProperties.name d) c = true
  ∧ (if is_record c then DynamicProperties.property_class d = Obj c
     else DynamicProperties.panel_class d = Obj c).

(** The (target type, group name) pair a registrar was made for. *)
Definition group_of (d : DynamicProperties.t) : StructMetaProp * string :=
  (DynamicProperties.bpy_type d, DynamicProperties.name d).

(** No two registrars were made for the same (target type, group name). *)
Definition distinct_groups (w : world) : Prop :=
  NoDup (group_of <$> heap w).

(** A call after which the host still accepts every class it is handed. *)
Definition host_accepts (c : call) : Prop :=
  match c with
  | CHost v => ∀ x, v x = Accept
  | _ => True
  end.

(** A host that takes record classes and refuses every panel class, as it
    does for a panel whose parent is not installed. *)
Definition refuse_panels (c : bpy_class) : verdict :=
  match c with
  | RecordCls _ => Accept
  | PanelCls _ => Refuse
  end.



(** The two handles of a registrar go together. *)
Definition handles_paired (d : DynamicProperties.t) : Prop :=
  match DynamicProperties.property_class d, DynamicProperties.panel_class d with
  | Unset, Unset | PyNone, PyNone => True
  | Obj (RecordCls _), Obj (PanelCls _) => True
  | _, _ => False
  end.

(** The name [register] gives a panel class. *)
Definition panel_named (c : bpy_class) : Prop :=
  match c with
  | PanelCls cls => pn_pyname cls = "DYNAMIC_PT_" ++ get_key (pn_bpy_type cls) (pn_name cls)
  | RecordCls _ => True
  end.

(** What every state reached by calls satisfies, whatever the host
    answered: class numbers in use are below [next_class], installed
    classes are pairwise distinct objects and the panels among them are
    named after their key; a registrar holds its two classes together, they
    were made for it, only a registrar of a recognized type holds any, no
    class is held twice; every entry of the table leads to a registrar with
    that key that holds its classes; every registrar has its own pair of
    dictionaries. *)
Record coherent (w : world) : Prop := Coherent {
  coh_host_fresh : ∀ c, c ∈ host w → cls_id c < next_class w;
  coh_held_fresh : ∀ a d c, heap w !! a = Some d → holds d c → cls_id c < next_class w;
  coh_host_nodup : NoDup (cls_id <$> host w);
  coh_host_named : ∀ c, c ∈ host w → panel_named c;
  coh_paired : ∀ a d, heap w !! a = Some d → handles_paired d;
  coh_made : ∀ a d c, heap w !! a = Some d → holds d c →
    owns d c ∧ recognized (DynamicProperties.bpy_type d);
  coh_unique : ∀ a b da db c1 c2,
    heap w !! a = Some da → heap w !! b = Some db →
    holds da c1 → holds db c2 → cls_id c1 = cls_id c2 → a = b;
  coh_table : ∀ k a, registered_properties w !! k = Some a →
    ∃ d c, heap w !! a = Some d
           ∧ get_key (DynamicProperties.bpy_type d) (DynamicProperties.name d) = k
           ∧ holds d c;
  coh_dicts : ∀ a d, heap w !! a = Some d → DynamicProperties.coll d < length (dicts w);
  coh_dicts_own : ∀ a b da db,
    heap w !! a = Some da → heap w !! b = Some db →
    DynamicProperties.coll da = DynamicProperties.coll db → a = b
}.

(** What a state reached by calls satisfies in addition when the host has
    accepted every class and no two registrars were made for one group:
    the installed classes are exactly the classes the registrars hold, and
    the pointer attribute of every registrar that holds a record class is
    set on its target type. *)
Record settled (w : world) : Prop := Settled {
  st_accepts : ∀ c, verdict_of w c = Accept;
  st_owned : ∀ c, c ∈ host w → ∃ a d, heap w !! a = Some d ∧ holds d c;
  st_installed : ∀ a d c, heap w !! a = Some d → holds d c → c ∈ host w;
  st_pointer : ∀ a d c, heap w !! a = Some d → holds d c →
    is_Some (type_attrs w !! (__name__ (DynamicProperties.bpy_type d),
                              DynamicProperties.name d))
}.

(** The demonstration add-on: two groups on [Light], both registered, and a
    third registrar for a type without placement. *)
Definition demo_calls : list call :=
  [CNew Light "fizz" "Fizz Settings" true "DEMO_PT_Toggle_DynamicPropertyGroups";
   CCollection 0 (OAdd KFloat "my_float" "Foo Float" {[ "description" := VStr "Test float" ]});
   CNew Light "buzz" "Buzz Settings" false "DEMO_PT_Toggle_DynamicPropertyGroups";
   CRegister 0; CRegister 1;
   CNew (BpyType "Camera") "zoom" "Zoom Settings" true ""].

Definition demo_world : world := run_calls demo_calls init_world.


(** Two registrars made for the same group. *)
Definition twin_calls : list call :=
  [CNew Light "g" "G" true ""; CNew Light "g" "G2" true ""].

(** ** class BaseDynamicPanel *)

(** Truth of a value, as [not v] reads it. *)
Definition truthy (v : pyval) : bool :=
  match v with
  | VNone => false
  | VBool b => b
  | VInt z => negb (Z.eqb z 0)
  | VFloat q => negb (Z.eqb (Qnum q) 0)
  | VStr s => negb (String.eqb s "")
  | VTuple l | VList l | VSet l => match l with [] => false | _ => true end
  | VType _ => true
  end.

(** What an attribute of the drawing context holds: [None], or a host
    object whose pointer attributes lead to records. *)
Inductive ctx_value : Type :=
| CtxNone
| CtxObj (groups : gmap string BaseDynamicPropertyGroup.t).

(** The calls a panel issues on its layout. *)
Inductive ui_call : Type :=
| SetUsePropertySplit (b : bool)
| SetUsePropertyDecorate (b : bool)
| LayoutColumn
| ColSeparator
| ColBox
| BoxLabel (text : string)
| ColTemplateID (key new open text : string)
| ColProp (key : string).

Module BaseDynamicPanel.

Definition poll (cls : panel_class_t) (context : gmap string ctx_value) : outcome bool :=
  match context_attr cls with
  | None => Raise (AttributeError "context_attr")
  | Some a =>
      match context !! a with
      | None => Raise (AttributeError a)
      | Some CtxNone => Return false
      | Some (CtxObj groups) =>
          match groups !! pn_name cls with
          | None => Raise (AttributeError (pn_name cls))
          | Some props =>
              match BaseDynamicPropertyGroup.getattr props "enabled" with
              | Raise e => Raise e
              | Return v => if negb (truthy v) then Return false else Return true
              end
          end
      end
  end.

(** One turn of the loop of [draw]. *)
Definition draw_row (key : string) (m : meta_entry) : list ui_call :=
  if String.eqb key "enabled" then []
  else if String.eqb (meta_kind m) "header" then
    [ColSeparator; ColBox; BoxLabel (meta_name m)]
  else if String.eqb (meta_kind m) "image" then
    [ColSeparator; ColTemplateID key "image.new" "image.open" (meta_name m)]
  else [ColProp key].

(** [draw] returns the calls issued on the layout, with the exception that
    ended it, if any.  The finite map forgets the order in which the
    descriptors were inserted, so the enumeration [meta.items()] is an
    argument. *)
Definition draw (self : panel_class_t) (context : gmap string ctx_value)
    (items_of_meta : gmap string meta_entry → list (string * meta_entry))
    : outcome unit * list ui_call :=
  let layout := [SetUsePropertySplit true; SetUsePropertyDecorate false; LayoutColumn] in
  match context_attr self with
  | None => (Raise (AttributeError "context_attr"), layout)
  | Some a =>
      match context !! a with
      | None => (Raise (AttributeError a), layout)
      | Some CtxNone => (Raise (AttributeError (pn_name self)), layout)
      | Some (CtxObj groups) =>
          match groups !! pn_name self with
          | None => (Raise (AttributeError (pn_name self)), layout)
          | Some props =>
              (Return tt,
               (layout ++ mbind (λ km, draw_row km.1 km.2)
                            (items_of_meta (BaseDynamicPropertyGroup.meta props)))%list)
          end
      end
  end.

End BaseDynamicPanel.

(** The key a call edits, for the calls that place an editor. *)
Definition editor_key (c : ui_call) : option string :=
  match c with
  | ColProp key | ColTemplateID key _ _ _ => Some key
  | _ => None
  end.

(** ** demo.py *)

(** [v == s] for a string literal [s]. *)
Definition eq_str (v : pyval) (s : string) : bool :=
  match v with
  | VStr s' => String.eqb s' s
  | _ => false
  end.

(** [context.light.<group>.enabled = b] *)
Definition assign_enabled (group : string) (b : bool)
    (context : gmap string ctx_value) : outcome unit * gmap string ctx_value :=
  match context !! "light" with
  | None => (Raise (AttributeError "light"), context)
  | Some CtxNone => (Raise (AttributeError group), context)
  | Some (CtxObj groups) =>
      match groups !! group with
      | None => (Raise (AttributeError group), context)
      | Some r =>
          let r' := BaseDynamicPropertyGroup.Build (BaseDynamicPropertyGroup.meta r)
                      (<["enabled" := VBool b]> (BaseDynamicPropertyGroup.values r)) in
          (Return tt, <["light" := CtxObj (<[group := r']> groups)]> context)
      end
  end.

(** [context.light.demo_toggle.active_group] *)
Definition read_active_group (context : gmap string ctx_value) : outcome pyval :=
  match context !! "light" with
  | None => Raise (AttributeError "light")
  | Some CtxNone => Raise (AttributeError "demo_toggle")
  | Some (CtxObj groups) =>
      match groups !! "demo_toggle" with
      | None => Raise (AttributeError "demo_toggle")
      | Some toggle => BaseDynamicPropertyGroup.getattr toggle "active_group"
      end
  end.

Definition update_active_group (context : gmap string ctx_value)
    : outcome unit * gmap string ctx_value :=
  match read_active_group context with
  | Raise e => (Raise e, context)
  | Return active =>
      if eq_str active "fizz" then
        match assign_enabled "buzz" false context with
        | (Raise e, context) => (Raise e, context)
        | (Return _, context) => assign_enabled "fizz" true context
        end
      else
        match assign_enabled "buzz" true context with
        | (Raise e, context) => (Raise e, context)
        | (Return _, context) => assign_enabled "fizz" false context
        end
  end.

(** How [DEMO_OT_change_fizz.invoke] ends: with its result set, with the
    exception it raises itself, or with an exception of a call it makes. *)
Inductive invoke_result : Type :=
| Finished
| NotRegistered (msg : string)
| Propagated (e : exn).

Definition change_fizz_ops : list coll_op :=
  [OClear true;
   OAdd KFloat "my_float" "Foo Float" {[ "description" := VStr "Test float" ]};
   OAdd KRgb "diffuse" "Diffuse" {[ "description" := VStr "Diffuse color" ]};
   OAdd KFloat "float2" "Newer Float" {[ "description" := VStr "Test float 2" ]};
   OAdd KBool "bool2" "Newer Bool" {[ "description" := VStr "Test Boolean 2" ]};
   OAdd KStr "str2" "Newer String" {[ "description" := VStr "Test String 2" ]}].

Definition DEMO_OT_change_fizz_invoke (w : world) : invoke_result * world :=
  match find Light "fizz" w with
  | None => (NotRegistered "`fizz` is not registered", w)
  | Some fizz =>
      match (on_collection fizz (OClear true) >>
             on_collection fizz
               (OAdd KFloat "my_float" "Foo Float" {[ "description" := VStr "Test float" ]}) >>
             on_collection fizz
               (OAdd KRgb "diffuse" "Diffuse" {[ "description" := VStr "Diffuse color" ]}) >>
             on_collection fizz
               (OAdd KFloat "float2" "Newer Float" {[ "description" := VStr "Test float 2" ]}) >>
             on_collection fizz
               (OAdd KBool "bool2" "Newer Bool" {[ "description" := VStr "Test Boolean 2" ]}) >>
             on_collection fizz
               (OAdd KStr "str2" "Newer String" {[ "description" := VStr "Test String 2" ]}) >>
             register fizz) w with
      | (Return _, w') => (Finished, w')
      | (Raise e, w') => (Propagated e, w')
      end
  end.

(** ** Further notions used by the statements *)

(** The tag each [add_<kind>] method writes into the descriptor. *)
Definition kind_tag (k : field_kind) : string :=
  match k with
  | KFloat => "float" | KBool => "bool" | KStr => "str"
  | KVec2 => "vec2" | KVec3 => "vec3" | KRgb => "rgb"
  | KRgba => "rgba" | KEnum => "enum" | KFile => "file"
  | KDir => "dir"
  end.



(** The keys of the table the registrars were made for, in the order of
    their construction. *)
Definition keys_of (w : world) : list string :=
  (λ d, get_key (DynamicProperties.bpy_type d) (DynamicProperties.name d)) <$> heap w.

(** Every registrar that holds classes is the entry of the table under its
    own key. *)
Definition findable (w : world) : Prop :=
  ∀ a d c, heap w !! a = Some d → holds d c →
    registered_properties w
      !! get_key (DynamicProperties.bpy_type d) (DynamicProperties.name d) = Some a.

(** The collection [DEMO_OT_change_fizz.invoke] leaves in the registrar. *)
Definition changed_fizz : PropertyCollection.t :=
  run_ops change_fizz_ops (PropertyCollection.Build ∅ ∅).

(** * Field collections *)

Section collection.

Implicit Types (c : PropertyCollection.t) (kwargs : gmap string pyval).

Lemma remove_fresh_insert c key p m :
  PropertyCollection.props c !! key = None →
  PropertyCollection.meta c !! key = None →
  PropertyCollection.remove key
    (PropertyCollection.Build (<[key := p]> (PropertyCollection.props c))
                              (<[key := m]> (PropertyCollection.meta c))) = c.
Proof.
  intros Hp Hm. destruct c as [ps ms]; simpl in *.
  unfold PropertyCollection.remove; simpl.
  rewrite !decide_True by (apply elem_of_dom; rewrite lookup_insert_eq; eauto).
  rewrite !delete_insert_eq, !delete_id by done. reflexivity.
Qed.

Lemma add_kind_shape k key name kwargs c :
  add_kind k key name kwargs c =
  PropertyCollection.Build
    (<[key := BpyProp (kind_ctor k) (kind_entries k name ∪ kwargs)]> (PropertyCollection.props c))
    (<[key := Meta (match k with
                    | KFloat => "float" | KBool => "bool" | KStr => "str"
                    | KVec2 => "vec2" | KVec3 => "vec3" | KRgb => "rgb"
                    | KRgba => "rgba" | KEnum => "enum" | KFile => "file"
                    | KDir => "dir" end)
               name (dict_get kwargs "description" (VStr ""))]> (PropertyCollection.meta c)).
Proof. destruct k; reflexivity. Qed.

Lemma clear_shape enabled c :
  PropertyCollection.clear enabled c =
  PropertyCollection.Build {[ "enabled" := enabled_prop enabled ]}
                           {[ "enabled" := Meta "bool" "enabled" (VStr "") ]}.
Proof.
  unfold PropertyCollection.clear, PropertyCollection.add_bool, enabled_prop, unpack2; simpl.
  rewrite <- insert_union_singleton_l, !insert_empty.
  reflexivity.
Qed.

Lemma run_op_keeps_enabled o c :
  op_key o ≠ Some "enabled" →
  enabled_is_bool c = true → enabled_is_bool (run_op o c) = true.
Proof.
  intros Hk Hc. destruct o as [k key name kwargs|key name descr|key text|key|en]; simpl in *.
  - assert (key ≠ "enabled") by congruence.
    rewrite add_kind_shape. unfold enabled_is_bool in *; simpl.
    by rewrite !lookup_insert_ne.
  - assert (key ≠ "enabled") by congruence.
    unfold enabled_is_bool, PropertyCollection.add_image in *; simpl.
    by rewrite !lookup_insert_ne.
  - assert (key ≠ "enabled") by congruence.
    unfold enabled_is_bool, PropertyCollection.add_header in *; simpl.
    by rewrite !lookup_insert_ne.
  - assert (key ≠ "enabled") by congruence.
    unfold enabled_is_bool, PropertyCollection.remove in *; simpl.
    repeat case_decide; by rewrite ?lookup_delete_ne.
  - rewrite clear_shape. reflexivity.
Qed.

Lemma run_ops_keep_enabled os c :
  Forall (λ o, op_key o ≠ Some "enabled") os →
  enabled_is_bool c = true → enabled_is_bool (run_ops os c) = true.
Proof.
  intros Hos. revert c. induction Hos as [|o os Ho _ IH]; intros c Hc; [done|].
  apply IH. by apply run_op_keeps_enabled.
Qed.

Lemma declared_insert c key p m :
  declared c →
  declared (PropertyCollection.Build (<[key := p]> (PropertyCollection.props c))
                                     (<[key := m]> (PropertyCollection.meta c))).
Proof.
  intros Hc key' m'. simpl. destruct (decide (key = key')) as [->|Hne].
  - rewrite !lookup_insert_eq. eauto.
  - rewrite !lookup_insert_ne by done. apply Hc.
Qed.

Lemma run_op_declared o c : declared c → declared (run_op o c).
Proof.
  intros Hc. destruct o as [k key name kwargs|key name descr|key text|key|en]; simpl.
  - rewrite add_kind_shape. by apply declared_insert.
  - by apply declared_insert.
  - intros key' m'. unfold PropertyCollection.add_header; simpl.
    destruct (decide (key = key')) as [->|Hne].
    + rewrite lookup_insert_eq. by intros [= <-] [].
    + rewrite lookup_insert_ne by done. apply Hc.
  - intros key' m'. unfold PropertyCollection.remove; simpl.
    destruct (decide (key = key')) as [->|Hne].
    + case_decide as Hin.
      * by rewrite lookup_delete_eq.
      * intros Hm. destruct Hin. apply elem_of_dom. by eexists.
    + intros Hm Hk. assert (PropertyCollection.meta c !! key' = Some m') as Hm'.
      { destruct (decide (key ∈ dom (PropertyCollection.meta c)));
          [by rewrite lookup_delete_ne in Hm|done]. }
      destruct (decide (key ∈ dom (PropertyCollection.props c)));
        rewrite ?lookup_delete_ne by done; by apply (Hc key' m').
  - rewrite clear_shape. intros key' m'. simpl.
    destruct (decide ("enabled" = key')) as [<-|Hne].
    + rewrite !lookup_singleton_eq. eauto.
    + by rewrite lookup_singleton_ne.
Qed.

Lemma run_ops_declared os enabled :
  declared (run_ops os (PropertyCollection.init enabled)).
Proof.
  assert (Hinit : declared (PropertyCollection.init enabled)).
  { apply (run_op_declared (OClear enabled) (PropertyCollection.Build ∅ ∅)).
    intros key m Hm. simpl in Hm. by rewrite lookup_empty in Hm. }
  revert Hinit. generalize (PropertyCollection.init enabled).
  induction os as [|o os IH]; intros c Hc; [done|].
  simpl. apply IH. by apply run_op_declared.
Qed.

End collection.

(** C3, as amended.  The dictionary handed to the field constructor is the
    caller's options merged with the entries the method writes itself, and
    the method's entries win on every key they define: [name] for every
    kind, [size] for the vector and colour kinds, [subtype] for the file,
    directory and colour kinds, [min] and [max] for the colour kinds.  Every
    other option of the caller is passed through unchanged.  In particular
    RGB and RGBA always carry subtype COLOR and the range 0.0 to 1.0. *)
Theorem add_kind_options (k : field_kind) (key name : string)
    (kwargs : gmap string pyval) (c : PropertyCollection.t) :
  ∃ args,
    PropertyCollection.props (add_kind k key name kwargs c) !! key
      = Some (BpyProp (kind_ctor k) args)
    ∧ passed_options k key name kwargs c = Some args
    ∧ (∀ o v, kind_entries k name !! o = Some v → args !! o = Some v)
    ∧ (∀ o, kind_entries k name !! o = None → args !! o = kwargs !! o)
    ∧ (k = KRgb ∨ k = KRgba →
       args !! "subtype" = Some (VStr "COLOR")
       ∧ args !! "min" = Some (VFloat (0 # 1))
       ∧ args !! "max" = Some (VFloat (1 # 1))).
Proof.
  exists (kind_entries k name ∪ kwargs).
  assert (Hshape := add_kind_shape k key name kwargs c).
  split; [by rewrite Hshape; simpl; rewrite lookup_insert_eq|].
  split; [by unfold passed_options; rewrite Hshape; simpl; rewrite lookup_insert_eq|].
  split; [intros o v Ho; by apply lookup_union_Some_l|].
  split; [intros o Ho; by apply lookup_union_r|].
  intros [-> | ->]; repeat split; by apply lookup_union_Some_l.
Qed.

Lemma add_kind_options_witness :
  passed_options KRgb "diffuse" "Diffuse"
    (<["min" := VFloat (5 # 1)]> {[ "description" := VStr "Diffuse color" ]})
    (PropertyCollection.init true) ≫= (.!! "min") = Some (VFloat (0 # 1))
  ∧ passed_options KRgb "diffuse" "Diffuse"
    (<["min" := VFloat (5 # 1)]> {[ "description" := VStr "Diffuse color" ]})
    (PropertyCollection.init true) ≫= (.!! "description") = Some (VStr "Diffuse color").
Proof.
  destruct (add_kind_options KRgb "diffuse" "Diffuse"
              (<["min" := VFloat (5 # 1)]> {[ "description" := VStr "Diffuse color" ]})
              (PropertyCollection.init true)) as (args & _ & -> & _ & Hpass & Hrgb).
  simpl. split.
  - apply Hrgb. by left.
  - rewrite Hpass; reflexivity.
Defined.

(** C3, as stated, fails: a caller's [size] does not win over the size the
    vector kind writes. *)
Lemma vec2_size_is_forced :
  passed_options KVec2 "v" "V" {[ "size" := VInt 3 ]} (PropertyCollection.init true)
    ≫= (.!! "size") = Some (VInt 2)
  ∧ spec_options KVec2 "V" {[ "size" := VInt 3 ]} !! "size" = Some (VInt 3)
  ∧ passed_options KVec2 "v" "V" {[ "size" := VInt 3 ]} (PropertyCollection.init true)
    ≠ Some (spec_options KVec2 "V" {[ "size" := VInt 3 ]}).
Proof.
  split; [reflexivity|]. split; [reflexivity|].
  intros H. apply (f_equal (λ o : option (gmap string pyval), o ≫= (.!! "size"))) in H.
  vm_compute in H. congruence.
Qed.

(** C4, as amended.  As long as no add, header or remove call names the key
    [enabled], the collection contains the reserved field and it is declared
    as a boolean, whatever the sequence of operations (clear included). *)
Theorem enabled_kept_when_untouched (enabled : bool) (os : list coll_op) :
  Forall (λ o, op_key o ≠ Some "enabled") os →
  enabled_is_bool (run_ops os (PropertyCollection.init enabled)) = true.
Proof.
  intros Hos. apply run_ops_keep_enabled; [done|].
  unfold PropertyCollection.init. by rewrite clear_shape.
Qed.

Lemma enabled_kept_when_untouched_witness :
  enabled_is_bool
    (run_ops [OAdd KFloat "my_float" "Foo Float" ∅; OAddHeader "my_header" "More";
              ORemove "my_float"; OClear false; OAddImage "tex" "Texture" ""]
       (PropertyCollection.init true)) = true.
Proof.
  apply (enabled_kept_when_untouched true).
  repeat constructor; simpl; congruence.
Defined.

(** C4, as stated, fails: [remove] deletes the reserved field, and an add or
    a header under its key changes its kind. *)
Lemma enabled_can_be_removed :
  enabled_is_bool (run_ops [ORemove "enabled"] (PropertyCollection.init true)) = false
  ∧ PropertyCollection.meta (run_ops [ORemove "enabled"] (PropertyCollection.init true))
      !! "enabled" = None
  ∧ meta_kind <$> PropertyCollection.meta
      (run_ops [OAdd KFloat "enabled" "e" ∅] (PropertyCollection.init true)) !! "enabled"
    = Some "float".
Proof. repeat split; vm_compute; reflexivity. Qed.

(** C5, as amended.  For a key that the collection does not hold, neither
    among the descriptors nor among the constructors, an add of any kind
    followed at once by [remove] of that key gives back the collection, both
    mappings included. *)
Theorem add_then_remove_fresh (key name : string) (c : PropertyCollection.t) :
  PropertyCollection.props c !! key = None →
  PropertyCollection.meta c !! key = None →
  (∀ k kwargs, PropertyCollection.remove key (add_kind k key name kwargs c) = c)
  ∧ (∀ description,
       PropertyCollection.remove key (PropertyCollection.add_image key name description c) = c).
Proof.
  intros Hp Hm. split.
  - intros k kwargs. rewrite add_kind_shape. by apply remove_fresh_insert.
  - intros description. unfold PropertyCollection.add_image. by apply remove_fresh_insert.
Qed.

Lemma add_then_remove_fresh_witness :
  PropertyCollection.remove "f"
    (PropertyCollection.add_float "f" "F" {[ "default" := VFloat (1 # 1) ]}
       (PropertyCollection.init true))
  = PropertyCollection.init true.
Proof.
  apply (proj1 (add_then_remove_fresh "f" "F" (PropertyCollection.init true)
                  eq_refl eq_refl) KFloat).
Defined.

(** C5, as stated, fails for a key the collection already holds: the add
    overwrites the field and the remove deletes it. *)
Lemma add_then_remove_existing :
  let c := PropertyCollection.add_float "f" "F" ∅ (PropertyCollection.init true) in
  PropertyCollection.remove "f" (PropertyCollection.add_float "f" "F" ∅ c) ≠ c
  ∧ PropertyCollection.meta c !! "f" = Some (Meta "float" "F" (VStr ""))
  ∧ PropertyCollection.meta
      (PropertyCollection.remove "f" (PropertyCollection.add_float "f" "F" ∅ c)) !! "f" = None.
Proof.
  split; [|split; vm_compute; reflexivity].
  intros H. apply (f_equal (λ c, PropertyCollection.meta c !! "f")) in H.
  vm_compute in H. congruence.
Qed.

(** C6.  Whatever the collection held, [clear] leaves exactly one field, the
    reserved [enabled] boolean with the given default, in both mappings; a
    new collection starts in that state. *)
Theorem clear_leaves_only_enabled (c : PropertyCollection.t) (enabled : bool) :
  PropertyCollection.clear enabled c
    = PropertyCollection.Build {[ "enabled" := enabled_prop enabled ]}
                               {[ "enabled" := Meta "bool" "enabled" (VStr "") ]}
  ∧ dom (PropertyCollection.meta (PropertyCollection.clear enabled c)) = {[ "enabled" ]}
  ∧ dom (PropertyCollection.props (PropertyCollection.clear enabled c)) = {[ "enabled" ]}
  ∧ prop_args (enabled_prop enabled) !! "default" = Some (VBool enabled)
  ∧ enabled_is_bool (PropertyCollection.clear enabled c) = true
  ∧ PropertyCollection.init enabled = PropertyCollection.clear enabled c.
Proof.
  unfold PropertyCollection.init. rewrite !clear_shape; simpl.
  rewrite !dom_singleton_L. repeat split.
Qed.

(** * Records: [items] *)

Section items.

Import BaseDynamicPropertyGroup.

Lemma items_step_listed self key mm v d :
  listed key mm → values self !! key = Some v →
  items_step self key mm (Return d) = Return (<[key := item_of mm v]> d).
Proof.
  intros [Hk Hh] Hv. unfold items_step, getattr.
  rewrite !bool_decide_eq_true_2 by done. simpl. by rewrite Hv.
Qed.

Lemma items_step_skipped self key mm d :
  ¬ listed key mm → items_step self key mm (Return d) = Return d.
Proof.
  intros Hn. unfold items_step.
  destruct (bool_decide (key ≠ "enabled")) eqn:E1; [|done].
  destruct (bool_decide (meta_kind mm ≠ "header")) eqn:E2; [|done].
  apply bool_decide_eq_true_1 in E1, E2. destruct Hn. by split.
Qed.

Lemma items_fold self (m : gmap string meta_entry) :
  (∀ key mm, m !! key = Some mm → listed key mm → is_Some (values self !! key)) →
  ∃ d, map_fold (items_step self) (Return ∅) m = Return d ∧ items_of self m d.
Proof.
  revert m. apply (map_fold_weak_ind (λ r m,
    (∀ key mm, m !! key = Some mm → listed key mm → is_Some (values self !! key)) →
    ∃ d, r = Return d ∧ items_of self m d)).
  - intros _. exists ∅. split; [done|]. intros key e. rewrite lookup_empty. split; [done|].
    intros (mm & v & Hm & _). by rewrite lookup_empty in Hm.
  - intros i x m r Hi IH Hall.
    destruct IH as (d & -> & Hd).
    { intros key mm Hm. apply Hall. rewrite lookup_insert_ne; [done|]. congruence. }
    destruct (decide (listed i x)) as [Hl|Hl].
    + destruct (Hall i x) as [v Hv]; [by rewrite lookup_insert_eq|done|].
      exists (<[i := item_of x v]> d). split; [by apply items_step_listed|].
      intros key e. destruct (decide (key = i)) as [->|Hne].
      * rewrite lookup_insert_eq. split.
        -- intros [= <-]. exists x, v. by rewrite lookup_insert_eq.
        -- intros (mm & v' & Hm & _ & Hv' & ->). rewrite lookup_insert_eq in Hm. congruence.
      * rewrite lookup_insert_ne by done. rewrite (Hd key e).
        split; intros (mm & v' & Hm & ?); exists mm, v'.
        -- by rewrite lookup_insert_ne.
        -- by rewrite lookup_insert_ne in Hm.
    + exists d. split; [by apply items_step_skipped|].
      intros key e. rewrite (Hd key e). split.
      * intros (mm & v' & Hm & ?). exists mm, v'. rewrite lookup_insert_ne; [done|]. congruence.
      * intros (mm & v' & Hm & Hl' & ?). exists mm, v'.
        destruct (decide (key = i)) as [->|Hne].
        -- rewrite lookup_insert_eq in Hm. congruence.
        -- by rewrite lookup_insert_ne in Hm.
Qed.

(** The hypothesis of [items_fold] is needed: a listed descriptor without a
    value makes the loop raise. *)
Lemma items_raises_without_value self :
  (∃ key mm, meta self !! key = Some mm ∧ listed key mm ∧ values self !! key = None) →
  ∃ e, items self = Raise e.
Proof.
  unfold items. generalize (meta self).
  apply (map_fold_weak_ind (λ r m,
    (∃ key mm, m !! key = Some mm ∧ listed key mm ∧ values self !! key = None) →
    ∃ e, r = Raise e)).
  - intros (key & mm & Hm & _). by rewrite lookup_empty in Hm.
  - intros i x m r Hi IH (key & mm & Hm & Hl & Hv).
    destruct (decide (key = i)) as [->|Hne].
    + rewrite lookup_insert_eq in Hm. injection Hm as ->.
      destruct r as [d|e]; [|by exists e].
      destruct Hl as [Hk Hh]. unfold items_step, getattr.
      rewrite !bool_decide_eq_true_2 by done. simpl. rewrite Hv. by eexists.
    + rewrite lookup_insert_ne in Hm by done.
      destruct IH as [e ->]; [by exists key, mm|]. by exists e.
Qed.

(** A record that has a value for every constructor of a collection built
    by the operations meets the hypothesis of [items_fold]. *)
Lemma items_of_built_collection os enabled (vals : gmap string pyval) :
  dom (PropertyCollection.props (run_ops os (PropertyCollection.init enabled))) ⊆ dom vals →
  ∃ d, items (Build (PropertyCollection.meta (run_ops os (PropertyCollection.init enabled)))
                vals) = Return d.
Proof.
  intros Hdom.
  set (self := Build (PropertyCollection.meta (run_ops os (PropertyCollection.init enabled)))
                 vals).
  destruct (items_fold self (meta self)) as (d & Hd & _); [|by exists d].
  simpl. intros key mm Hm [_ Hh].
  apply elem_of_dom, Hdom, elem_of_dom. by apply (run_ops_declared os enabled key mm).
Qed.

End items.




(** * The registrar *)

Section registrar.

Implicit Types (w : world) (d : DynamicProperties.t) (c : bpy_class) (h : list bpy_class).

Lemma installed_true c h : installed c h = true ↔ cls_id c ∈ cls_id <$> h.
Proof. unfold installed. apply bool_decide_eq_true. Qed.

Lemma installed_false c h : installed c h = false ↔ cls_id c ∉ cls_id <$> h.
Proof. unfold installed. apply bool_decide_eq_false. Qed.

Lemma installed_elem_of c h : c ∈ h → installed c h = true.
Proof. intros Hc. apply installed_true. by apply list_elem_of_fmap_2. Qed.

Lemma installed_subset c h h' :
  (∀ x, x ∈ h' → x ∈ h) → installed c h = false → installed c h' = false.
Proof.
  rewrite !installed_false, !list_elem_of_fmap. intros Hsub Hn (x & Hid & Hin).
  apply Hn. exists x. split; [done|]. by apply Hsub.
Qed.

Lemma remove_class_absent c h : installed c h = false → remove_class c h = h.
Proof.
  rewrite installed_false. unfold remove_class. induction h as [|x h IH]; [done|].
  rewrite fmap_cons, not_elem_of_cons. intros [Hx Hh].
  rewrite filter_cons_True by congruence. by rewrite IH.
Qed.

Lemma elem_of_remove_class c c' h :
  c' ∈ remove_class c h ↔ cls_id c' ≠ cls_id c ∧ c' ∈ h.
Proof. unfold remove_class. apply (list_elem_of_filter (λ x, cls_id x ≠ cls_id c)). Qed.

Lemma elem_of_drop_attr a c' h :
  c' ∈ drop_attr a h → c' ∈ h ∧ ∀ c, a = Obj c → cls_id c' ≠ cls_id c.
Proof.
  destruct a as [| |c]; simpl; [by split|by split|].
  rewrite elem_of_remove_class. intros [? ?]. split; [done|]. by intros ? [= <-].
Qed.

Lemma elem_of_drop_attr_2 (a : attr bpy_class) c' h :
  c' ∈ h → (∀ c, a = Obj c → cls_id c' ≠ cls_id c) → c' ∈ drop_attr a h.
Proof.
  intros Hin Hne. destruct a as [| |c]; simpl; [done|done|].
  apply elem_of_remove_class. split; [|done]. by apply Hne.
Qed.

Lemma installed_remove_class c h : installed c (remove_class c h) = false.
Proof.
  apply installed_false. rewrite list_elem_of_fmap. intros (c' & Hid & Hin).
  apply elem_of_remove_class in Hin as [Hne _]. congruence.
Qed.

Lemma NoDup_fmap_filter {A B} (f : A → B) (P : A → Prop) `{!∀ x, Decision (P x)}
    (l : list A) :
  NoDup (f <$> l) → NoDup (f <$> filter P l).
Proof.
  induction l as [|x l IH]; [done|].
  rewrite fmap_cons, NoDup_cons. intros [Hx Hl]. rewrite filter_cons.
  destruct (decide (P x)); [|by apply IH].
  rewrite fmap_cons, NoDup_cons. split; [|by apply IH].
  rewrite list_elem_of_fmap. intros (y & Hy & Hin).
  apply list_elem_of_filter in Hin as [_ Hin].
  apply Hx. rewrite Hy. by apply list_elem_of_fmap_2.
Qed.

Lemma NoDup_ids_drop_attr a h :
  NoDup (cls_id <$> h) → NoDup (cls_id <$> drop_attr a h).
Proof. destruct a; simpl; [done|done|]. apply NoDup_fmap_filter. Qed.

(** ** What the host's primitives leave alone *)

Lemma unregister_class_frame o w :
  heap (unregister_class o w).2 = heap w
  ∧ dicts (unregister_class o w).2 = dicts w
  ∧ registered_properties (unregister_class o w).2 = registered_properties w
  ∧ next_class (unregister_class o w).2 = next_class w
  ∧ verdict_of (unregister_class o w).2 = verdict_of w.
Proof.
  destruct o as [[cls|cls]|]; simpl; [| |done].
  - destruct (installed _ _); [|done]. unfold PropertyGroup_unregister.
    by destruct (type_attrs w !! _).
  - by destruct (installed _ _).
Qed.

Lemma unregister_class_host o w :
  host (unregister_class o w).2 = host w
  ∨ ∃ c, o = Some c ∧ host (unregister_class o w).2 = remove_class c (host w).
Proof.
  destruct o as [[cls|cls]|]; simpl; [| |by left].
  - destruct (installed _ _); [|by left]. unfold PropertyGroup_unregister.
    destruct (type_attrs w !! _); [|by left]. right. by eexists.
  - destruct (installed _ _); [|by left]. right. by eexists.
Qed.

Lemma try_drop_frame (a : attr bpy_class) w :
  heap (try_drop a w) = heap w
  ∧ dicts (try_drop a w) = dicts w
  ∧ registered_properties (try_drop a w) = registered_properties w
  ∧ next_class (try_drop a w) = next_class w
  ∧ verdict_of (try_drop a w) = verdict_of w.
Proof. destruct a as [| |c]; [done|done|]. apply (unregister_class_frame (Some c) w). Qed.

Lemma try_drop_host (a : attr bpy_class) w :
  host (try_drop a w) = host w ∨ host (try_drop a w) = drop_attr a (host w).
Proof.
  destruct a as [| |c]; [by left|by left|].
  destruct (unregister_class_host (Some c) w) as [H|(c' & [= <-] & H)]; [by left|by right].
Qed.

Lemma try_drop_sub (a : attr bpy_class) w c : c ∈ host (try_drop a w) → c ∈ host w.
Proof.
  destruct (try_drop_host a w) as [-> | ->]; [done|].
  intros Hc. by apply elem_of_drop_attr in Hc as [? _].
Qed.


Lemma try_drop_nodup (a : attr bpy_class) w :
  NoDup (cls_id <$> host w) → NoDup (cls_id <$> host (try_drop a w)).
Proof.
  destruct (try_drop_host a w) as [-> | ->]; [done|]. apply NoDup_ids_drop_attr.
Qed.

(** A panel class has no class method: the host takes it out whenever it
    is installed. *)
Lemma try_drop_panel cls w :
  try_drop (Obj (PanelCls cls)) w = set_host (remove_class (PanelCls cls) (host w)) w.
Proof.
  simpl. destruct (installed _ _) eqn:E; simpl; [done|].
  rewrite remove_class_absent by done. by destruct w.
Qed.

(** A record class is taken out when the pointer attribute of its group is
    there to delete, and stays installed when it is not. *)
Lemma try_drop_record cls w :
  installed (RecordCls cls) (host w) = true →
  try_drop (Obj (RecordCls cls)) w
  = match type_attrs w !! (__name__ (pc_bpy_type cls), pc_name cls) with
    | Some _ =>
        set_rna_properties (delete (pc_id cls) (rna_properties w))
          (set_host (remove_class (RecordCls cls) (host w))
             (set_type_attrs (delete (__name__ (pc_bpy_type cls), pc_name cls) (type_attrs w)) w))
    | None => w
    end.
Proof.
  intros Hin. simpl. rewrite Hin. unfold PropertyGroup_unregister.
  by destruct (type_attrs w !! _).
Qed.


(** The pointer attributes of other groups are not touched. *)
Lemma try_drop_attrs (a : attr bpy_class) w (p : string * string) :
  (∀ cls, a = Obj (RecordCls cls) → p ≠ (__name__ (pc_bpy_type cls), pc_name cls)) →
  type_attrs (try_drop a w) !! p = type_attrs w !! p.
Proof.
  intros Hp. destruct a as [| |[cls|cls]]; simpl; [done|done| |].
  - destruct (installed _ _); [|done]. unfold PropertyGroup_unregister.
    destruct (type_attrs w !! _); [|done]. simpl.
    apply lookup_delete_ne. intros Heq. by apply (Hp cls).
  - by destruct (installed _ _).
Qed.

(** ** [unregister] *)

(** Taking out the class held by an attribute, as [unregister] tries it. *)
Lemma try_unregister_attr what (a : attr bpy_class) w :
  try_pass (let! c := read_attr what a in unregister_class c) w
  = (Return tt, try_drop a w).
Proof.
  unfold try_pass, bind, read_attr, raise, ret. destruct a as [| |c]; [done| |].
  - unfold unregister_class, raise. reflexivity.
  - cbn [try_drop]. by destruct (unregister_class (Some c) w) as [[[]|e] w'].
Qed.

Lemma unregister_spec self d w :
  heap w !! self = Some d →
  unregister self w = (Return tt, after_unregister self d w).
Proof.
  intros Hd. unfold unregister.
  assert (Hstep : ∀ what (f : DynamicProperties.t → attr bpy_class) w',
    heap w' !! self = Some d →
    try_pass (let! d := get_self self in let! c := read_attr what (f d) in unregister_class c) w'
    = (Return tt, try_drop (f d) w')).
  { intros what f w' Hd'. rewrite <- (try_unregister_attr what (f d) w').
    unfold try_pass, bind, get_self. by rewrite Hd'. }
  unfold bind at 1. rewrite (Hstep _ DynamicProperties.property_class w Hd).
  set (w1 := try_drop (DynamicProperties.property_class d) w).
  assert (Hd1 : heap w1 !! self = Some d).
  { unfold w1. by rewrite (proj1 (try_drop_frame _ w)). }
  unfold bind at 1. rewrite (Hstep _ DynamicProperties.panel_class w1 Hd1).
  set (w2 := try_drop (DynamicProperties.panel_class d) w1).
  assert (Hd2 : heap w2 !! self = Some d).
  { unfold w2. by rewrite (proj1 (try_drop_frame _ w1)). }
  unfold after_unregister. fold w1. fold w2.
  assert (Hlt := lookup_lt_Some _ _ _ Hd2).
  unfold bind at 1. unfold try_pass at 1, bind at 1, get_self at 1. rewrite Hd2.
  unfold del_registered, bind, update_self; simpl.
  destruct (registered_properties w2 !! _) eqn:Ht; simpl; rewrite Hd2; simpl;
    rewrite list_lookup_insert_eq by done; simpl;
    rewrite list_insert_insert_eq; [done|].
  by rewrite delete_id.
Qed.

Lemma unregister_dangling self w :
  heap w !! self = None → (unregister self w).2 = w.
Proof.
  intros Hd. unfold unregister, bind, try_pass, get_self, update_self; simpl.
  rewrite !Hd. reflexivity.
Qed.

Lemma after_unregister_frame self d w :
  heap (after_unregister self d w) = <[self := unregistered d]> (heap w)
  ∧ dicts (after_unregister self d w) = dicts w
  ∧ registered_properties (after_unregister self d w)
    = delete (get_key (DynamicProperties.bpy_type d) (DynamicProperties.name d))
             (registered_properties w)
  ∧ next_class (after_unregister self d w) = next_class w
  ∧ verdict_of (after_unregister self d w) = verdict_of w.
Proof.
  unfold after_unregister; simpl.
  destruct (try_drop_frame (DynamicProperties.panel_class d)
              (try_drop (DynamicProperties.property_class d) w)) as (-> & -> & -> & -> & ->).
  destruct (try_drop_frame (DynamicProperties.property_class d) w)
    as (-> & -> & -> & -> & ->).
  done.
Qed.

Lemma after_unregister_host self d w :
  host (after_unregister self d w)
  = host (try_drop (DynamicProperties.panel_class d)
            (try_drop (DynamicProperties.property_class d) w)).
Proof. reflexivity. Qed.

Lemma after_unregister_sub self d w c :
  c ∈ host (after_unregister self d w) → c ∈ host w.
Proof. rewrite after_unregister_host. intros Hc. by do 2 apply try_drop_sub in Hc. Qed.


Lemma after_unregister_nodup self d w :
  NoDup (cls_id <$> host w) → NoDup (cls_id <$> host (after_unregister self d w)).
Proof. intros H. rewrite after_unregister_host. by do 2 apply try_drop_nodup. Qed.

(** ** [register_class] *)

Lemma install_record_frame cls P w :
  heap (install_record cls P w) = heap w
  ∧ registered_properties (install_record cls P w) = registered_properties w
  ∧ next_class (install_record cls P w) = next_class w
  ∧ verdict_of (install_record cls P w) = verdict_of w
  ∧ length (dicts (install_record cls P w)) = length (dicts w)
  ∧ host (install_record cls P w) = (host w ++ [RecordCls cls])%list
  ∧ type_attrs (install_record cls P w) = type_attrs w.
Proof.
  unfold install_record; simpl. destruct (dicts w !! _); simpl; [|done].
  by rewrite length_insert.
Qed.

Lemma register_class_frame c w :
  heap (register_class c w).2 = heap w
  ∧ registered_properties (register_class c w).2 = registered_properties w
  ∧ next_class (register_class c w).2 = next_class w
  ∧ verdict_of (register_class c w).2 = verdict_of w
  ∧ length (dicts (register_class c w).2) = length (dicts w).
Proof.
  unfold register_class. destruct (installed _ _); [done|].
  destruct c as [cls|cls]; destruct (verdict_of w _); simpl; try done.
  - destruct (install_record_frame cls (λ _, true) w) as (? & ? & ? & ? & ? & _). done.
  - destruct (install_record_frame cls (λ key, bool_decide (key ∈ defined)) w)
      as (? & ? & ? & ? & ? & _). done.
Qed.

Lemma elem_of_displace cls c h : c ∈ displace cls h ↔ same_panel cls c = false ∧ c ∈ h.
Proof. unfold displace. apply (list_elem_of_filter (λ x, same_panel cls x = false)). Qed.

Lemma displace_none cls h :
  (∀ c, c ∈ h → same_panel cls c = false) → displace cls h = h.
Proof.
  unfold displace. induction h as [|x h IH]; [done|]. intros Hall.
  rewrite filter_cons_True by (apply Hall; left).
  rewrite IH; [done|]. intros c Hc. apply Hall. by right.
Qed.

Lemma register_class_sub c w x :
  x ∈ host (register_class c w).2 → x ∈ host w ∨ x = c.
Proof.
  unfold register_class. destruct (installed _ _); [by left|].
  destruct c as [cls|cls]; destruct (verdict_of w _); simpl; try (by left).
  - rewrite (proj1 (proj2 (proj2 (proj2 (proj2 (proj2
              (install_record_frame cls (λ _, true) w))))))).
    rewrite elem_of_app, list_elem_of_singleton. tauto.
  - rewrite (proj1 (proj2 (proj2 (proj2 (proj2 (proj2
              (install_record_frame cls (λ key, bool_decide (key ∈ defined)) w))))))).
    rewrite elem_of_app, list_elem_of_singleton. tauto.
  - rewrite elem_of_app, list_elem_of_singleton, elem_of_displace. tauto.
  - rewrite elem_of_displace. tauto.
Qed.

Lemma register_class_nodup c w :
  NoDup (cls_id <$> host w) → NoDup (cls_id <$> host (register_class c w).2).
Proof.
  intros Hnd. unfold register_class. destruct (installed _ _) eqn:E; [done|].
  apply installed_false in E.
  assert (Hsnoc : ∀ h, NoDup (cls_id <$> h) → (∀ x, x ∈ h → x ∈ host w) →
            NoDup (cls_id <$> (h ++ [c])%list)).
  { intros h Hh Hsub. rewrite fmap_app. apply NoDup_app. split; [done|]. split.
    - intros i (x & -> & Hx)%list_elem_of_fmap. simpl. rewrite list_elem_of_singleton.
      intros Hid. apply E. rewrite <- Hid. by apply list_elem_of_fmap_2, Hsub.
    - simpl. apply NoDup_singleton. }
  destruct c as [cls|cls]; destruct (verdict_of w _); simpl; try done.
  - rewrite (proj1 (proj2 (proj2 (proj2 (proj2 (proj2
              (install_record_frame cls (λ _, true) w))))))). by apply Hsnoc.
  - rewrite (proj1 (proj2 (proj2 (proj2 (proj2 (proj2
              (install_record_frame cls (λ key, bool_decide (key ∈ defined)) w))))))).
    by apply Hsnoc.
  - apply Hsnoc.
    + by apply NoDup_fmap_filter.
    + intros x Hx. by apply elem_of_displace in Hx as [_ ?].
  - by apply NoDup_fmap_filter.
Qed.

(** Only a panel class of the same name is taken out by [register_class]. *)
Lemma register_class_keeps c w x :
  x ∈ host w → (∀ cls, c = PanelCls cls → same_panel cls x = false) →
  x ∈ host (register_class c w).2.
Proof.
  intros Hx Hsame. unfold register_class. destruct (installed _ _); [done|].
  destruct c as [cls|cls]; destruct (verdict_of w _); simpl; try done.
  - rewrite (proj1 (proj2 (proj2 (proj2 (proj2 (proj2
              (install_record_frame cls (λ _, true) w))))))).
    apply elem_of_app. by left.
  - rewrite (proj1 (proj2 (proj2 (proj2 (proj2 (proj2
              (install_record_frame cls (λ key, bool_decide (key ∈ defined)) w))))))).
    apply elem_of_app. by left.
  - apply elem_of_app. left. apply elem_of_displace. split; [by apply Hsame|done].
  - apply elem_of_displace. split; [by apply Hsame|done].
Qed.

(** When [register_class] returns, the host had accepted the class, and the
    state is the one the installation makes. *)
Lemma register_class_record_returns cls w w' :
  register_class (RecordCls cls) w = (Return tt, w') →
  installed (RecordCls cls) (host w) = false
  ∧ verdict_of w (RecordCls cls) = Accept
  ∧ w' = set_type_attrs
           (PropertyGroup_register cls (type_attrs (install_record cls (λ _, true) w)))
           (install_record cls (λ _, true) w).
Proof.
  unfold register_class. destruct (installed _ _); [intros [=]|].
  destruct (verdict_of w _); intros [=]. done.
Qed.

Lemma register_class_panel_returns cls w w' :
  register_class (PanelCls cls) w = (Return tt, w') →
  installed (PanelCls cls) (host w) = false
  ∧ verdict_of w (PanelCls cls) = Accept
  ∧ w' = set_host (displace cls (host w) ++ [PanelCls cls]) w.
Proof.
  unfold register_class. destruct (installed _ _); [intros [=]|].
  destruct (verdict_of w _); intros [=]. done.
Qed.

Lemma register_class_record_accepted cls w :
  installed (RecordCls cls) (host w) = false →
  verdict_of w (RecordCls cls) = Accept →
  register_class (RecordCls cls) w
  = (Return tt,
     set_type_attrs
       (PropertyGroup_register cls (type_attrs (install_record cls (λ _, true) w)))
       (install_record cls (λ _, true) w)).
Proof. intros Hi Hv. unfold register_class. by rewrite Hi, Hv. Qed.

Lemma register_class_panel_accepted cls w :
  installed (PanelCls cls) (host w) = false →
  verdict_of w (PanelCls cls) = Accept →
  register_class (PanelCls cls) w
  = (Return tt, set_host (displace cls (host w) ++ [PanelCls cls]) w).
Proof. intros Hi Hv. unfold register_class. by rewrite Hi, Hv. Qed.

Lemma register_class_returns_installed c w w' :
  register_class c w = (Return tt, w') → c ∈ host w'.
Proof.
  destruct c as [cls|cls].
  - intros (_ & _ & ->)%register_class_record_returns. simpl.
    rewrite (proj1 (proj2 (proj2 (proj2 (proj2 (proj2
              (install_record_frame cls (λ _, true) w))))))).
    apply elem_of_app. right. left.
  - intros (_ & _ & ->)%register_class_panel_returns. simpl.
    apply elem_of_app. right. left.
Qed.

Lemma not_installed_above c h n :
  (∀ c', c' ∈ h → cls_id c' < n) → (n ≤ cls_id c)%nat → installed c h = false.
Proof.
  intros Hh Hn. apply installed_false. rewrite list_elem_of_fmap.
  intros (c' & Hid & Hin). apply Hh in Hin. lia.
Qed.

(** ** [register] *)

Lemma register_dangling self w :
  heap w !! self = None → (register self w).2 = w.
Proof. intros Hd. unfold register, bind, get_self. by rewrite Hd. Qed.

Lemma register_unrecognized self d w :
  heap w !! self = Some d →
  placement (__name__ (DynamicProperties.bpy_type d)) = None →
  register self w
  = (Raise (TypeError ("DynamicProperties cannot be associated to type "
                       ++ __name__ (DynamicProperties.bpy_type d))),
     set_next_class (S (S (next_class w))) w).
Proof.
  intros Hd Hp. unfold register, bind, get_self, new_class_id. rewrite Hd; simpl.
  by rewrite Hp.
Qed.

Lemma register_spec self d ctx w :
  heap w !! self = Some d →
  placement (__name__ (DynamicProperties.bpy_type d)) = Some ctx →
  register self w = attempt_register self d ctx w.
Proof.
  intros Hd Hp. unfold register.
  unfold bind at 1, get_self at 1. rewrite Hd.
  unfold bind at 1, new_class_id at 1.
  unfold bind at 1, new_class_id at 1. cbn [next_class set_next_class].
  unfold bind at 1. rewrite Hp. unfold ret at 1.
  change (set_next_class (S (S (next_class w)))
            (set_next_class (S (next_class w)) w))
    with (set_next_class (S (S (next_class w))) w).
  unfold bind at 1. rewrite (unregister_spec self d) by done.
  unfold attempt_register.
  set (n := next_class w).
  set (u := after_unregister self d _).
  assert (Hu : heap u !! self = Some (unregistered d)).
  { unfold u. rewrite (proj1 (after_unregister_frame self d _)). simpl.
    apply list_lookup_insert_eq. by eapply lookup_lt_Some. }
  unfold bind at 1.
  change (RecordCls (PropertyClass n _ _ _ _ _)) with (new_property_class n d).
  pose proof (register_class_frame (new_property_class n d) u) as (Hh1 & _).
  destruct (register_class (new_property_class n d) u) as [[[]|e1] u1]; [|done].
  simpl in Hh1. unfold bind at 1.
  change (PanelCls (PanelClass (S n) _ _ _ _ _ _ _ _)) with (new_panel_class n d ctx).
  pose proof (register_class_frame (new_panel_class n d ctx) u1) as (Hh2 & _).
  destruct (register_class (new_panel_class n d ctx) u1) as [[[]|e2] u2]; [|done].
  simpl in Hh2.
  assert (Hu2 : heap u2 !! self = Some (unregistered d)) by (by rewrite Hh2, Hh1).
  assert (Hlt := lookup_lt_Some _ _ _ Hu2).
  unfold bind, update_self. rewrite Hu2. simpl.
  rewrite list_lookup_insert_eq by done. simpl.
  rewrite list_insert_insert_eq. reflexivity.
Qed.

(** Whatever the host answers, [register] leaves the registrar either
    registered, with both handles and its entry in the table, or with both
    handles [None] and without entry, as [unregister] leaves it. *)
Lemma attempt_register_heap_table self d ctx w :
  let r := attempt_register self d ctx w in
  (r.1 = Return tt
   ∧ heap r.2 = <[self := registered_as (next_class w) d ctx]> (heap w)
   ∧ registered_properties r.2
     = <[get_key (DynamicProperties.bpy_type d) (DynamicProperties.name d) := self]>
         (delete (get_key (DynamicProperties.bpy_type d) (DynamicProperties.name d))
                 (registered_properties w)))
  ∨ ((∃ e, r.1 = Raise e)
     ∧ heap r.2 = <[self := unregistered d]> (heap w)
     ∧ registered_properties r.2
       = delete (get_key (DynamicProperties.bpy_type d) (DynamicProperties.name d))
                (registered_properties w)).
Proof.
  unfold attempt_register.
  set (u := after_unregister self d _).
  destruct (after_unregister_frame self d (set_next_class (S (S (next_class w))) w))
    as (Hh & _ & Ht & _). fold u in Hh, Ht. simpl in Hh, Ht.
  pose proof (register_class_frame (new_property_class (next_class w) d) u)
    as (Hh1 & Ht1 & _).
  destruct (register_class (new_property_class (next_class w) d) u) as [[[]|e1] u1];
    simpl in Hh1, Ht1.
  2:{ right. simpl. split; [by eexists|]. by rewrite Hh1, Ht1. }
  pose proof (register_class_frame (new_panel_class (next_class w) d ctx) u1)
    as (Hh2 & Ht2 & _).
  destruct (register_class (new_panel_class (next_class w) d ctx) u1) as [[[]|e2] u2];
    simpl in Hh2, Ht2.
  2:{ right. simpl. split; [by eexists|]. by rewrite Hh2, Hh1, Ht2, Ht1. }
  left. simpl. split; [done|].
  rewrite Hh2, Hh1, Hh, Ht2, Ht1, Ht. by rewrite list_insert_insert_eq.
Qed.

(** Whenever [register] returns, its last step has entered the registrar
    in the table. *)
Lemma register_returns_entry self d w w' :
  heap w !! self = Some d →
  register self w = (Return tt, w') →
  registered_properties w'
    !! get_key (DynamicProperties.bpy_type d) (DynamicProperties.name d) = Some self.
Proof.
  intros Hd Hreg.
  destruct (placement (__name__ (DynamicProperties.bpy_type d))) as [ctx|] eqn:Hp.
  2:{ by rewrite (register_unrecognized self d) in Hreg. }
  rewrite (register_spec self d ctx) in Hreg by done.
  destruct (attempt_register_heap_table self d ctx w) as [(_ & _ & Ht)|([e He] & _)];
    rewrite Hreg in *; simpl in *; [|done].
  rewrite Ht. apply lookup_insert_eq.
Qed.

Lemma recognized_names bpy_type :
  recognized bpy_type ↔
  __name__ bpy_type ∈ ["Light"; "Material"; "Object"; "RenderEngine"].
Proof.
  unfold recognized, placement. rewrite !elem_of_cons, elem_of_nil. split.
  - intros H.
    destruct (String.eqb_spec (__name__ bpy_type) "Light"); [by left|].
    destruct (String.eqb_spec (__name__ bpy_type) "Material"); [by right; left|].
    destruct (String.eqb_spec (__name__ bpy_type) "Object"); [by right; right; left|].
    destruct (String.eqb_spec (__name__ bpy_type) "RenderEngine"); [by right; right; right; left|].
    by destruct H.
  - intros [H|[H|[H|[H|[]]]]]; rewrite H; by eexists.
Qed.

(** ** States reached by calls are coherent *)

Lemma unregistered_holds d c : ¬ holds (unregistered d) c.
Proof. intros [H|H]; discriminate H. Qed.

Lemma coherent_init : coherent init_world.
Proof.
  split; simpl.
  - intros c Hc. by apply elem_of_nil in Hc.
  - intros a d c Ha. by rewrite lookup_nil in Ha.
  - constructor.
  - intros c Hc. by apply elem_of_nil in Hc.
  - intros a d Ha. by rewrite lookup_nil in Ha.
  - intros a d c Ha. by rewrite lookup_nil in Ha.
  - intros a b da db c1 c2 Ha. by rewrite lookup_nil in Ha.
  - intros k a Hk. by rewrite lookup_empty in Hk.
  - intros a d Ha. by rewrite lookup_nil in Ha.
  - intros a b da db Ha. by rewrite lookup_nil in Ha.
Qed.

(** A step that leaves the registrars and the table alone keeps the state
    coherent as long as the installed classes stay distinct, numbered below
    [next_class] and, for panels, named after their key. *)
Lemma coherent_frame w w' :
  coherent w →
  heap w' = heap w → registered_properties w' = registered_properties w →
  (next_class w ≤ next_class w')%nat → (length (dicts w) ≤ length (dicts w'))%nat →
  (∀ c, c ∈ host w' → cls_id c < next_class w') →
  NoDup (cls_id <$> host w') →
  (∀ c, c ∈ host w' → panel_named c) →
  coherent w'.
Proof.
  intros [H1 H2 H3 H4 H5 H6 H7 H8 H9 H10] Hh Ht Hn Hl Hf Hnd Hnm.
  split; rewrite ?Hh, ?Ht; try done.
  - intros a d c Ha Hc. apply (H2 a d c Ha) in Hc. lia.
  - intros a d Ha. apply H9 in Ha. lia.
Qed.

Lemma coherent_new bpy_type name title enabled panel_parent_id w :
  coherent w →
  coherent (DynamicProperties_init bpy_type name title enabled panel_parent_id w).2.
Proof.
  intros [H1 H2 H3 H4 H5 H6 H7 H8 H9 H10]. split; simpl; try done.
  - intros a d c [[_ Ha]|[_ <-]]%lookup_snoc_Some Hh; [by eapply H2|].
    destruct Hh as [Hh|Hh]; discriminate Hh.
  - intros a d [[_ Ha]|[_ <-]]%lookup_snoc_Some; [by eapply H5|done].
  - intros a d c [[_ Ha]|[_ <-]]%lookup_snoc_Some Hh; [by eapply H6|].
    destruct Hh as [Hh|Hh]; discriminate Hh.
  - intros a b da db c1 c2 [[_ Ha]|[_ <-]]%lookup_snoc_Some
                           [[_ Hb]|[_ <-]]%lookup_snoc_Some Hh1 Hh2.
    + by eapply H7.
    + destruct Hh2 as [Hh|Hh]; discriminate Hh.
    + destruct Hh1 as [Hh|Hh]; discriminate Hh.
    + destruct Hh1 as [Hh|Hh]; discriminate Hh.
  - intros k a Hk. destruct (H8 k a Hk) as (d & c & Ha & Hkey & Hh).
    exists d, c. split; [by apply lookup_app_l_Some|done].
  - intros a d [[_ Ha]|[_ <-]]%lookup_snoc_Some; rewrite length_app; simpl.
    + apply H9 in Ha. lia.
    + lia.
  - intros a b da db [[Hla Ha]|[-> <-]]%lookup_snoc_Some
                     [[Hlb Hb]|[-> <-]]%lookup_snoc_Some; simpl; try done.
    + by apply H10.
    + intros Hc. apply H9 in Ha. lia.
    + intros Hc. apply H9 in Hb. lia.
Qed.

Lemma coherent_collection self o w :
  coherent w → coherent (on_collection self o w).2.
Proof.
  intros Hw. unfold on_collection, bind, get_self.
  destruct (heap w !! self) as [d|] eqn:Hd; [|done].
  assert (Hin_place : ∀ col, coherent (set_dicts (<[DynamicProperties.coll d := col]> (dicts w)) w)).
  { intros col. apply (coherent_frame w); simpl; try done; try apply Hw.
    by rewrite length_insert. }
  assert (Hstep : ∀ o', coherent
    (bind (get_dicts (DynamicProperties.coll d))
       (λ col w, (Return tt,
                set_dicts (<[DynamicProperties.coll d := run_op o' col]> (dicts w)) w)) w).2).
  { intros o'. unfold bind, get_dicts. destruct (dicts w !! _); [apply Hin_place|done]. }
  destruct o as [k key name kwargs|key name descr|key text|key|en]; try apply Hstep.
  destruct Hw as [H1 H2 H3 H4 H5 H6 H7 H8 H9 H10]. split; simpl; try done.
  - intros a d1 c [(<- & <- & _)|[_ Ha]]%list_lookup_insert_Some Hh.
    + by apply (H2 self d c).
    + by apply (H2 a d1 c).
  - intros a d1 [(<- & <- & _)|[_ Ha]]%list_lookup_insert_Some.
    + by apply (H5 self d).
    + by apply (H5 a d1).
  - intros a d1 c [(<- & <- & _)|[_ Ha]]%list_lookup_insert_Some Hh.
    + by apply (H6 self d c).
    + by apply (H6 a d1 c).
  - intros a b da db c1 c2 [(<- & <- & _)|[Hna Ha]]%list_lookup_insert_Some
                           [(<- & <- & _)|[Hnb Hb]]%list_lookup_insert_Some Hh1 Hh2 Hid;
      try done.
    + by apply (H7 self b d db c1 c2).
    + by apply (H7 a self da d c1 c2).
    + by apply (H7 a b da db c1 c2).
  - intros k a Hk. destruct (H8 k a Hk) as (d1 & c & Ha & Hkey & Hh).
    destruct (decide (a = self)) as [->|Hne].
    + assert (d1 = d) as -> by congruence.
      eexists _, c. split; [apply list_lookup_insert_eq; by eapply lookup_lt_Some|].
      by split.
    + exists d1, c. split; [by rewrite list_lookup_insert_ne|done].
  - intros a d1 [(<- & <- & _)|[_ Ha]]%list_lookup_insert_Some;
      rewrite length_app; simpl; [lia|]. apply H9 in Ha. lia.
  - intros a b da db [(<- & <- & _)|[Hna Ha]]%list_lookup_insert_Some
                     [(<- & <- & _)|[Hnb Hb]]%list_lookup_insert_Some; simpl; try done.
    + intros Hc. apply H9 in Hb. lia.
    + intros Hc. apply H9 in Ha. lia.
    + by apply H10.
Qed.

Lemma coherent_after_unregister self d w :
  coherent w → heap w !! self = Some d → coherent (after_unregister self d w).
Proof.
  intros Hw Hd.
  destruct (after_unregister_frame self d w) as (Hh & Hdi & Ht & Hn & _).
  split; rewrite ?Hh, ?Hdi, ?Ht, ?Hn.
  - intros c Hc. apply (coh_host_fresh w Hw). by apply after_unregister_sub in Hc.
  - intros a d1 c [(<- & <- & _)|[_ Ha]]%list_lookup_insert_Some Hh1.
    + by apply unregistered_holds in Hh1.
    + by apply (coh_held_fresh w Hw a d1 c).
  - apply after_unregister_nodup, (coh_host_nodup w Hw).
  - intros c Hc. apply (coh_host_named w Hw). by apply after_unregister_sub in Hc.
  - intros a d1 [(<- & <- & _)|[_ Ha]]%list_lookup_insert_Some; [done|].
    by apply (coh_paired w Hw a d1).
  - intros a d1 c [(<- & <- & _)|[Hne Ha]]%list_lookup_insert_Some Hh1.
    + by apply unregistered_holds in Hh1.
    + by apply (coh_made w Hw a d1 c).
  - intros a b da db c1 c2 [(<- & <- & _)|[_ Ha]]%list_lookup_insert_Some
                           [(<- & <- & _)|[_ Hb]]%list_lookup_insert_Some Hh1 Hh2;
      try (by apply unregistered_holds in Hh1); try (by apply unregistered_holds in Hh2).
    by apply (coh_unique w Hw a b da db c1 c2).
  - intros k a [Hk Hka]%lookup_delete_Some.
    destruct (coh_table w Hw k a Hka) as (d1 & c & Ha & Hkey & Hh1).
    exists d1, c. split; [|done].
    rewrite list_lookup_insert_ne; [done|]. intros <-.
    assert (d1 = d) as -> by congruence. done.
  - intros a d1 [(<- & <- & _)|[_ Ha]]%list_lookup_insert_Some.
    + by apply (coh_dicts w Hw self d).
    + by apply (coh_dicts w Hw a d1).
  - intros a b da db [(<- & <- & _)|[Hna Ha]]%list_lookup_insert_Some
                     [(<- & <- & _)|[Hnb Hb]]%list_lookup_insert_Some; simpl; try done.
    + intros Hc. by apply (coh_dicts_own w Hw self b d db).
    + intros Hc. by apply (coh_dicts_own w Hw a self da d).
    + by apply (coh_dicts_own w Hw).
Qed.

Lemma coherent_unregister self w : coherent w → coherent (unregister self w).2.
Proof.
  intros Hw. destruct (heap w !! self) as [d|] eqn:Hd.
  - rewrite (unregister_spec self d) by done. by apply coherent_after_unregister.
  - by rewrite unregister_dangling.
Qed.

Lemma coherent_next_class n w :
  coherent w → (next_class w ≤ n)%nat → coherent (set_next_class n w).
Proof.
  intros Hw Hn. apply (coherent_frame w); simpl; try done; try apply Hw.
  intros c Hc. apply (coh_host_fresh w Hw) in Hc. lia.
Qed.

Lemma new_panel_class_named n d ctx : panel_named (new_panel_class n d ctx).
Proof. reflexivity. Qed.

(** Handing a class with a number below [next_class] to the host keeps the
    state coherent, whatever the host answers. *)
Lemma coherent_register_class c w :
  coherent w → cls_id c < next_class w → panel_named c →
  coherent (register_class c w).2.
Proof.
  intros Hw Hc Hnm.
  destruct (register_class_frame c w) as (Hh & Ht & Hn & _ & Hl).
  apply (coherent_frame w); try done; try lia.
  - intros x [Hx| ->]%register_class_sub; rewrite Hn; [|done].
    by apply (coh_host_fresh w Hw).
  - apply register_class_nodup, (coh_host_nodup w Hw).
  - intros x [Hx| ->]%register_class_sub; [|done]. by apply (coh_host_named w Hw).
Qed.

Lemma coherent_finish self d n ctx w :
  coherent w → heap w !! self = Some (unregistered d) →
  next_class w = S (S n) →
  (∀ b db c, heap w !! b = Some db → holds db c → cls_id c < n) →
  placement (__name__ (DynamicProperties.bpy_type d)) = Some ctx →
  coherent (finish_register self d n ctx w).
Proof.
  intros Hw Hself Hn Hbelow Hp.
  assert (Hlt := lookup_lt_Some _ _ _ Hself).
  set (pc := new_property_class n d). set (pn := new_panel_class n d ctx).
  assert (Hheld : ∀ c, holds (registered_as n d ctx) c → c = pc ∨ c = pn).
  { intros c [Hh|Hh]; simpl in Hh; injection Hh as <-; [by left|by right]. }
  split; simpl.
  - apply (coh_host_fresh w Hw).
  - intros a d1 c [(<- & <- & _)|[_ Ha]]%list_lookup_insert_Some Hh.
    + destruct (Hheld c Hh) as [->| ->]; simpl; lia.
    + by apply (coh_held_fresh w Hw a d1 c).
  - apply (coh_host_nodup w Hw).
  - apply (coh_host_named w Hw).
  - intros a d1 [(<- & <- & _)|[_ Ha]]%list_lookup_insert_Some; [done|].
    by apply (coh_paired w Hw a d1).
  - intros a d1 c [(<- & <- & _)|[Hne Ha]]%list_lookup_insert_Some Hh.
    + split; [|by exists ctx].
      destruct (Hheld c Hh) as [->| ->]; (split; [|reflexivity]); simpl;
        by rewrite !bool_decide_eq_true_2.
    + by apply (coh_made w Hw a d1 c).
  - intros a b da db c1 c2 [(<- & <- & _)|[Hna Ha]]%list_lookup_insert_Some
                           [(<- & <- & _)|[Hnb Hb]]%list_lookup_insert_Some Hh1 Hh2 Hid;
      try done.
    + exfalso. apply (Hbelow b db c2 Hb) in Hh2.
      destruct (Hheld c1 Hh1) as [->| ->]; simpl in Hid; lia.
    + exfalso. apply (Hbelow a da c1 Ha) in Hh1.
      destruct (Hheld c2 Hh2) as [->| ->]; simpl in Hid; lia.
    + by apply (coh_unique w Hw a b da db c1 c2).
  - intros k a [[<- <-]|[Hk Hka]]%lookup_insert_Some.
    + exists (registered_as n d ctx), pc.
      split; [by apply list_lookup_insert_eq|]. split; [done|by left].
    + destruct (coh_table w Hw k a Hka) as (d1 & c & Ha & Hkey & Hh).
      exists d1, c. split; [|done].
      rewrite list_lookup_insert_ne; [done|]. intros <-.
      assert (d1 = unregistered d) as -> by congruence.
      by apply unregistered_holds in Hh.
  - intros a d1 [(<- & <- & _)|[_ Ha]]%list_lookup_insert_Some.
    + by apply (coh_dicts w Hw self (unregistered d)).
    + by apply (coh_dicts w Hw a d1).
  - intros a b da db [(<- & <- & _)|[Hna Ha]]%list_lookup_insert_Some
                     [(<- & <- & _)|[Hnb Hb]]%list_lookup_insert_Some; simpl; try done.
    + intros Hc. by apply (coh_dicts_own w Hw self b (unregistered d) db).
    + intros Hc. by apply (coh_dicts_own w Hw a self da (unregistered d)).
    + by apply (coh_dicts_own w Hw).
Qed.

Lemma coherent_attempt_register self d ctx w :
  coherent w → heap w !! self = Some d →
  placement (__name__ (DynamicProperties.bpy_type d)) = Some ctx →
  coherent (attempt_register self d ctx w).2.
Proof.
  intros Hw Hd Hp. unfold attempt_register.
  set (n := next_class w).
  set (w0 := set_next_class (S (S n)) w).
  assert (Hw0 : coherent w0) by (apply coherent_next_class; [done|unfold n; lia]).
  set (u := after_unregister self d w0).
  assert (Hu : coherent u) by by apply coherent_after_unregister.
  destruct (after_unregister_frame self d w0) as (Hh & _ & _ & Hn & _).
  fold u in Hh, Hn. simpl in Hh, Hn.
  assert (H1 := coherent_register_class (new_property_class n d) u Hu).
  destruct (register_class_frame (new_property_class n d) u) as (Hh1 & _ & Hn1 & _).
  destruct (register_class (new_property_class n d) u) as [[[]|e1] u1];
    simpl in H1, Hh1, Hn1; [|apply H1; [rewrite Hn; simpl; lia|done]].
  assert (Hu1 : coherent u1) by (apply H1; [rewrite Hn; simpl; lia|done]).
  assert (H2 := coherent_register_class (new_panel_class n d ctx) u1 Hu1).
  destruct (register_class_frame (new_panel_class n d ctx) u1) as (Hh2 & _ & Hn2 & _).
  destruct (register_class (new_panel_class n d ctx) u1) as [[[]|e2] u2];
    simpl in H2, Hh2, Hn2; [|apply H2; [rewrite Hn1, Hn; simpl; lia|done]].
  assert (Hu2 : coherent u2) by (apply H2; [rewrite Hn1, Hn; simpl; lia|done]).
  simpl. apply coherent_finish; try done.
  - rewrite Hh2, Hh1, Hh. apply list_lookup_insert_eq. by eapply lookup_lt_Some.
  - by rewrite Hn2, Hn1, Hn.
  - intros b db c. rewrite Hh2, Hh1, Hh.
    intros [(<- & <- & _)|[_ Hb]]%list_lookup_insert_Some Hc.
    + by apply unregistered_holds in Hc.
    + by apply (coh_held_fresh w Hw b db c).
Qed.

Lemma coherent_register self w : coherent w → coherent (register self w).2.
Proof.
  intros Hw. destruct (heap w !! self) as [d|] eqn:Hd; [|by rewrite register_dangling].
  destruct (placement (__name__ (DynamicProperties.bpy_type d))) as [ctx|] eqn:Hp.
  - rewrite (register_spec self d ctx) by done. by apply coherent_attempt_register.
  - rewrite (register_unrecognized self d) by done. simpl.
    apply coherent_next_class; [done|lia].
Qed.

Lemma coherent_run_call (c : call) w : coherent w → coherent (run_call c w).
Proof.
  intros Hw. destruct c; simpl.
  - by apply coherent_new.
  - by apply coherent_register.
  - by apply coherent_unregister.
  - by apply coherent_collection.
  - apply (coherent_frame w); simpl; try done; apply Hw.
Qed.

Lemma coherent_run_calls cs w : coherent w → coherent (run_calls cs w).
Proof.
  revert w. induction cs as [|c cs IH]; intros w Hw; [done|].
  simpl. by apply IH, coherent_run_call.
Qed.

Lemma coherent_reached cs : coherent (run_calls cs init_world).
Proof. apply coherent_run_calls, coherent_init. Qed.

Lemma run_calls_snoc cs (c : call) w : run_calls (cs ++ [c]) w = run_call c (run_calls cs w).
Proof. unfold run_calls. by rewrite foldl_app. Qed.

(** ** The registrars made so far keep their place and their group *)

Lemma heap_run_call (c : call) w :
  (∃ l, heap (run_call c w) = (heap w ++ l)%list)
  ∨ (∃ self d d', heap w !! self = Some d
       ∧ heap (run_call c w) = <[self := d']> (heap w)
       ∧ group_of d' = group_of d).
Proof.
  destruct c as [ty nm title en ppid|self|self|self o|v]; simpl.
  - left. by eexists.
  - destruct (heap w !! self) as [d|] eqn:Hd.
    2:{ left. exists []. by rewrite register_dangling, app_nil_r. }
    destruct (placement (__name__ (DynamicProperties.bpy_type d))) as [ctx|] eqn:Hp.
    + rewrite (register_spec self d ctx) by done. right.
      destruct (attempt_register_heap_table self d ctx w) as [(_ & Hh & _)|(_ & Hh & _)];
        exists self, d; eexists; (split; [done|]); (split; [exact Hh|done]).
    + left. exists []. by rewrite (register_unrecognized self d), app_nil_r.
  - destruct (heap w !! self) as [d|] eqn:Hd.
    2:{ left. exists []. by rewrite unregister_dangling, app_nil_r. }
    rewrite (unregister_spec self d) by done. right. exists self, d, (unregistered d).
    split; [done|]. split; [|done]. apply after_unregister_frame.
  - unfold on_collection, bind, get_self.
    destruct (heap w !! self) as [d|] eqn:Hd; [|left; exists []; by rewrite app_nil_r].
    assert (Hstep : ∀ o', ∃ l, heap
      (bind (get_dicts (DynamicProperties.coll d))
         (λ col w, (Return tt,
                    set_dicts (<[DynamicProperties.coll d := run_op o' col]> (dicts w)) w)) w).2
      = (heap w ++ l)%list).
    { intros o'. exists []. rewrite app_nil_r. unfold bind, get_dicts.
      by destruct (dicts w !! _). }
    destruct o as [k key name kwargs|key name descr|key text|key|en];
      try (left; apply Hstep).
    right. exists self, d. eexists. split; [done|]. split; [reflexivity|done].
  - left. exists []. by rewrite app_nil_r.
Qed.

Lemma groups_run_call (c : call) w :
  ∃ l, group_of <$> heap (run_call c w) = ((group_of <$> heap w) ++ l)%list.
Proof.
  destruct (heap_run_call c w) as [[l ->]|(self & d & d' & Hd & -> & Hg)].
  - eexists. by rewrite fmap_app.
  - exists []. rewrite app_nil_r, list_fmap_insert, Hg.
    apply list_insert_id. by rewrite list_lookup_fmap, Hd.
Qed.

Lemma distinct_groups_before (c : call) w :
  distinct_groups (run_call c w) → distinct_groups w.
Proof.
  unfold distinct_groups. destruct (groups_run_call c w) as [l ->].
  by intros [? _]%NoDup_app.
Qed.

Lemma distinct_groups_lookup w a b da db :
  distinct_groups w → heap w !! a = Some da → heap w !! b = Some db →
  DynamicProperties.bpy_type da = DynamicProperties.bpy_type db →
  DynamicProperties.name da = DynamicProperties.name db → a = b.
Proof.
  intros Hnd Ha Hb Ht Hn.
  apply (proj1 (NoDup_alt _) Hnd a b (group_of da)).
  - by rewrite list_lookup_fmap, Ha.
  - rewrite list_lookup_fmap, Hb. unfold group_of. by rewrite Ht, Hn.
Qed.

Lemma distinct_groups_insert self d d' w w' :
  distinct_groups w → heap w !! self = Some d →
  heap w' = <[self := d']> (heap w) →
  DynamicProperties.bpy_type d' = DynamicProperties.bpy_type d →
  DynamicProperties.name d' = DynamicProperties.name d →
  distinct_groups w'.
Proof.
  intros Hdist Hd Hheap Ht Hn. unfold distinct_groups. rewrite Hheap.
  rewrite list_fmap_insert. rewrite list_insert_id; [done|].
  rewrite list_lookup_fmap, Hd. unfold group_of. simpl. by rewrite Ht, Hn.
Qed.

Lemma get_key_recognized_pair (t1 t2 : StructMetaProp) (n1 n2 : string) :
  recognized t1 → recognized t2 →
  get_key t1 n1 = get_key t2 n2 → t1 = t2 ∧ n1 = n2.
Proof.
  intros H1%recognized_names H2%recognized_names.
  destruct t1 as [s1], t2 as [s2]. unfold get_key. simpl in *.
  rewrite !elem_of_cons, elem_of_nil in H1, H2.
  destruct H1 as [->|[->|[->|[->|[]]]]], H2 as [->|[->|[->|[->|[]]]]];
    simpl; intros H; by simplify_eq.
Qed.

Lemma for_group_eq bpy_type name d c :
  for_group bpy_type name c = true → owns d c →
  DynamicProperties.bpy_type d = bpy_type ∧ DynamicProperties.name d = name.
Proof.
  intros Hg [Hd _]. destruct c as [c|c]; simpl in *;
    apply andb_true_iff in Hg as [H1%bool_decide_eq_true H2%bool_decide_eq_true];
    apply andb_true_iff in Hd as [H3%bool_decide_eq_true H4%bool_decide_eq_true];
    split; congruence.
Qed.

Lemma paired_holds d c :
  handles_paired d → holds d c →
  ∃ pc pn, DynamicProperties.property_class d = Obj (RecordCls pc)
           ∧ DynamicProperties.panel_class d = Obj (PanelCls pn).
Proof.
  unfold handles_paired, holds.
  destruct (DynamicProperties.property_class d) as [| |[pc|pn]],
           (DynamicProperties.panel_class d) as [| |[pc'|pn']];
    intros Hp [Hh|Hh]; try done; eauto.
Qed.

Lemma paired_free d :
  handles_paired d → (∀ c, ¬ holds d c) →
  (DynamicProperties.property_class d = Unset ∧ DynamicProperties.panel_class d = Unset)
  ∨ (DynamicProperties.property_class d = PyNone ∧ DynamicProperties.panel_class d = PyNone).
Proof.
  unfold handles_paired, holds.
  destruct (DynamicProperties.property_class d) as [| |[pc|pn]] eqn:E1,
           (DynamicProperties.panel_class d) as [| |[pc'|pn']] eqn:E2;
    intros Hp Hfree; try done; try (by left); try (by right).
  destruct (Hfree (RecordCls pc)). by left.
Qed.

(** ** When the host accepts every class and the groups are distinct *)

Lemma settled_init : settled init_world.
Proof.
  split; simpl.
  - done.
  - intros c Hc. by apply elem_of_nil in Hc.
  - intros a d c Ha. by rewrite lookup_nil in Ha.
  - intros a d c Ha. by rewrite lookup_nil in Ha.
Qed.

(** A step that changes neither the registrars' handles, nor the installed
    classes, nor the attributes of the host types. *)
Lemma settled_frame w w' :
  settled w →
  (∀ c, verdict_of w' c = Accept) →
  host w' = host w → type_attrs w' = type_attrs w →
  (∀ a d, heap w !! a = Some d →
     ∃ d', heap w' !! a = Some d' ∧ ∀ c, holds d c → holds d' c) →
  (∀ a d', heap w' !! a = Some d' → (∀ c, ¬ holds d' c) ∨
     ∃ d, heap w !! a = Some d ∧ group_of d = group_of d' ∧ ∀ c, holds d' c → holds d c) →
  settled w'.
Proof.
  intros [H1 H2 H3 H4] Hv Hh Ht Hfwd Hbwd. split; rewrite ?Hh, ?Ht; [done| | |].
  - intros c Hc. destruct (H2 c Hc) as (a & d & Ha & Hd).
    destruct (Hfwd a d Ha) as (d' & Ha' & Hd'). exists a, d'. split; [done|by apply Hd'].
  - intros a d' c Ha' Hc. destruct (Hbwd a d' Ha') as [Hfree|(d & Ha & _ & Hd)].
    + by destruct (Hfree c).
    + apply (H3 a d c Ha). by apply Hd.
  - intros a d' c Ha' Hc. destruct (Hbwd a d' Ha') as [Hfree|(d & Ha & Hg & Hd)].
    + by destruct (Hfree c).
    + injection Hg as <- <-. apply (H4 a d c Ha). by apply Hd.
Qed.

Lemma settled_new bpy_type name title enabled panel_parent_id w :
  settled w →
  settled (DynamicProperties_init bpy_type name title enabled panel_parent_id w).2.
Proof.
  intros Hw. apply (settled_frame w); simpl; try done; try apply Hw.
  - intros a d Ha. exists d. split; [by apply lookup_app_l_Some|done].
  - intros a d' [[_ Ha]|[_ <-]]%lookup_snoc_Some.
    + right. by exists d'.
    + left. intros c [Hc|Hc]; discriminate Hc.
Qed.

Lemma settled_collection self o w : settled w → settled (on_collection self o w).2.
Proof.
  intros Hw. unfold on_collection, bind, get_self.
  destruct (heap w !! self) as [d|] eqn:Hd; [|done].
  assert (Hstep : ∀ o', settled
    (bind (get_dicts (DynamicProperties.coll d))
       (λ col w, (Return tt,
                  set_dicts (<[DynamicProperties.coll d := run_op o' col]> (dicts w)) w)) w).2).
  { intros o'. unfold bind, get_dicts. destruct (dicts w !! _); [|done].
    apply (settled_frame w); simpl; try done; try apply Hw.
    - intros a d1 Ha. by exists d1.
    - intros a d1 Ha. right. by exists d1. }
  destruct o as [k key name kwargs|key name descr|key text|key|en]; try apply Hstep.
  apply (settled_frame w); simpl; try done; try apply Hw.
  - intros a d1 Ha. destruct (decide (a = self)) as [->|Hne].
    + assert (d1 = d) as -> by congruence. eexists.
      split; [apply list_lookup_insert_eq; by eapply lookup_lt_Some|done].
    + exists d1. by rewrite list_lookup_insert_ne.
  - intros a d1 [(<- & <- & _)|[_ Ha]]%list_lookup_insert_Some; right.
    + by exists d.
    + by exists d1.
Qed.

Lemma settled_next_class n w : settled w → settled (set_next_class n w).
Proof.
  intros Hw. apply (settled_frame w); simpl; try done; try apply Hw.
  - intros a d Ha. by exists d.
  - intros a d Ha. right. by exists d.
Qed.

Lemma same_pair d d' :
  (__name__ (DynamicProperties.bpy_type d), DynamicProperties.name d)
  = (__name__ (DynamicProperties.bpy_type d'), DynamicProperties.name d') →
  DynamicProperties.bpy_type d = DynamicProperties.bpy_type d'
  ∧ DynamicProperties.name d = DynamicProperties.name d'.
Proof.
  destruct (DynamicProperties.bpy_type d), (DynamicProperties.bpy_type d'); simpl.
  by intros [= -> ->].
Qed.

(** In such a state [unregister] takes out both classes the registrar
    holds. *)
Lemma after_unregister_settled_host self d w :
  coherent w → settled w → heap w !! self = Some d →
  host (after_unregister self d w)
  = drop_attr (DynamicProperties.panel_class d)
      (drop_attr (DynamicProperties.property_class d) (host w)).
Proof.
  intros Hw Hs Hd. rewrite after_unregister_host.
  assert (Hp := coh_paired w Hw self d Hd). unfold handles_paired in Hp.
  destruct (DynamicProperties.property_class d) as [| |[pc|pn']] eqn:E1,
           (DynamicProperties.panel_class d) as [| |[pc'|pn]] eqn:E2; try done.
  assert (Hh : holds d (RecordCls pc)) by (by left).
  destruct (coh_made w Hw self d _ Hd Hh) as [[Hg _] _]. simpl in Hg.
  apply andb_true_iff in Hg as [Ht%bool_decide_eq_true Hn%bool_decide_eq_true].
  destruct (st_pointer w Hs self d _ Hd Hh) as [p Hptr].
  rewrite try_drop_panel. cbn [host set_host drop_attr].
  rewrite try_drop_record by (apply installed_elem_of, (st_installed w Hs self d); done).
  by rewrite Ht, Hn, Hptr.
Qed.

Lemma after_unregister_attrs self d w (p : string * string) :
  coherent w → heap w !! self = Some d →
  p ≠ (__name__ (DynamicProperties.bpy_type d), DynamicProperties.name d) →
  type_attrs (after_unregister self d w) !! p = type_attrs w !! p.
Proof.
  intros Hw Hd Hp. unfold after_unregister; simpl.
  assert (Hpair := coh_paired w Hw self d Hd). unfold handles_paired in Hpair.
  rewrite !try_drop_attrs; [done| |].
  - intros cls E. assert (Hh : holds d (RecordCls cls)) by (by left).
    destruct (coh_made w Hw self d _ Hd Hh) as [[Hg _] _]. simpl in Hg.
    apply andb_true_iff in Hg as [Ht%bool_decide_eq_true Hn%bool_decide_eq_true].
    by rewrite Ht, Hn.
  - intros cls E. rewrite E in Hpair.
    by destruct (DynamicProperties.property_class d) as [| |[?|?]].
Qed.

Lemma settled_after_unregister self d w :
  coherent w → settled w → distinct_groups w → heap w !! self = Some d →
  settled (after_unregister self d w).
Proof.
  intros Hw Hs Hdist Hd.
  destruct (after_unregister_frame self d w) as (Hh & _ & _ & _ & Hv).
  assert (Hhost := after_unregister_settled_host self d w Hw Hs Hd).
  split; rewrite ?Hh, ?Hv, ?Hhost.
  - apply (st_accepts w Hs).
  - intros c Hc. apply elem_of_drop_attr in Hc as [Hc Hpanel].
    apply elem_of_drop_attr in Hc as [Hc Hprop].
    destruct (st_owned w Hs c Hc) as (a & d1 & Ha & Hd1).
    exists a, d1. split; [|done]. rewrite list_lookup_insert_ne; [done|]. intros <-.
    assert (d1 = d) as -> by congruence.
    destruct Hd1 as [E|E]; [by apply (Hprop c)|by apply (Hpanel c)].
  - intros a d1 c [(<- & <- & _)|[Hne Ha]]%list_lookup_insert_Some Hc.
    + by apply unregistered_holds in Hc.
    + assert (Hother : ∀ c0, holds d c0 → cls_id c ≠ cls_id c0).
      { intros c0 Hc0 Hid. apply Hne. symmetry.
        by apply (coh_unique w Hw a self d1 d c c0). }
      apply elem_of_drop_attr_2; [apply elem_of_drop_attr_2|].
      * by apply (st_installed w Hs a d1).
      * intros c0 E. apply Hother. by left.
      * intros c0 E. apply Hother. by right.
  - intros a d1 c [(<- & <- & _)|[Hne Ha]]%list_lookup_insert_Some Hc.
    + by apply unregistered_holds in Hc.
    + rewrite after_unregister_attrs; [by apply (st_pointer w Hs a d1 c)|done|done|].
      intros [Ht Hn]%same_pair. apply Hne. symmetry.
      by apply (distinct_groups_lookup w a self d1 d).
Qed.

Lemma settled_unregister self w :
  coherent w → settled w → distinct_groups w → settled (unregister self w).2.
Proof.
  intros Hw Hs Hdist. destruct (heap w !! self) as [d|] eqn:Hd.
  - rewrite (unregister_spec self d) by done. by apply settled_after_unregister.
  - by rewrite unregister_dangling.
Qed.

Lemma panel_name_inj (k1 k2 : string) : "DYNAMIC_PT_" ++ k1 = "DYNAMIC_PT_" ++ k2 → k1 = k2.
Proof. intros H. by simplify_eq/=. Qed.

(** In such a state [register] of a registrar of a recognized type returns:
    its previous pair is gone, the new pair is installed, and nothing else
    is touched. *)
Lemma register_settled self d ctx w :
  coherent w → settled w → distinct_groups w →
  heap w !! self = Some d →
  placement (__name__ (DynamicProperties.bpy_type d)) = Some ctx →
  ∃ w', register self w = (Return tt, w')
    ∧ heap w' = <[self := registered_as (next_class w) d ctx]> (heap w)
    ∧ host w'
      = (drop_attr (DynamicProperties.panel_class d)
           (drop_attr (DynamicProperties.property_class d) (host w))
         ++ [new_property_class (next_class w) d; new_panel_class (next_class w) d ctx])%list
    ∧ settled w'.
Proof.
  intros Hw Hs Hdist Hd Hp. rewrite (register_spec self d ctx) by done.
  unfold attempt_register.
  set (n := next_class w).
  set (w0 := set_next_class (S (S n)) w).
  assert (Hw0 : coherent w0) by (apply coherent_next_class; [done|unfold n; lia]).
  assert (Hs0 : settled w0) by by apply settled_next_class.
  set (u := after_unregister self d w0).
  assert (Hu : coherent u) by by apply coherent_after_unregister.
  assert (Hsu : settled u) by by apply settled_after_unregister.
  assert (Hh : heap u = <[self := unregistered d]> (heap w))
    by apply (after_unregister_frame self d w0).
  assert (Hn : next_class u = S (S n)) by apply (after_unregister_frame self d w0).
  assert (Hv : verdict_of u = verdict_of w) by apply (after_unregister_frame self d w0).
  assert (Hhost : host u = drop_attr (DynamicProperties.panel_class d)
                             (drop_attr (DynamicProperties.property_class d) (host w)))
    by by apply (after_unregister_settled_host self d w0).
  clearbody u.
  assert (Hbelow : ∀ c, c ∈ host u → cls_id c < n).
  { intros c Hc. apply (coh_host_fresh w Hw). rewrite Hhost in Hc.
    apply elem_of_drop_attr in Hc as [Hc _]. by apply elem_of_drop_attr in Hc as [Hc _]. }
  (* the record class *)
  destruct (new_property_class n d) as [cls|] eqn:Epc; [|done].
  rewrite (register_class_record_accepted cls u);
    [|apply (not_installed_above _ _ n); [done|by injection Epc as <-]
     |apply (st_accepts u Hsu)].
  destruct (install_record_frame cls (λ _, true) u) as (Hh1 & Ht1 & Hn1 & Hv1 & _ & Hhost1 & Ha1).
  set (i := install_record cls (λ _, true) u) in *.
  set (u1 := set_type_attrs _ i).
  (* the panel class *)
  destruct (new_panel_class n d ctx) as [|pcls] eqn:Epn; [done|].
  assert (Hnone : displace pcls (host u1) = host u1).
  { apply displace_none. intros c Hc. simpl in Hc. rewrite Hhost1 in Hc.
    apply elem_of_app in Hc as [Hc|Hc%list_elem_of_singleton]; [|by subst c].
    destruct c as [?|pcls']; [done|]. simpl. apply String.eqb_neq. intros Hname.
    destruct (st_owned u Hsu _ Hc) as (a & d1 & Ha & Hd1).
    assert (Hnamed := coh_host_named u Hu _ Hc). simpl in Hnamed.
    destruct (coh_made u Hu a d1 _ Ha Hd1) as [[Hg _] Hrec]. simpl in Hg.
    apply andb_true_iff in Hg as [Ht%bool_decide_eq_true Hnm%bool_decide_eq_true].
    injection Epn as <-. simpl in Hname. rewrite Hnamed, Ht, Hnm in Hname.
    apply panel_name_inj in Hname.
    apply get_key_recognized_pair in Hname as [Ht' Hn']; [|done|by exists ctx].
    rewrite Hh in Ha. apply list_lookup_insert_Some in Ha as [(_ & <- & _)|[Hne Ha]].
    - by apply unregistered_holds in Hd1.
    - apply Hne. symmetry. by apply (distinct_groups_lookup w a self d1 d). }
  rewrite (register_class_panel_accepted pcls u1);
    [|apply (not_installed_above _ _ (S n))|simpl; rewrite Hv1; apply (st_accepts u Hsu)].
  2:{ intros c Hc. simpl in Hc. rewrite Hhost1 in Hc.
      apply elem_of_app in Hc as [Hc|Hc%list_elem_of_singleton].
      - apply Hbelow in Hc. lia.
      - subst c. injection Epc as <-. simpl. lia. }
  2:{ injection Epn as <-. simpl. lia. }
  rewrite Hnone.
  assert (Hlt := lookup_lt_Some _ _ _ Hd).
  eexists. split; [reflexivity|].
  assert (Hheap : heap (finish_register self d n ctx
                          (set_host (host u1 ++ [PanelCls pcls]) u1))
                  = <[self := registered_as n d ctx]> (heap w)).
  { simpl. rewrite Hh1, Hh. by rewrite list_insert_insert_eq. }
  assert (Hhost2 : host (finish_register self d n ctx
                           (set_host (host u1 ++ [PanelCls pcls]) u1))
                   = (host u ++ [RecordCls cls; PanelCls pcls])%list).
  { simpl. rewrite Hhost1. by rewrite <- app_assoc. }
  split; [exact Hheap|]. split; [by rewrite Hhost2, Hhost|].
  assert (Hheld : ∀ c, holds (registered_as n d ctx) c → c = RecordCls cls ∨ c = PanelCls pcls).
  { intros c [Hc|Hc]; simpl in Hc; injection Hc as <-; [left|right]; congruence. }
  split; rewrite ?Hheap, ?Hhost2.
  - simpl. rewrite Hv1. apply (st_accepts u Hsu).
  - intros c [Hc|Hc]%elem_of_app.
    + destruct (st_owned u Hsu c Hc) as (a & d1 & Ha & Hd1).
      exists a, d1. split; [|done]. rewrite Hh in Ha.
      apply list_lookup_insert_Some in Ha as [(_ & <- & _)|[Hne Ha]].
      * by apply unregistered_holds in Hd1.
      * by rewrite list_lookup_insert_ne.
    + exists self, (registered_as n d ctx). split; [by apply list_lookup_insert_eq|].
      apply elem_of_cons in Hc as [->|Hc]; [|apply list_elem_of_singleton in Hc as ->].
      * left. simpl. by rewrite <- Epc.
      * right. simpl. by rewrite <- Epn.
  - intros a d1 c [(<- & <- & _)|[Hne Ha]]%list_lookup_insert_Some Hc.
    + apply elem_of_app. right.
      destruct (Hheld c Hc) as [->| ->]; [left|right; left].
    + apply elem_of_app. left. apply (st_installed u Hsu a d1); [|done].
      rewrite Hh. by rewrite list_lookup_insert_ne.
  - intros a d1 c Ha Hc. simpl. rewrite Ha1. unfold PropertyGroup_register.
    apply lookup_insert_is_Some.
    destruct (decide ((__name__ (pc_bpy_type cls), pc_name cls)
                      = (__name__ (DynamicProperties.bpy_type d1), DynamicProperties.name d1)))
      as [E|E]; [by left|right]. split; [done|].
    apply list_lookup_insert_Some in Ha as [(<- & <- & _)|[Hne Ha]].
    + destruct E. injection Epc as <-. reflexivity.
    + apply (st_pointer u Hsu a d1 c); [|done]. rewrite Hh.
      by rewrite list_lookup_insert_ne.
Qed.

Lemma settled_register self w :
  coherent w → settled w → distinct_groups w → settled (register self w).2.
Proof.
  intros Hw Hs Hdist.
  destruct (heap w !! self) as [d|] eqn:Hd; [|by rewrite register_dangling].
  destruct (placement (__name__ (DynamicProperties.bpy_type d))) as [ctx|] eqn:Hp.
  - destruct (register_settled self d ctx w Hw Hs Hdist Hd Hp) as (w' & -> & _ & _ & Hs').
    done.
  - rewrite (register_unrecognized self d) by done. by apply settled_next_class.
Qed.

Lemma settled_run_call (c : call) w :
  coherent w → settled w → distinct_groups w → host_accepts c → settled (run_call c w).
Proof.
  intros Hw Hs Hdist Hc. destruct c; simpl.
  - by apply settled_new.
  - by apply settled_register.
  - by apply settled_unregister.
  - by apply settled_collection.
  - apply (settled_frame w); simpl; try done.
    + intros a d Ha. by exists d.
    + intros a d Ha. right. by exists d.
Qed.

Lemma settled_reached cs :
  Forall host_accepts cs → distinct_groups (run_calls cs init_world) →
  settled (run_calls cs init_world).
Proof.
  induction cs as [|c cs IH] using rev_ind; [intros; apply settled_init|].
  rewrite run_calls_snoc. intros [Hcs Hc]%Forall_app Hdist.
  rewrite Forall_singleton in Hc.
  assert (Hbefore := distinct_groups_before c _ Hdist).
  apply settled_run_call; [apply coherent_reached|by apply IH|exact Hbefore|exact Hc].
Qed.

(** ** Counting installations *)

Lemma length_filter_le_1 {A} (P : A → Prop) `{!∀ x, Decision (P x)} (l : list A) :
  NoDup l → (∀ x y, x ∈ l → y ∈ l → P x → P y → x = y) →
  (length (filter P l) ≤ 1)%nat.
Proof.
  induction l as [|x l IH]; [simpl; lia|].
  rewrite NoDup_cons. intros [Hx Hl] Heq. rewrite filter_cons.
  destruct (decide (P x)) as [HP|HP].
  - destruct (filter P l) as [|y k] eqn:E; [simpl; lia|]. exfalso.
    assert (Hy : y ∈ filter P l) by (rewrite E; left).
    apply list_elem_of_filter in Hy as [HPy Hy].
    apply Hx. rewrite (Heq x y); [done|left|by right|done|done].
  - apply IH; [done|]. intros a b Ha Hb. apply Heq; by right.
Qed.

Lemma length_filter_ge_1 {A} (P : A → Prop) `{!∀ x, Decision (P x)} (l : list A) x :
  x ∈ l → P x → (1 ≤ length (filter P l))%nat.
Proof.
  intros Hx HP. assert (Hin : x ∈ filter P l) by by apply list_elem_of_filter.
  destruct (filter P l); [by apply elem_of_nil in Hin|simpl; lia].
Qed.

(** Two installed classes of the same sort for the same group are one
    class. *)
Lemma same_group_same_class w bpy_type name c1 c2 :
  coherent w → settled w → distinct_groups w →
  c1 ∈ host w → c2 ∈ host w →
  is_record c1 = is_record c2 →
  for_group bpy_type name c1 = true → for_group bpy_type name c2 = true →
  c1 = c2.
Proof.
  intros Hw Hs Hdist H1 H2 Hsort Hg1 Hg2.
  destruct (st_owned w Hs c1 H1) as (a1 & d1 & Ha1 & Hh1).
  destruct (st_owned w Hs c2 H2) as (a2 & d2 & Ha2 & Hh2).
  destruct (coh_made w Hw a1 d1 c1 Ha1 Hh1) as [Hown1 _].
  destruct (coh_made w Hw a2 d2 c2 Ha2 Hh2) as [Hown2 _].
  destruct (for_group_eq _ _ _ _ Hg1 Hown1) as [Ht1 Hn1].
  destruct (for_group_eq _ _ _ _ Hg2 Hown2) as [Ht2 Hn2].
  assert (a1 = a2) as -> by (apply (distinct_groups_lookup w a1 a2 d1 d2); congruence).
  assert (d1 = d2) as -> by congruence.
  destruct Hown1 as [_ Hx1], Hown2 as [_ Hx2]. rewrite <- Hsort in Hx2.
  destruct (is_record c1); congruence.
Qed.

Lemma at_most_one_installed w bpy_type name :
  coherent w → settled w → distinct_groups w →
  (length (installed_records bpy_type name w) ≤ 1)%nat
  ∧ (length (installed_panels bpy_type name w) ≤ 1)%nat.
Proof.
  intros Hw Hs Hdist.
  assert (Hnd : NoDup (host w)) by (eapply NoDup_fmap_1, (coh_host_nodup w Hw)).
  split; apply length_filter_le_1; try done.
  - intros x y Hx Hy [Hrx Hgx]%andb_true_iff [Hry Hgy]%andb_true_iff.
    apply (same_group_same_class w bpy_type name); try done. congruence.
  - intros x y Hx Hy [Hrx Hgx]%andb_true_iff [Hry Hgy]%andb_true_iff.
    apply (same_group_same_class w bpy_type name); try done.
    apply negb_true_iff in Hrx, Hry. congruence.
Qed.

Lemma installed_drop_attr c a h :
  installed c h = false → installed c (drop_attr a h) = false.
Proof.
  apply installed_subset. intros x Hx. by apply elem_of_drop_attr in Hx as [? _].
Qed.

(** Once both handles have been taken out, no class that [d] held is
    installed. *)
Lemma held_not_installed_after_drop d c h :
  holds d c →
  installed c (drop_attr (DynamicProperties.panel_class d)
                 (drop_attr (DynamicProperties.property_class d) h)) = false.
Proof.
  intros [Hh|Hh]; rewrite Hh.
  - apply installed_drop_attr. simpl. apply installed_remove_class.
  - simpl. apply installed_remove_class.
Qed.

End registrar.

Lemma demo_calls_accepted : Forall host_accepts demo_calls.
Proof. unfold demo_calls. repeat constructor. Qed.

Lemma demo_world_distinct : distinct_groups demo_world.
Proof.
  unfold distinct_groups.
  assert (group_of <$> heap demo_world
          = [(Light, "fizz"); (Light, "buzz"); (BpyType "Camera", "zoom")]) as ->
    by (vm_compute; reflexivity).
  apply (bool_decide_unpack _). vm_compute. exact I.
Qed.

Lemma demo_world_accepts (c : bpy_class) : verdict_of demo_world c = Accept.
Proof.
  assert (verdict_of demo_world = λ _, Accept) as -> by (vm_compute; reflexivity).
  reflexivity.
Qed.

(** C1, as amended.  In every state reached by constructor, register,
    unregister and collection calls in which the host has accepted every
    class it was handed and no two registrars were made for the same
    (target type, group name), at most one record class and at most one
    panel class are installed per pair.  [register] takes the registrar's
    own previous pair out before it installs the new one, and [register]
    called twice on one registrar leaves exactly one installed record class
    and exactly one installed panel class for its pair. *)
Theorem one_installation_per_group (cs : list call) :
  let w := run_calls cs init_world in
  Forall host_accepts cs →
  distinct_groups w →
  (∀ bpy_type name,
     (length (installed_records bpy_type name w) ≤ 1)%nat
     ∧ (length (installed_panels bpy_type name w) ≤ 1)%nat)
  ∧ (∀ self d,
       heap w !! self = Some d → recognized (DynamicProperties.bpy_type d) →
       (∀ c, holds d c → installed c (host (run_calls [CRegister self] w)) = false)
       ∧ length (installed_records (DynamicProperties.bpy_type d) (DynamicProperties.name d)
                   (run_calls [CRegister self; CRegister self] w)) = 1%nat
       ∧ length (installed_panels (DynamicProperties.bpy_type d) (DynamicProperties.name d)
                   (run_calls [CRegister self; CRegister self] w)) = 1%nat).
Proof.
  intros w Hacc Hdist.
  assert (Hw : coherent w) by apply coherent_reached.
  assert (Hs : settled w) by by apply settled_reached.
  split; [intros; by apply at_most_one_installed|].
  intros self d Hd [ctx Hp].
  destruct (register_settled self d ctx w Hw Hs Hdist Hd Hp) as (w1 & H1 & Hh1 & Hhost1 & Hs1).
  assert (Hw1 : coherent w1).
  { replace w1 with (register self w).2 by (by rewrite H1). by apply coherent_register. }
  assert (Hlt := lookup_lt_Some _ _ _ Hd).
  set (d1 := registered_as (next_class w) d ctx) in *.
  assert (Hd1 : heap w1 !! self = Some d1) by (rewrite Hh1; by apply list_lookup_insert_eq).
  assert (Hdist1 : distinct_groups w1).
  { apply (distinct_groups_insert self d d1 w w1 Hdist Hd Hh1); reflexivity. }
  destruct (register_settled self d1 ctx w1 Hw1 Hs1 Hdist1 Hd1 Hp)
    as (w2 & H2 & Hh2 & Hhost2 & Hs2).
  assert (Hw2 : coherent w2).
  { replace w2 with (register self w1).2 by (by rewrite H2). by apply coherent_register. }
  assert (Hdist2 : distinct_groups w2).
  { apply (distinct_groups_insert self d1 _ w1 w2 Hdist1 Hd1 Hh2); reflexivity. }
  assert (Hrun1 : run_calls [CRegister self] w = w1).
  { change (run_calls [CRegister self] w) with (register self w).2. by rewrite H1. }
  assert (Hrun2 : run_calls [CRegister self; CRegister self] w = w2).
  { change (run_calls [CRegister self; CRegister self] w)
      with (register self (register self w).2).2.
    rewrite H1. change ((Return tt, w1).2) with w1. by rewrite H2. }
  rewrite Hrun1, Hrun2. split; [|split].
  - intros c Hc. apply installed_false. rewrite Hhost1, fmap_app, elem_of_app.
    intros [Hin|Hin].
    + apply installed_true in Hin. by rewrite held_not_installed_after_drop in Hin.
    + apply (coh_held_fresh w Hw self d c Hd) in Hc. simpl in Hin.
      apply elem_of_cons in Hin as [Hin|Hin%list_elem_of_singleton]; lia.
  - apply Nat.le_antisymm; [by apply at_most_one_installed|].
    apply (length_filter_ge_1 _ _ (new_property_class (next_class w1) d1)).
    + rewrite Hhost2. apply elem_of_app. right. left.
    + simpl. by rewrite !bool_decide_eq_true_2.
  - apply Nat.le_antisymm; [by apply at_most_one_installed|].
    apply (length_filter_ge_1 _ _ (new_panel_class (next_class w1) d1 ctx)).
    + rewrite Hhost2. apply elem_of_app. right. right. left.
    + simpl. by rewrite !bool_decide_eq_true_2.
Qed.

Lemma one_installation_per_group_witness :
  (length (installed_records Light "fizz" demo_world) ≤ 1)%nat
  ∧ ∃ d, heap demo_world !! 0%nat = Some d
         ∧ length (installed_records (DynamicProperties.bpy_type d) (DynamicProperties.name d)
                     (run_calls [CRegister 0; CRegister 0] demo_world)) = 1%nat.
Proof.
  pose proof (one_installation_per_group demo_calls demo_calls_accepted demo_world_distinct)
    as [Hmost Htwice].
  split; [exact (proj1 (Hmost Light "fizz"))|].
  assert (Ht : DynamicProperties.bpy_type <$> heap demo_world !! 0%nat = Some Light)
    by (vm_compute; reflexivity).
  destruct (heap demo_world !! 0%nat) as [d|] eqn:E; [|discriminate Ht].
  exists d. split; [reflexivity|].
  assert (Hr : recognized (DynamicProperties.bpy_type d)).
  { injection Ht as ->. vm_compute. by eexists. }
  exact (proj1 (proj2 (Htwice 0%nat d E Hr))).
Defined.

(** C1, as stated, fails in two ways.  Two registrars made for the same
    pair both install their record class: the second [register] does not
    take the first registrar's record class out (of the two panel classes,
    which have the same name, the host keeps the second only).  And one
    registrar alone, when the host refuses its panel class, leaves a record
    class installed that it does not hold, so that its next [register]
    installs a second one. *)
Lemma two_registrars_one_group :
  let w := run_calls (twin_calls ++ [CRegister 0; CRegister 1]) init_world in
  let w' := run_calls [CNew Light "g" "G" true ""; CHost refuse_panels;
                       CRegister 0; CRegister 0] init_world in
  length (installed_records Light "g" w) = 2%nat
  ∧ length (installed_panels Light "g" w) = 1%nat
  ∧ length (heap w') = 1%nat
  ∧ length (installed_records Light "g" w') = 2%nat
  ∧ ¬ (∀ cs bpy_type name,
         (length (installed_records bpy_type name (run_calls cs init_world)) ≤ 1)%nat).
Proof.
  split; [vm_compute; reflexivity|]. split; [vm_compute; reflexivity|].
  split; [vm_compute; reflexivity|]. split; [vm_compute; reflexivity|].
  intros H.
  specialize (H (twin_calls ++ [CRegister 0; CRegister 1])%list Light "g").
  vm_compute in H. lia.
Qed.

(** C2.  When the target type of the registrar is not Light, Material,
    Object or RenderEngine, [register] raises a type error, and the table,
    the installed classes and every registrar, this one included, are as
    they were before the call. *)
Theorem register_unknown_type_raises (self : nat) (d : DynamicProperties.t) (w : world) :
  heap w !! self = Some d →
  __name__ (DynamicProperties.bpy_type d) ∉ ["Light"; "Material"; "Object"; "RenderEngine"] →
  ∃ msg w',
    register self w = (Raise (TypeError msg), w')
    ∧ registered_properties w' = registered_properties w
    ∧ host w' = host w
    ∧ heap w' = heap w.
Proof.
  intros Hd Hn.
  assert (Hp : placement (__name__ (DynamicProperties.bpy_type d)) = None).
  { destruct (placement _) eqn:E; [|done]. destruct Hn. apply recognized_names. by eexists. }
  eexists _, _. split; [by apply register_unrecognized|]. done.
Qed.

Lemma register_unknown_type_raises_witness :
  ∃ msg w',
    register 2 demo_world = (Raise (TypeError msg), w')
    ∧ registered_properties w' = registered_properties demo_world
    ∧ host w' = host demo_world
    ∧ heap w' = heap demo_world.
Proof.
  assert (Ht : __name__ ∘ DynamicProperties.bpy_type <$> heap demo_world !! 2%nat
               = Some "Camera") by (vm_compute; reflexivity).
  destruct (heap demo_world !! 2%nat) as [d|] eqn:E; [|discriminate Ht].
  injection Ht as Ht. simpl in Ht.
  apply (register_unknown_type_raises 2 d demo_world E).
  rewrite Ht. apply (bool_decide_unpack _). vm_compute. exact I.
Defined.

(** Once the host accepts the two classes, nothing else in [register] can
    fail. *)
Lemma register_returns_when_accepted (self : nat) (d : DynamicProperties.t)
    (ctx : string * string) (w : world) :
  coherent w → heap w !! self = Some d →
  placement (__name__ (DynamicProperties.bpy_type d)) = Some ctx →
  verdict_of w (new_property_class (next_class w) d) = Accept →
  verdict_of w (new_panel_class (next_class w) d ctx) = Accept →
  ∃ w', register self w = (Return tt, w').
Proof.
  intros Hw Hd Hp Hv1 Hv2. rewrite (register_spec self d ctx) by done.
  unfold attempt_register.
  set (n := next_class w) in *.
  set (u := after_unregister self d (set_next_class (S (S n)) w)).
  assert (Hv : verdict_of u = verdict_of w)
    by apply (after_unregister_frame self d (set_next_class (S (S n)) w)).
  assert (Hbelow : ∀ c, c ∈ host u → cls_id c < n).
  { intros c Hc. apply after_unregister_sub in Hc. by apply (coh_host_fresh w Hw). }
  clearbody u. unfold new_property_class, new_panel_class in *.
  rewrite register_class_record_accepted;
    [|by apply (not_installed_above _ _ n)|by rewrite Hv].
  match goal with
  | |- context [install_record ?cls ?P u] =>
      destruct (install_record_frame cls P u) as (_ & _ & _ & Hv' & _ & Hhost & _)
  end.
  rewrite register_class_panel_accepted; [by eexists| |simpl; by rewrite Hv', Hv].
  apply (not_installed_above _ _ (S n)); [|simpl; lia].
  intros c Hc. simpl in Hc. rewrite Hhost in Hc.
  apply elem_of_app in Hc as [Hc|Hc%list_elem_of_singleton].
  - apply Hbelow in Hc. lia.
  - subst c. simpl. lia.
Qed.

(** C8.  Whatever the target type and the group name of a registrar:
    whenever its [register] returns, [find] with that type and name gives
    that very registrar; in a state reached by calls [register] does return
    when the target type is recognized and the host accepts the classes it
    is handed; and after [unregister] of the registrar, in any state,
    [find] gives [None]. *)
Theorem find_after_register_and_unregister (self : nat) (d : DynamicProperties.t) :
  (∀ w w', heap w !! self = Some d → register self w = (Return tt, w') →
     find (DynamicProperties.bpy_type d) (DynamicProperties.name d) w' = Some self)
  ∧ (∀ cs,
       heap (run_calls cs init_world) !! self = Some d →
       recognized (DynamicProperties.bpy_type d) →
       (∀ c, verdict_of (run_calls cs init_world) c = Accept) →
       ∃ w1, register self (run_calls cs init_world) = (Return tt, w1)
             ∧ find (DynamicProperties.bpy_type d) (DynamicProperties.name d) w1 = Some self
             ∧ ∃ w2, unregister self w1 = (Return tt, w2)
                     ∧ find (DynamicProperties.bpy_type d) (DynamicProperties.name d) w2
                       = None)
  ∧ (∀ w, heap w !! self = Some d →
       ∃ w', unregister self w = (Return tt, w')
             ∧ find (DynamicProperties.bpy_type d) (DynamicProperties.name d) w' = None).
Proof.
  assert (Hunreg : ∀ d' w, heap w !! self = Some d' →
    DynamicProperties.bpy_type d' = DynamicProperties.bpy_type d →
    DynamicProperties.name d' = DynamicProperties.name d →
    ∃ w', unregister self w = (Return tt, w')
          ∧ find (DynamicProperties.bpy_type d) (DynamicProperties.name d) w' = None).
  { intros d' w Hd' Ht Hn. exists (after_unregister self d' w).
    split; [by apply unregister_spec|]. unfold find.
    rewrite (proj1 (proj2 (proj2 (after_unregister_frame self d' w)))), Ht, Hn.
    apply lookup_delete_eq. }
  split; [|split].
  - intros w w' Hd Hreg. unfold find. by apply (register_returns_entry self d w w').
  - intros cs Hd [ctx Hp] Hacc. set (w := run_calls cs init_world) in *.
    destruct (register_returns_when_accepted self d ctx w) as [w1 H1]; try done.
    { apply coherent_reached. }
    exists w1. split; [done|].
    split; [unfold find; by apply (register_returns_entry self d w w1)|].
    rewrite (register_spec self d ctx) in H1 by done.
    destruct (attempt_register_heap_table self d ctx w) as [(_ & Hh & _)|([e He] & _)];
      rewrite H1 in *; simpl in *; [|done].
    apply (Hunreg (registered_as (next_class w) d ctx)); [|done|done].
    rewrite Hh. apply list_lookup_insert_eq. by eapply lookup_lt_Some.
  - intros w Hd. by apply (Hunreg d).
Qed.

Lemma find_after_register_and_unregister_witness :
  ∃ w1, register 0 demo_world = (Return tt, w1) ∧ find Light "fizz" w1 = Some 0%nat.
Proof.
  assert (Ht : group_of <$> heap demo_world !! 0%nat = Some (Light, "fizz"))
    by (vm_compute; reflexivity).
  destruct (heap demo_world !! 0%nat) as [d|] eqn:E; [|discriminate Ht].
  injection Ht as Ht Hn.
  assert (Hr : recognized (DynamicProperties.bpy_type d)).
  { rewrite Ht. vm_compute. by eexists. }
  destruct (proj1 (proj2 (find_after_register_and_unregister 0 d))
              demo_calls E Hr demo_world_accepts) as (w1 & H1 & H2 & _).
  exists w1. split; [exact H1|]. rewrite <- Ht, <- Hn. exact H2.
Defined.




(** C10.  [unregister] on a registrar that was just constructed, before any
    [register], returns without raising; both handles are then [None], the
    installed classes are untouched, and the table is unchanged when it had
    no entry under the registrar's key. *)
Theorem unregister_before_register (bpy_type : StructMetaProp) (name title : string)
    (enabled : bool) (panel_parent_id : string) (w : world) :
  ∃ self w1 w2,
    DynamicProperties_init bpy_type name title enabled panel_parent_id w = (Return self, w1)
    ∧ (∃ d0, heap w1 !! self = Some d0
             ∧ DynamicProperties.property_class d0 = Unset
             ∧ DynamicProperties.panel_class d0 = Unset)
    ∧ unregister self w1 = (Return tt, w2)
    ∧ (∃ d, heap w2 !! self = Some d
            ∧ DynamicProperties.property_class d = PyNone
            ∧ DynamicProperties.panel_class d = PyNone)
    ∧ host w2 = host w1
    ∧ (registered_properties w1 !! get_key bpy_type name = None →
       registered_properties w2 = registered_properties w1).
Proof.
  eexists _, _, _. split; [reflexivity|].
  set (d0 := DynamicProperties.Build _ _ _ _ _ _ _).
  assert (Hd0 : (heap w ++ [d0])%list !! length (heap w) = Some d0).
  { apply lookup_snoc_Some. by right. }
  split; [by exists d0|].
  split; [apply (unregister_spec _ d0); exact Hd0|].
  split.
  { exists (unregistered d0). split; [|done]. simpl. apply list_lookup_insert_eq.
    by eapply lookup_lt_Some. }
  split; [done|].
  intros Hnone. simpl in *. by apply delete_id.
Qed.

Lemma unregister_before_register_witness :
  ∃ self w1 w2,
    DynamicProperties_init Light "fizz" "Fizz Settings" true "" init_world = (Return self, w1)
    ∧ unregister self w1 = (Return tt, w2)
    ∧ registered_properties w2 = registered_properties w1.
Proof.
  destruct (unregister_before_register Light "fizz" "Fizz Settings" true "" init_world)
    as (self & w1 & w2 & H1 & _ & H2 & _ & _ & H3).
  exists self, w1, w2. split; [exact H1|]. split; [exact H2|].
  apply H3. injection H1 as _ <-. reflexivity.
Defined.

(** * Further properties of field collections *)

Lemma add_kind_shape_tag (k : field_kind) (key name : string)
    (kwargs : gmap string pyval) (c : PropertyCollection.t) :
  add_kind k key name kwargs c =
  PropertyCollection.Build
    (<[key := BpyProp (kind_ctor k) (kind_entries k name ∪ kwargs)]> (PropertyCollection.props c))
    (<[key := Meta (kind_tag k) name (dict_get kwargs "description" (VStr ""))]>
       (PropertyCollection.meta c)).
Proof. destruct k; reflexivity. Qed.

(** X1.  A declaration of a field makes a declaration or a header written
    under the same key just before it irrelevant: the collection is the one
    the declaration alone gives.  Declaring a key again does not change the
    number of descriptors or of constructors. *)
Theorem declaration_overrides (o : coll_op) (k : field_kind) (key name : string)
    (kwargs : gmap string pyval) (c : PropertyCollection.t) :
  op_key o = Some key →
  o ≠ ORemove key →
  add_kind k key name kwargs (run_op o c) = add_kind k key name kwargs c
  ∧ (∀ k' name' kwargs',
       size (PropertyCollection.meta (add_kind k' key name' kwargs' (add_kind k key name kwargs c)))
       = size (PropertyCollection.meta (add_kind k key name kwargs c))
       ∧ size (PropertyCollection.props (add_kind k' key name' kwargs' (add_kind k key name kwargs c)))
         = size (PropertyCollection.props (add_kind k key name kwargs c))).
Proof.
  intros Hkey Hadd.
  assert (Hsize : ∀ {A} (m : gmap string A) x y, size (<[key := x]> (<[key := y]> m))
                                               = size (<[key := y]> m)).
  { intros A m x y. rewrite insert_insert_eq. by rewrite !map_size_insert. }
  split.
  - rewrite !add_kind_shape_tag.
    destruct o as [k0 key0 name0 kwargs0|key0 name0 descr0|key0 text0|key0|en]; simpl in *;
      try (injection Hkey as ->); try discriminate Hkey.
    + rewrite add_kind_shape_tag; simpl. by rewrite !insert_insert_eq.
    + by rewrite !insert_insert_eq.
    + by rewrite !insert_insert_eq.
    + by destruct Hadd.
  - intros k' name' kwargs'. rewrite !add_kind_shape_tag; simpl. split; apply Hsize.
Qed.

Lemma declaration_overrides_witness :
  PropertyCollection.add_float "f" "F2" ∅
    (PropertyCollection.add_header "f" "Section" float_and_header)
  = PropertyCollection.add_float "f" "F2" ∅ float_and_header.
Proof.
  refine (proj1 (declaration_overrides (OAddHeader "f" "Section") KFloat "f" "F2" ∅
                   float_and_header eq_refl _)).
  intros H. discriminate H.
Defined.

(** X2.  An add, a header or a remove changes nothing under any other key:
    the constructor and the descriptor of every other key stay as they
    were. *)
Theorem operations_are_local (o : coll_op) (key key' : string) (c : PropertyCollection.t) :
  op_key o = Some key → key ≠ key' →
  PropertyCollection.props (run_op o c) !! key' = PropertyCollection.props c !! key'
  ∧ PropertyCollection.meta (run_op o c) !! key' = PropertyCollection.meta c !! key'.
Proof.
  intros Hkey Hne.
  destruct o as [k0 key0 name0 kwargs0|key0 name0 descr0|key0 text0|key0|en]; simpl in *;
    try (injection Hkey as ->); try discriminate Hkey.
  - rewrite add_kind_shape_tag; simpl. by rewrite !lookup_insert_ne.
  - by rewrite !lookup_insert_ne.
  - by rewrite !lookup_insert_ne.
  - unfold PropertyCollection.remove; simpl.
    repeat case_decide; by rewrite ?lookup_delete_ne.
Qed.

Lemma operations_are_local_witness :
  PropertyCollection.meta
    (PropertyCollection.remove "f" (PropertyCollection.init true)) !! "enabled"
  = PropertyCollection.meta (PropertyCollection.init true) !! "enabled".
Proof.
  refine (proj2 (operations_are_local (ORemove "f") "f" "enabled"
                   (PropertyCollection.init true) eq_refl _)).
  intros H. discriminate H.
Defined.

Lemma remove_as_delete (key : string) (c : PropertyCollection.t) :
  PropertyCollection.remove key c
  = PropertyCollection.Build (delete key (PropertyCollection.props c))
                             (delete key (PropertyCollection.meta c)).
Proof.
  assert (Hdel : ∀ {A} (m : gmap string A),
            (if decide (key ∈ dom m) then delete key m else m) = delete key m).
  { intros A m. case_decide as Hin; [done|].
    symmetry. apply delete_id. by apply not_elem_of_dom. }
  unfold PropertyCollection.remove; simpl. by rewrite !Hdel.
Qed.

(** X3.  After [remove] the key has neither constructor nor descriptor;
    [remove] of a key the collection does not hold changes nothing and
    raises nothing, so a second [remove] of the same key is a no-op. *)
Theorem remove_deletes_and_tolerates (key : string) (c : PropertyCollection.t) :
  PropertyCollection.props (PropertyCollection.remove key c) !! key = None
  ∧ PropertyCollection.meta (PropertyCollection.remove key c) !! key = None
  ∧ (PropertyCollection.props c !! key = None → PropertyCollection.meta c !! key = None →
     PropertyCollection.remove key c = c)
  ∧ PropertyCollection.remove key (PropertyCollection.remove key c)
    = PropertyCollection.remove key c.
Proof.
  rewrite !remove_as_delete; simpl.
  split; [apply lookup_delete_eq|]. split; [apply lookup_delete_eq|]. split.
  - intros Hp Hm. destruct c as [ps ms]; simpl in *. by rewrite !delete_id.
  - f_equal; apply delete_id, lookup_delete_eq.
Qed.

Lemma remove_deletes_and_tolerates_witness :
  PropertyCollection.remove "nothing" (PropertyCollection.init true)
  = PropertyCollection.init true.
Proof.
  exact (proj1 (proj2 (proj2 (remove_deletes_and_tolerates "nothing"
                                (PropertyCollection.init true)))) eq_refl eq_refl).
Defined.

Lemma run_op_described (o : coll_op) (c : PropertyCollection.t) :
  dom (PropertyCollection.props c) ⊆ dom (PropertyCollection.meta c) →
  dom (PropertyCollection.props (run_op o c)) ⊆ dom (PropertyCollection.meta (run_op o c)).
Proof.
  intros Hc. destruct o as [k key name kwargs|key name descr|key text|key|en]; cbn [run_op].
  - rewrite add_kind_shape_tag; simpl. rewrite !dom_insert_L.
    by apply union_mono_l.
  - simpl. rewrite !dom_insert_L. by apply union_mono_l.
  - simpl. rewrite !dom_insert_L. by apply union_subseteq_r'.
  - rewrite remove_as_delete; simpl. rewrite !dom_delete_L.
    intros x [Hx Hne]%elem_of_difference. apply elem_of_difference. split; [by apply Hc|done].
  - rewrite clear_shape; simpl. by rewrite !dom_singleton_L.
Qed.

(** X4.  Whatever adds, headers, removes and clears were applied since the
    collection was made, every constructor has a descriptor under its key,
    and every descriptor that is not a header has a constructor: the record
    type made from the collection has a field for each descriptor that
    [items] lists or the panel edits. *)
Theorem descriptors_match_constructors (os : list coll_op) (enabled : bool) :
  dom (PropertyCollection.props (run_ops os (PropertyCollection.init enabled)))
    ⊆ dom (PropertyCollection.meta (run_ops os (PropertyCollection.init enabled)))
  ∧ ∀ key m,
      PropertyCollection.meta (run_ops os (PropertyCollection.init enabled)) !! key = Some m →
      meta_kind m ≠ "header" →
      is_Some (PropertyCollection.props (run_ops os (PropertyCollection.init enabled)) !! key).
Proof.
  split; [|apply run_ops_declared].
  assert (Hinit : dom (PropertyCollection.props (PropertyCollection.init enabled))
                  ⊆ dom (PropertyCollection.meta (PropertyCollection.init enabled))).
  { unfold PropertyCollection.init. rewrite clear_shape; simpl. by rewrite !dom_singleton_L. }
  revert Hinit. generalize (PropertyCollection.init enabled).
  induction os as [|o os IH]; intros c Hc; [done|].
  simpl. apply IH. by apply run_op_described.
Qed.

Lemma descriptors_match_constructors_witness :
  is_Some (PropertyCollection.props
             (run_ops [OAddHeader "k" "Title"; OAdd KFloat "k" "K" ∅]
                (PropertyCollection.init true)) !! "k").
Proof.
  apply (proj2 (descriptors_match_constructors
                  [OAddHeader "k" "Title"; OAdd KFloat "k" "K" ∅] true)
           "k" (Meta "float" "K" (VStr ""))).
  - vm_compute. reflexivity.
  - simpl. discriminate.
Defined.

(** X5.  The descriptor and the constructor an [add_<kind>] call writes
    agree: the descriptor carries the method's own tag and the given name,
    the constructor receives that same name, and the description of the
    descriptor is the caller's [description] option, which the constructor
    receives as well, or the empty string when the caller gave none. *)
Theorem descriptor_agrees_with_constructor (k : field_kind) (key name : string)
    (kwargs : gmap string pyval) (c : PropertyCollection.t) :
  ∃ args description,
    PropertyCollection.props (add_kind k key name kwargs c) !! key
      = Some (BpyProp (kind_ctor k) args)
    ∧ PropertyCollection.meta (add_kind k key name kwargs c) !! key
      = Some (Meta (kind_tag k) name description)
    ∧ args !! "name" = Some (VStr name)
    ∧ args !! "description" = kwargs !! "description"
    ∧ (∀ v, kwargs !! "description" = Some v → description = v)
    ∧ (kwargs !! "description" = None → description = VStr "").
Proof.
  exists (kind_entries k name ∪ kwargs), (dict_get kwargs "description" (VStr "")).
  rewrite add_kind_shape_tag; simpl. rewrite !lookup_insert_eq.
  split; [done|]. split; [done|]. split; [|split; [|split]].
  - apply lookup_union_Some_l. destruct k; reflexivity.
  - apply lookup_union_r. destruct k; reflexivity.
  - intros v Hv. unfold dict_get. by rewrite Hv.
  - intros Hv. unfold dict_get. by rewrite Hv.
Qed.

Lemma descriptor_agrees_with_constructor_witness :
  PropertyCollection.meta
    (PropertyCollection.add_rgb "diffuse" "Diffuse"
       {[ "description" := VStr "Diffuse color" ]} (PropertyCollection.init true)) !! "diffuse"
  = Some (Meta "rgb" "Diffuse" (VStr "Diffuse color")).
Proof.
  destruct (descriptor_agrees_with_constructor KRgb "diffuse" "Diffuse"
              {[ "description" := VStr "Diffuse color" ]} (PropertyCollection.init true))
    as (args & description & _ & Hm & _ & _ & Hd & _).
  rewrite (Hd (VStr "Diffuse color") eq_refl) in Hm. exact Hm.
Defined.

(** * Further properties of [items] *)


Lemma items_returned_all_valued (self : BaseDynamicPropertyGroup.t) d :
  BaseDynamicPropertyGroup.items self = Return d →
  ∀ key mm, BaseDynamicPropertyGroup.meta self !! key = Some mm → listed key mm →
            is_Some (BaseDynamicPropertyGroup.values self !! key).
Proof.
  intros Hd key mm Hm Hl.
  destruct (BaseDynamicPropertyGroup.values self !! key) as [v|] eqn:Hv; [by eexists|].
  destruct (items_raises_without_value self) as [e He]; [by exists key, mm|].
  congruence.
Qed.



Lemma items_of_returned (self : BaseDynamicPropertyGroup.t) d :
  BaseDynamicPropertyGroup.items self = Return d →
  items_of self (BaseDynamicPropertyGroup.meta self) d.
Proof.
  intros Hd. destruct (items_fold self (BaseDynamicPropertyGroup.meta self)) as (d' & Hd' & Hof).
  - by apply (items_returned_all_valued self d).
  - unfold BaseDynamicPropertyGroup.items in Hd. rewrite Hd' in Hd.
    by injection Hd as <-.
Qed.

(** X7.  Declaring a header under a key takes that key out of what [items]
    returns on a record of the collection and changes no other entry: when
    [items] returned [d] before, it returns [d] without the key afterwards
    (the constructor of an overwritten field stays declared all the while). *)
Theorem header_hides_field (c : PropertyCollection.t) (vals : gmap string pyval)
    (key text : string) (d : gmap string (string * pyval)) :
  BaseDynamicPropertyGroup.items
    (BaseDynamicPropertyGroup.Build (PropertyCollection.meta c) vals) = Return d →
  BaseDynamicPropertyGroup.items
    (BaseDynamicPropertyGroup.Build
       (PropertyCollection.meta (PropertyCollection.add_header key text c)) vals)
  = Return (delete key d)
  ∧ PropertyCollection.props (PropertyCollection.add_header key text c)
    = PropertyCollection.props c.
Proof.
  intros Hd. split; [|reflexivity]. simpl.
  set (self := BaseDynamicPropertyGroup.Build (PropertyCollection.meta c) vals) in *.
  set (self' := BaseDynamicPropertyGroup.Build _ _).
  assert (Hof := items_of_returned self d Hd).
  assert (Hall := items_returned_all_valued self d Hd).
  destruct (items_fold self' (BaseDynamicPropertyGroup.meta self')) as (d' & Hd' & Hof').
  { intros k mm. subst self'; simpl. destruct (decide (key = k)) as [->|Hne].
    - rewrite lookup_insert_eq. intros [= <-] [_ Hh]. by destruct Hh.
    - rewrite lookup_insert_ne by done. apply Hall. }
  unfold BaseDynamicPropertyGroup.items. rewrite Hd'. f_equal.
  apply map_eq. intros k. apply option_eq. intros e.
  rewrite (Hof' k e). subst self'; simpl.
  destruct (decide (key = k)) as [->|Hne].
  - rewrite lookup_delete_eq, lookup_insert_eq. split; [|done].
    intros (mm & v & [= <-] & [_ Hh] & _). by destruct Hh.
  - rewrite lookup_delete_ne, lookup_insert_ne by done. by rewrite (Hof k e).
Qed.

Lemma header_hides_field_witness :
  BaseDynamicPropertyGroup.items
    (BaseDynamicPropertyGroup.Build
       (PropertyCollection.meta
          (PropertyCollection.add_header "f" "Now a header" float_and_header))
       (<["enabled" := VBool true]> {[ "f" := VFloat (1 # 1) ]}))
  = Return (delete "f" {[ "f" := ("float", VFloat (1 # 1)) ]}).
Proof.
  apply (header_hides_field float_and_header
           (<["enabled" := VBool true]> {[ "f" := VFloat (1 # 1) ]}) "f" "Now a header").
  vm_compute. reflexivity.
Defined.

(** * The panel *)

Lemma editor_keys_row (key : string) (m : meta_entry) :
  omap editor_key (BaseDynamicPanel.draw_row key m)
  = if decide (listed key m) then [key] else [].
Proof.
  unfold BaseDynamicPanel.draw_row, listed.
  destruct (String.eqb_spec key "enabled") as [->|Hk].
  { rewrite decide_False; [done|]. by intros [? _]. }
  destruct (String.eqb_spec (meta_kind m) "header") as [Hh|Hh].
  { rewrite decide_False; [done|]. by intros [_ ?]. }
  rewrite decide_True by done.
  by destruct (String.eqb (meta_kind m) "image").
Qed.

Lemma editor_keys_rows (entries : list (string * meta_entry)) :
  omap editor_key (entries ≫= λ km, BaseDynamicPanel.draw_row km.1 km.2)
  = (filter (λ km, listed km.1 km.2) entries).*1.
Proof.
  induction entries as [|[key m] entries IH]; [done|].
  rewrite bind_cons, omap_app, IH, filter_cons. simpl.
  rewrite editor_keys_row. by destruct (decide (listed key m)).
Qed.

(** X8.  The panel places an editor for exactly the fields that [items]
    lists: whatever the order in which the descriptors are enumerated, the
    keys of the editors [draw] places (standard rows and image selectors)
    are, each once, the keys of the mapping [items] returns for the same
    record; [enabled] and headers get no editor. *)
Theorem draw_edits_what_items_lists (self : panel_class_t)
    (context : gmap string ctx_value)
    (items_of_meta : gmap string meta_entry → list (string * meta_entry))
    (a : string) (groups : gmap string BaseDynamicPropertyGroup.t)
    (props : BaseDynamicPropertyGroup.t) (d : gmap string (string * pyval)) :
  context_attr self = Some a →
  context !! a = Some (CtxObj groups) →
  groups !! pn_name self = Some props →
  items_of_meta (BaseDynamicPropertyGroup.meta props)
    ≡ₚ map_to_list (BaseDynamicPropertyGroup.meta props) →
  BaseDynamicPropertyGroup.items props = Return d →
  ∃ calls,
    BaseDynamicPanel.draw self context items_of_meta = (Return tt, calls)
    ∧ omap editor_key calls ≡ₚ elements (dom d)
    ∧ "enabled" ∉ omap editor_key calls.
Proof.
  intros Ha Hctx Hg Hperm Hd.
  assert (Hof := items_of_returned props d Hd).
  assert (Hall := items_returned_all_valued props d Hd).
  eexists. split.
  { unfold BaseDynamicPanel.draw. rewrite Ha, Hctx, Hg. reflexivity. }
  rewrite omap_app. simpl. rewrite editor_keys_rows.
  set (m := BaseDynamicPropertyGroup.meta props) in *.
  assert (Hkeys : (filter (λ km, listed km.1 km.2) (items_of_meta m)).*1
                  ≡ₚ elements (dom d)).
  { rewrite Hperm. apply NoDup_Permutation.
    - apply NoDup_fmap_filter, NoDup_fst_map_to_list.
    - apply NoDup_elements.
    - intros k. rewrite elem_of_elements, elem_of_dom, list_elem_of_fmap. split.
      + intros ([k' mm] & -> & [Hl Hin%elem_of_map_to_list]%list_elem_of_filter). simpl in *.
        destruct (Hall k' mm Hin Hl) as [v Hv].
        exists (item_of mm v). apply Hof. by exists mm, v.
      + intros [e (mm & v & Hm & Hl & _)%Hof].
        exists (k, mm). split; [done|]. apply list_elem_of_filter.
        split; [done|]. by apply elem_of_map_to_list. }
  split; [done|].
  rewrite Hkeys, elem_of_elements, elem_of_dom. intros [e (mm & v & _ & [Hk _] & _)%Hof].
  by destruct Hk.
Qed.

Lemma draw_edits_what_items_lists_witness :
  ∃ calls,
    BaseDynamicPanel.draw
      (PanelClass 1 "DYNAMIC_PT_Lightfizz" Light "fizz" "Fizz" "Fizz" "" (Some "data")
         (Some "light"))
      {[ "light" := CtxObj {[ "fizz" := float_and_header_record ]} ]}
      map_to_list = (Return tt, calls)
    ∧ omap editor_key calls ≡ₚ elements (dom ({[ "f" := ("float", VFloat (1 # 1)) ]}
                                              : gmap string (string * pyval))).
Proof.
  destruct (draw_edits_what_items_lists
              (PanelClass 1 "DYNAMIC_PT_Lightfizz" Light "fizz" "Fizz" "Fizz" "" (Some "data")
                 (Some "light"))
              {[ "light" := CtxObj {[ "fizz" := float_and_header_record ]} ]}
              map_to_list "light" {[ "fizz" := float_and_header_record ]}
              float_and_header_record {[ "f" := ("float", VFloat (1 # 1)) ]})
    as (calls & Hc & Hk & _).
  - reflexivity.
  - vm_compute. reflexivity.
  - vm_compute. reflexivity.
  - reflexivity.
  - vm_compute. reflexivity.
  - exists calls. by split.
Defined.

(** * Further properties of the registrar *)

Section registered.

Implicit Types (w : world) (d : DynamicProperties.t) (c : bpy_class).

Lemma define_props_lookup (P : string → bool) (ps : gmap string bpy_prop) (key : string) :
  define_props P ps !! key = (λ p, if P key then tag_attr key p else p) <$> ps !! key.
Proof. unfold define_props. rewrite map_lookup_imap. by destruct (ps !! key). Qed.

Lemma defined_props_all (ps : gmap string bpy_prop) (key : string) :
  defined_props (λ _, true) ps !! key = tag_attr key <$> ps !! key.
Proof. unfold defined_props. rewrite map_lookup_imap. by destruct (ps !! key). Qed.

Lemma dom_define_props (P : string → bool) (ps : gmap string bpy_prop) :
  dom (define_props P ps) = dom ps.
Proof.
  apply set_eq. intros key. rewrite !elem_of_dom, define_props_lookup.
  by rewrite fmap_is_Some.
Qed.

(** The host writes into the dictionaries of the class it is handed and
    into no others; it keeps their keys and leaves the descriptors alone. *)
Lemma register_class_dicts_other c w (i : nat) :
  (∀ cls, c = RecordCls cls → i ≠ pc_dicts cls) →
  dicts (register_class c w).2 !! i = dicts w !! i.
Proof.
  intros Hi. unfold register_class. destruct (installed _ _); [done|].
  destruct c as [cls|cls]; destruct (verdict_of w _); simpl; try done;
    unfold install_record; simpl; (destruct (dicts w !! pc_dicts cls); [|done]); simpl;
    apply list_lookup_insert_ne; intros Heq; by apply (Hi cls).
Qed.

Lemma register_class_dicts_own c w (i : nat) (col : PropertyCollection.t) :
  dicts w !! i = Some col →
  ∃ col', dicts (register_class c w).2 !! i = Some col'
          ∧ PropertyCollection.meta col' = PropertyCollection.meta col
          ∧ dom (PropertyCollection.props col') = dom (PropertyCollection.props col).
Proof.
  intros Hcol.
  assert (Hinst : ∀ cls P, ∃ col', dicts (install_record cls P w) !! i = Some col'
            ∧ PropertyCollection.meta col' = PropertyCollection.meta col
            ∧ dom (PropertyCollection.props col') = dom (PropertyCollection.props col)).
  { intros cls P. unfold install_record. simpl.
    destruct (dicts w !! pc_dicts cls) as [col0|] eqn:E; simpl; [|by exists col].
    destruct (decide (i = pc_dicts cls)) as [->|Hne].
    - assert (col0 = col) as -> by congruence. eexists.
      split; [apply list_lookup_insert_eq; by eapply lookup_lt_Some|].
      split; [done|]. simpl. apply dom_define_props.
    - exists col. by rewrite list_lookup_insert_ne. }
  unfold register_class. destruct (installed _ _); [by exists col|].
  destruct c as [cls|cls]; destruct (verdict_of w _); simpl;
    try (by exists col); apply Hinst.
Qed.

Lemma attempt_register_dicts_other self d ctx w (i : nat) :
  i ≠ DynamicProperties.coll d →
  dicts (attempt_register self d ctx w).2 !! i = dicts w !! i.
Proof.
  intros Hi. unfold attempt_register.
  set (u := after_unregister self d _).
  assert (Hu : dicts u = dicts w)
    by apply (after_unregister_frame self d (set_next_class (S (S (next_class w))) w)).
  clearbody u.
  pose proof (register_class_dicts_other (new_property_class (next_class w) d) u i) as H1.
  destruct (register_class (new_property_class (next_class w) d) u) as [[[]|e1] u1];
    simpl in H1; (rewrite <- Hu, <- H1; [|by intros cls [= <-]]); [|done].
  pose proof (register_class_dicts_other (new_panel_class (next_class w) d ctx) u1 i) as H2.
  destruct (register_class (new_panel_class (next_class w) d ctx) u1) as [[[]|e2] u2];
    simpl in H2; rewrite <- H2; done.
Qed.

Lemma attempt_register_dicts_own self d ctx w (col : PropertyCollection.t) :
  dicts w !! DynamicProperties.coll d = Some col →
  ∃ col', dicts (attempt_register self d ctx w).2 !! DynamicProperties.coll d = Some col'
          ∧ PropertyCollection.meta col' = PropertyCollection.meta col
          ∧ dom (PropertyCollection.props col') = dom (PropertyCollection.props col).
Proof.
  intros Hcol. unfold attempt_register.
  set (u := after_unregister self d _).
  assert (Hu : dicts u !! DynamicProperties.coll d = Some col).
  { unfold u. by rewrite (proj1 (proj2 (after_unregister_frame self d _))). }
  clearbody u.
  destruct (register_class_dicts_own (new_property_class (next_class w) d) u _ col Hu)
    as (col1 & H1 & Hm1 & Hd1).
  destruct (register_class (new_property_class (next_class w) d) u) as [[[]|e1] u1];
    simpl in H1; [|exists col1; by rewrite <- Hm1, <- Hd1].
  destruct (register_class_dicts_own (new_panel_class (next_class w) d ctx) u1 _ col1 H1)
    as (col2 & H2 & Hm2 & Hd2).
  exists col2. split; [|split; congruence].
  by destruct (register_class (new_panel_class (next_class w) d ctx) u1) as [[[]|e2] u2].
Qed.

(** ** The state a returning [register] leaves *)

Lemma register_returns_state self d w w1 :
  heap w !! self = Some d → register self w = (Return tt, w1) →
  ∃ ctx, placement (__name__ (DynamicProperties.bpy_type d)) = Some ctx
         ∧ w1 = registered_state self d ctx w.
Proof.
  intros Hd Hreg.
  destruct (placement (__name__ (DynamicProperties.bpy_type d))) as [ctx|] eqn:Hp.
  2:{ by rewrite (register_unrecognized self d) in Hreg. }
  exists ctx. split; [done|].
  rewrite (register_spec self d ctx) in Hreg by done.
  unfold attempt_register in Hreg. unfold registered_state.
  set (u := after_unregister self d _) in *. clearbody u.
  unfold new_property_class in Hreg at 1.
  destruct (register_class (RecordCls _) u) as [[[]|e1] u1] eqn:E1; [|discriminate Hreg].
  apply register_class_record_returns in E1 as (_ & _ & ->).
  unfold new_panel_class in Hreg at 1.
  destruct (register_class (PanelCls _) _) as [[[]|e2] u2] eqn:E2; [|discriminate Hreg].
  apply register_class_panel_returns in E2 as (_ & _ & ->).
  by injection Hreg as <-.
Qed.

Lemma registered_state_heap self d ctx w :
  heap (registered_state self d ctx w) = <[self := registered_as (next_class w) d ctx]> (heap w).
Proof.
  unfold registered_state.
  set (u := after_unregister self d _).
  assert (Hu : heap u = <[self := unregistered d]> (heap w))
    by apply (after_unregister_frame self d (set_next_class (S (S (next_class w))) w)).
  clearbody u. cbn -[install_record displace].
  rewrite (proj1 (install_record_frame _ _ u)), Hu.
  by rewrite list_insert_insert_eq.
Qed.

Lemma registered_state_table self d ctx w :
  registered_properties (registered_state self d ctx w)
  = <[get_key (DynamicProperties.bpy_type d) (DynamicProperties.name d) := self]>
      (delete (get_key (DynamicProperties.bpy_type d) (DynamicProperties.name d))
              (registered_properties w)).
Proof.
  unfold registered_state.
  set (u := after_unregister self d _).
  assert (Hu : registered_properties u
               = delete (get_key (DynamicProperties.bpy_type d) (DynamicProperties.name d))
                        (registered_properties w))
    by apply (after_unregister_frame self d (set_next_class (S (S (next_class w))) w)).
  clearbody u. cbn -[install_record displace].
  by rewrite (proj1 (proj2 (install_record_frame _ _ u))), Hu.
Qed.

Lemma registered_state_host self d ctx w :
  new_property_class (next_class w) d ∈ host (registered_state self d ctx w)
  ∧ new_panel_class (next_class w) d ctx ∈ host (registered_state self d ctx w).
Proof.
  unfold registered_state.
  set (u := after_unregister self d _). clearbody u.
  cbn -[install_record displace]. split.
  - apply elem_of_app. left. apply elem_of_displace. split; [done|].
    rewrite (proj1 (proj2 (proj2 (proj2 (proj2 (proj2 (install_record_frame _ _ u))))))).
    apply elem_of_app. right. left.
  - apply elem_of_app. right. left.
Qed.

Lemma registered_state_pointer self d ctx w :
  type_attrs (registered_state self d ctx w)
    !! (__name__ (DynamicProperties.bpy_type d), DynamicProperties.name d)
  = Some (pointer_to (property_class_for (next_class w) d)).
Proof.
  unfold registered_state.
  set (u := after_unregister self d _). clearbody u.
  cbn -[install_record displace]. apply lookup_insert_eq.
Qed.

Lemma registered_state_dicts self d ctx w (col : PropertyCollection.t) :
  dicts w !! DynamicProperties.coll d = Some col →
  dicts (registered_state self d ctx w) !! DynamicProperties.coll d
  = Some (PropertyCollection.Build
            (define_props (λ _, true) (PropertyCollection.props col))
            (PropertyCollection.meta col))
  ∧ rna_properties (registered_state self d ctx w) !! next_class w
    = Some (defined_props (λ _, true) (PropertyCollection.props col)).
Proof.
  intros Hcol. unfold registered_state.
  set (u := after_unregister self d _).
  assert (Hu : dicts u !! DynamicProperties.coll d = Some col).
  { unfold u. by rewrite (proj1 (proj2 (after_unregister_frame self d _))). }
  clearbody u. cbn -[install_record displace].
  unfold install_record. cbn. rewrite Hu. cbn.
  split; [|apply lookup_insert_eq].
  apply list_lookup_insert_eq. by eapply lookup_lt_Some.
Qed.

End registered.

(** X9.  Among the recognized target types the key of the table determines
    the target type and the group name: two registrars of recognized types
    share a key only if they were made for the same type and name.  Without
    that restriction the key, a plain concatenation, does not separate the
    name of the type from the name of the group. *)
Theorem get_key_recognized_inj :
  (∀ (t1 t2 : StructMetaProp) (n1 n2 : string),
     recognized t1 → recognized t2 →
     get_key t1 n1 = get_key t2 n2 → t1 = t2 ∧ n1 = n2)
  ∧ get_key (BpyType "Light") "Probex" = get_key (BpyType "LightProbe") "x".
Proof.
  split; [|reflexivity].
  intros t1 t2 n1 n2 H1%recognized_names H2%recognized_names.
  destruct t1 as [s1], t2 as [s2]. unfold get_key. simpl in *.
  rewrite !elem_of_cons, elem_of_nil in H1, H2.
  destruct H1 as [->|[->|[->|[->|[]]]]], H2 as [->|[->|[->|[->|[]]]]];
    simpl; intros H; by simplify_eq.
Qed.

Lemma get_key_recognized_inj_witness :
  BpyType "Object" = BpyType ("Obj" ++ "ect") ∧ "fizz" = "fi" ++ "zz".
Proof.
  apply (proj1 get_key_recognized_inj (BpyType "Object") (BpyType ("Obj" ++ "ect"))
           "fizz" ("fi" ++ "zz")).
  - vm_compute. by eexists.
  - vm_compute. by eexists.
  - reflexivity.
Defined.

Lemma held_classes_made (cs : list call) (a : nat) (d : DynamicProperties.t)
    (pc : property_class_t) (pn : panel_class_t) :
  heap (run_calls cs init_world) !! a = Some d →
  DynamicProperties.property_class d = Obj (RecordCls pc) →
  DynamicProperties.panel_class d = Obj (PanelCls pn) →
  pc_bpy_type pc = DynamicProperties.bpy_type d
  ∧ pc_name pc = DynamicProperties.name d
  ∧ pn_bpy_type pn = DynamicProperties.bpy_type d
  ∧ pn_name pn = DynamicProperties.name d
  ∧ recognized (DynamicProperties.bpy_type d).
Proof.
  intros Ha Hpc Hpn. set (w := run_calls cs init_world) in *.
  assert (Hw : coherent w) by apply coherent_reached.
  destruct (coh_made w Hw a d (RecordCls pc) Ha) as ([Hg1 _] & Hrec); [by left|].
  destruct (coh_made w Hw a d (PanelCls pn) Ha) as ([Hg2 _] & _); [by right|].
  simpl in Hg1, Hg2.
  apply andb_true_iff in Hg1 as [?%bool_decide_eq_true ?%bool_decide_eq_true].
  apply andb_true_iff in Hg2 as [?%bool_decide_eq_true ?%bool_decide_eq_true].
  done.
Qed.

(** X10.  In every state reached by calls, whatever the host answered, a
    registrar that [find] returns is registered: it is a registrar object
    with the looked-up key, its two handles hold a record class and a panel
    class made for its own target type and group name, and its target type
    is recognized.  When the looked-up type is itself recognized, the
    registrar was made for exactly that type and name. *)
Theorem find_gives_registered (cs : list call) (bpy_type : StructMetaProp)
    (name : string) (a : nat) :
  find bpy_type name (run_calls cs init_world) = Some a →
  ∃ d pc pn,
    heap (run_calls cs init_world) !! a = Some d
    ∧ get_key (DynamicProperties.bpy_type d) (DynamicProperties.name d) = get_key bpy_type name
    ∧ DynamicProperties.property_class d = Obj (RecordCls pc)
    ∧ DynamicProperties.panel_class d = Obj (PanelCls pn)
    ∧ pc_bpy_type pc = DynamicProperties.bpy_type d
    ∧ pc_name pc = DynamicProperties.name d
    ∧ pn_bpy_type pn = DynamicProperties.bpy_type d
    ∧ pn_name pn = DynamicProperties.name d
    ∧ recognized (DynamicProperties.bpy_type d)
    ∧ (recognized bpy_type →
       DynamicProperties.bpy_type d = bpy_type ∧ DynamicProperties.name d = name).
Proof.
  intros Hfind. set (w := run_calls cs init_world) in *.
  assert (Hw : coherent w) by apply coherent_reached.
  destruct (coh_table w Hw _ a Hfind) as (d & c & Ha & Hkey & Hh).
  destruct (paired_holds d c (coh_paired w Hw a d Ha) Hh) as (pc & pn & Hpc & Hpn).
  destruct (held_classes_made cs a d pc pn Ha Hpc Hpn) as (H1 & H2 & H3 & H4 & Hrec).
  exists d, pc, pn. repeat (split; [done|]).
  intros Hty. by apply get_key_recognized_pair.
Qed.

Lemma find_gives_registered_witness :
  ∃ d pc, heap demo_world !! 0%nat = Some d
          ∧ DynamicProperties.property_class d = Obj (RecordCls pc)
          ∧ pc_name pc = "fizz"
          ∧ DynamicProperties.name d = "fizz".
Proof.
  assert (Hf : find Light "fizz" demo_world = Some 0%nat) by (vm_compute; reflexivity).
  destruct (find_gives_registered demo_calls Light "fizz" 0 Hf)
    as (d & pc & pn & Hd & _ & Hpc & _ & _ & Hn & _ & _ & _ & Hsame).
  assert (Hname : DynamicProperties.name d = "fizz").
  { apply Hsame. vm_compute. by eexists. }
  exists d, pc. split; [exact Hd|]. split; [exact Hpc|]. split; [|exact Hname].
  by rewrite Hn.
Defined.

(** X11.  In every state reached by calls, whatever the host answered, the
    handles of a registrar are never half assigned: they are both
    unassigned, both [None], or a record class and a panel class that carry
    the registrar's own target type and group name.  A registrar whose
    target type is not recognized never holds a class. *)
Theorem registrar_never_half_installed (cs : list call) (a : nat) (d : DynamicProperties.t) :
  heap (run_calls cs init_world) !! a = Some d →
  ((DynamicProperties.property_class d = Unset ∧ DynamicProperties.panel_class d = Unset)
   ∨ (DynamicProperties.property_class d = PyNone ∧ DynamicProperties.panel_class d = PyNone)
   ∨ (∃ pc pn,
        DynamicProperties.property_class d = Obj (RecordCls pc)
        ∧ DynamicProperties.panel_class d = Obj (PanelCls pn)
        ∧ pc_bpy_type pc = DynamicProperties.bpy_type d
        ∧ pc_name pc = DynamicProperties.name d
        ∧ pn_bpy_type pn = DynamicProperties.bpy_type d
        ∧ pn_name pn = DynamicProperties.name d))
  ∧ (¬ recognized (DynamicProperties.bpy_type d) → ∀ c, ¬ holds d c).
Proof.
  intros Ha. set (w := run_calls cs init_world) in *.
  assert (Hw : coherent w) by apply coherent_reached.
  split.
  - assert (Hp := coh_paired w Hw a d Ha). unfold handles_paired in Hp.
    destruct (DynamicProperties.property_class d) as [| |[pc|pn']] eqn:E1,
             (DynamicProperties.panel_class d) as [| |[pc'|pn]] eqn:E2; try done;
      [by left|by right; left|]. right; right.
    destruct (held_classes_made cs a d pc pn Ha E1 E2) as (H1 & H2 & H3 & H4 & _).
    exists pc, pn. done.
  - intros Hn c Hh. apply Hn. by apply (coh_made w Hw a d c Ha Hh).
Qed.

Lemma registrar_never_half_installed_witness :
  ∃ d, heap demo_world !! 2%nat = Some d
       ∧ DynamicProperties.property_class d = Unset
       ∧ ∀ c, ¬ holds d c.
Proof.
  assert (Ht : (λ d, (__name__ (DynamicProperties.bpy_type d),
                      DynamicProperties.property_class d)) <$> heap demo_world !! 2%nat
               = Some ("Camera", Unset)) by (vm_compute; reflexivity).
  destruct (heap demo_world !! 2%nat) as [d|] eqn:E; [|discriminate Ht].
  injection Ht as Ht Hu.
  exists d. split; [reflexivity|]. split; [exact Hu|].
  apply (proj2 (registrar_never_half_installed demo_calls 2 d E)).
  rewrite recognized_names, Ht. intros H. revert H. apply (bool_decide_unpack _).
  vm_compute. exact I.
Defined.

(** X12.  Registering or unregistering one registrar leaves every other
    registrar as it is, whatever the host answers: the other object is
    unchanged, handles included, its two dictionaries are as they were, and
    [find] gives what it gave before under every key other than the key of
    the registrar that was called. *)
Theorem other_groups_untouched (cs : list call) (self b : nat)
    (d db : DynamicProperties.t) (c : call) :
  heap (run_calls cs init_world) !! self = Some d →
  heap (run_calls cs init_world) !! b = Some db →
  b ≠ self →
  c = CRegister self ∨ c = CUnregister self →
  heap (run_call c (run_calls cs init_world)) !! b = Some db
  ∧ dicts (run_call c (run_calls cs init_world)) !! DynamicProperties.coll db
    = dicts (run_calls cs init_world) !! DynamicProperties.coll db
  ∧ (∀ bpy_type name,
       get_key bpy_type name
         ≠ get_key (DynamicProperties.bpy_type d) (DynamicProperties.name d) →
       find bpy_type name (run_call c (run_calls cs init_world))
       = find bpy_type name (run_calls cs init_world)).
Proof.
  intros Hd Hb Hne Hc. set (w := run_calls cs init_world) in *.
  assert (Hw : coherent w) by apply coherent_reached.
  assert (Hcoll : DynamicProperties.coll db ≠ DynamicProperties.coll d).
  { intros Heq. by apply Hne, (coh_dicts_own w Hw b self db d). }
  unfold find. destruct Hc as [-> | ->]; cbn [run_call].
  - destruct (placement (__name__ (DynamicProperties.bpy_type d))) as [ctx|] eqn:Hp.
    + rewrite (register_spec self d ctx) by done.
      split; [|split; [by apply attempt_register_dicts_other|]].
      * destruct (attempt_register_heap_table self d ctx w) as [(_ & -> & _)|(_ & -> & _)];
          by rewrite list_lookup_insert_ne.
      * intros bpy_type name Hk.
        destruct (attempt_register_heap_table self d ctx w) as [(_ & _ & ->)|(_ & _ & ->)];
          by rewrite ?lookup_insert_ne, lookup_delete_ne.
    + by rewrite (register_unrecognized self d).
  - rewrite (unregister_spec self d) by done. cbn [snd].
    destruct (after_unregister_frame self d w) as (-> & -> & -> & _).
    split; [by rewrite list_lookup_insert_ne|]. split; [done|].
    intros bpy_type name Hk. by rewrite lookup_delete_ne.
Qed.

Lemma other_groups_untouched_witness :
  find Light "buzz" (run_call (CUnregister 0) demo_world) = find Light "buzz" demo_world.
Proof.
  assert (Ht : group_of <$> heap demo_world !! 0%nat = Some (Light, "fizz"))
    by (vm_compute; reflexivity).
  assert (Hb : is_Some (heap demo_world !! 1%nat)) by (vm_compute; by eexists).
  destruct (heap demo_world !! 0%nat) as [d|] eqn:E; [|discriminate Ht].
  destruct Hb as [db Hb]. injection Ht as Ht Hn.
  refine (proj2 (proj2 (other_groups_untouched demo_calls 0 1 d db (CUnregister 0)
                          E Hb _ (or_intror eq_refl))) Light "buzz" _).
  - discriminate.
  - rewrite Ht, Hn. vm_compute. discriminate.
Defined.

(** X13.  Whenever [register] returns, in any state: the registrar holds a
    record class and a panel class, both installed; the record class is
    named after the key and refers to the registrar's own pair of
    dictionaries; the panel class is labelled with the registrar's title,
    nested under its parent identifier and placed by the fixed lookup on the
    name of the target type; the pointer attribute of the group is set on
    the target type; and the host has defined one property per constructor
    of the collection, writing the key as [attr] into the keyword
    dictionary of each, while the descriptors are as they were. *)
Theorem register_installs_collection (self : nat) (d : DynamicProperties.t)
    (w w1 : world) :
  heap w !! self = Some d →
  register self w = (Return tt, w1) →
  ∃ d1 pc pn ctx,
    heap w1 !! self = Some d1
    ∧ DynamicProperties.coll d1 = DynamicProperties.coll d
    ∧ DynamicProperties.property_class d1 = Obj (RecordCls pc)
    ∧ DynamicProperties.panel_class d1 = Obj (PanelCls pn)
    ∧ RecordCls pc ∈ host w1 ∧ PanelCls pn ∈ host w1
    ∧ pc_dicts pc = DynamicProperties.coll d
    ∧ pc_title pc = DynamicProperties.title d
    ∧ pc_pyname pc
      = get_key (DynamicProperties.bpy_type d) (DynamicProperties.name d) ++ "PropertyGroup"
    ∧ pn_pyname pn
      = "DYNAMIC_PT_" ++ get_key (DynamicProperties.bpy_type d) (DynamicProperties.name d)
    ∧ bl_label pn = DynamicProperties.title d
    ∧ bl_parent_id pn = DynamicProperties.panel_parent_id d
    ∧ placement (__name__ (DynamicProperties.bpy_type d)) = Some ctx
    ∧ bl_context pn = Some ctx.1
    ∧ context_attr pn = Some ctx.2
    ∧ type_attrs w1 !! (__name__ (DynamicProperties.bpy_type d), DynamicProperties.name d)
      = Some (pointer_to pc)
    ∧ (∀ col, dicts w !! DynamicProperties.coll d = Some col →
         ∃ col1 defined,
           dicts w1 !! DynamicProperties.coll d = Some col1
           ∧ rna_properties w1 !! pc_id pc = Some defined
           ∧ PropertyCollection.meta col1 = PropertyCollection.meta col
           ∧ ∀ key,
               PropertyCollection.props col1 !! key
                 = tag_attr key <$> PropertyCollection.props col !! key
               ∧ defined !! key = tag_attr key <$> PropertyCollection.props col !! key).
Proof.
  intros Hd Hreg.
  destruct (register_returns_state self d w w1 Hd Hreg) as (ctx & Hp & ->).
  assert (Hlt := lookup_lt_Some _ _ _ Hd).
  exists (registered_as (next_class w) d ctx), (property_class_for (next_class w) d),
         (panel_class_for (next_class w) d ctx), ctx.
  split; [rewrite registered_state_heap; by apply list_lookup_insert_eq|].
  split; [reflexivity|]. split; [reflexivity|]. split; [reflexivity|].
  split; [apply registered_state_host|]. split; [apply registered_state_host|].
  do 6 (split; [reflexivity|]). split; [done|].
  split; [reflexivity|]. split; [reflexivity|].
  split; [apply registered_state_pointer|].
  intros col Hcol. destruct (registered_state_dicts self d ctx w col Hcol) as [H1 H2].
  eexists _, _. split; [exact H1|]. split; [exact H2|]. split; [reflexivity|].
  intros key. simpl. rewrite define_props_lookup, defined_props_all. done.
Qed.

Lemma register_installs_collection_witness :
  ∃ w1 d1 pc,
    register 0 demo_world = (Return tt, w1)
    ∧ heap w1 !! 0%nat = Some d1
    ∧ DynamicProperties.property_class d1 = Obj (RecordCls pc)
    ∧ pc_dicts pc = DynamicProperties.coll d1.
Proof.
  assert (Hr : is_Return (register 0 demo_world) = true) by (vm_compute; reflexivity).
  assert (Hd : is_Some (heap demo_world !! 0%nat)) by (vm_compute; by eexists).
  destruct Hd as [d Hd].
  destruct (register 0 demo_world) as [[[]|e] w1] eqn:E; [|discriminate Hr].
  destruct (register_installs_collection 0 d demo_world w1 Hd E)
    as (d1 & pc & pn & ctx & H1 & H2 & H3 & _ & _ & _ & H4 & _).
  exists w1, d1, pc. split; [reflexivity|]. split; [exact H1|]. split; [exact H3|].
  by rewrite H4, H2.
Defined.

(** X14.  Whenever [register] returns, the panel class the registrar then
    holds shows as the group's flag says: on a context whose attribute for
    the target type is [None] [poll] answers false; when that attribute is
    an object carrying the group's record, [poll] answers the truth value
    of the record's [enabled]; and when the record has no [enabled] (the
    reserved field was removed before registering) [poll] raises the
    attribute error. *)
Theorem registered_panel_poll (self : nat) (d : DynamicProperties.t) (w w1 : world) :
  heap w !! self = Some d →
  register self w = (Return tt, w1) →
  ∃ d1 pn a,
    heap w1 !! self = Some d1
    ∧ DynamicProperties.panel_class d1 = Obj (PanelCls pn)
    ∧ snd <$> placement (__name__ (DynamicProperties.bpy_type d)) = Some a
    ∧ ∀ context : gmap string ctx_value,
        (context !! a = Some CtxNone → BaseDynamicPanel.poll pn context = Return false)
        ∧ (∀ groups r,
             context !! a = Some (CtxObj groups) →
             groups !! DynamicProperties.name d = Some r →
             (∀ v, BaseDynamicPropertyGroup.values r !! "enabled" = Some v →
                   BaseDynamicPanel.poll pn context = Return (truthy v))
             ∧ (BaseDynamicPropertyGroup.values r !! "enabled" = None →
                BaseDynamicPanel.poll pn context = Raise (AttributeError "enabled"))).
Proof.
  intros Hd Hreg.
  destruct (register_returns_state self d w w1 Hd Hreg) as (ctx & Hp & ->).
  assert (Hlt := lookup_lt_Some _ _ _ Hd).
  exists (registered_as (next_class w) d ctx), (panel_class_for (next_class w) d ctx), ctx.2.
  split; [rewrite registered_state_heap; by apply list_lookup_insert_eq|].
  split; [reflexivity|]. split; [by rewrite Hp|].
  intros context. unfold BaseDynamicPanel.poll; simpl. split.
  - by intros ->.
  - intros groups r -> ->. unfold BaseDynamicPropertyGroup.getattr. split.
    + intros v ->. by destruct (truthy v).
    + by intros ->.
Qed.

Lemma registered_panel_poll_witness :
  ∃ w1 d1 pn,
    register 1 demo_world = (Return tt, w1)
    ∧ heap w1 !! 1%nat = Some d1
    ∧ DynamicProperties.panel_class d1 = Obj (PanelCls pn)
    ∧ BaseDynamicPanel.poll pn {[ "light" := CtxNone ]} = Return false.
Proof.
  assert (Hr : is_Return (register 1 demo_world) = true) by (vm_compute; reflexivity).
  assert (Ht : DynamicProperties.bpy_type <$> heap demo_world !! 1%nat = Some Light)
    by (vm_compute; reflexivity).
  destruct (heap demo_world !! 1%nat) as [d|] eqn:Hd; [|discriminate Ht].
  injection Ht as Ht.
  destruct (register 1 demo_world) as [[[]|e] w1] eqn:E; [|discriminate Hr].
  destruct (registered_panel_poll 1 d demo_world w1 Hd E)
    as (d1 & pn & a & H1 & H2 & Ha & Hpoll).
  exists w1, d1, pn. split; [reflexivity|]. split; [exact H1|]. split; [exact H2|].
  apply (proj1 (Hpoll _)).
  rewrite Ht in Ha. vm_compute in Ha. injection Ha as <-. reflexivity.
Defined.

(** X15.  [unregister] right after a [register] that returned undoes it, in
    any state: the two classes [register] installed are installed no more,
    the pointer attribute of the group is deleted from the target type, the
    table has no entry under the registrar's key and is otherwise as it was
    before [register], and the registrar is as it was, with both handles
    [None]. *)
Theorem register_then_unregister (self : nat) (d : DynamicProperties.t) (w w1 : world) :
  heap w !! self = Some d →
  register self w = (Return tt, w1) →
  ∃ d1 w2,
    heap w1 !! self = Some d1
    ∧ unregister self w1 = (Return tt, w2)
    ∧ (∀ c, holds d1 c → c ∈ host w1 ∧ installed c (host w2) = false)
    ∧ type_attrs w2 !! (__name__ (DynamicProperties.bpy_type d), DynamicProperties.name d)
      = None
    ∧ registered_properties w2
      = delete (get_key (DynamicProperties.bpy_type d) (DynamicProperties.name d))
               (registered_properties w)
    ∧ heap w2 = <[self := unregistered d]> (heap w).
Proof.
  intros Hd Hreg.
  destruct (register_returns_state self d w w1 Hd Hreg) as (ctx & Hp & ->).
  assert (Hlt := lookup_lt_Some _ _ _ Hd).
  set (n := next_class w). set (w1 := registered_state self d ctx w).
  set (d1 := registered_as n d ctx).
  assert (Hd1 : heap w1 !! self = Some d1).
  { unfold w1. rewrite registered_state_heap. by apply list_lookup_insert_eq. }
  destruct (registered_state_host self d ctx w) as [Hin1 Hin2]. fold w1 n in Hin1, Hin2.
  assert (Hptr := registered_state_pointer self d ctx w). fold w1 n in Hptr.
  exists d1, (after_unregister self d1 w1).
  split; [done|]. split; [by apply unregister_spec|].
  destruct (after_unregister_frame self d1 w1) as (Hh & _ & Ht & _).
  set (v := try_drop (DynamicProperties.property_class d1) w1).
  assert (Hv : v = set_rna_properties (delete n (rna_properties w1))
                     (set_host (remove_class (new_property_class n d) (host w1))
                        (set_type_attrs
                           (delete (__name__ (DynamicProperties.bpy_type d),
                                    DynamicProperties.name d) (type_attrs w1)) w1))).
  { unfold v. change (DynamicProperties.property_class d1)
      with (Obj (RecordCls (property_class_for n d))).
    rewrite try_drop_record by (by apply installed_elem_of).
    change (__name__ (pc_bpy_type (property_class_for n d)), pc_name (property_class_for n d))
      with (__name__ (DynamicProperties.bpy_type d), DynamicProperties.name d).
    by rewrite Hptr. }
  assert (Hhost : host (after_unregister self d1 w1)
                  = remove_class (new_panel_class n d ctx)
                      (remove_class (new_property_class n d) (host w1))).
  { rewrite after_unregister_host. fold v.
    change (DynamicProperties.panel_class d1) with (Obj (new_panel_class n d ctx)).
    unfold new_panel_class at 1. rewrite try_drop_panel. cbn [host set_host].
    by rewrite Hv. }
  split; [|split; [|split]].
  - intros c [Hc|Hc]; simpl in Hc; injection Hc as <-; (split; [done|]); rewrite Hhost.
    + apply (installed_subset _ (remove_class (new_property_class n d) (host w1))).
      * intros x Hx. by apply elem_of_remove_class in Hx as [_ ?].
      * apply installed_remove_class.
    + apply installed_remove_class.
  - unfold after_unregister. fold v. cbn [type_attrs set_heap set_registered_properties].
    change (DynamicProperties.panel_class d1) with (Obj (new_panel_class n d ctx)).
    unfold new_panel_class at 1. rewrite try_drop_panel. cbn [type_attrs set_host].
    rewrite Hv. cbn. apply lookup_delete_eq.
  - rewrite Ht. unfold w1. rewrite registered_state_table.
    by rewrite delete_insert_eq, (delete_id (delete _ _)) by apply lookup_delete_eq.
  - rewrite Hh. unfold w1. rewrite registered_state_heap.
    by rewrite list_insert_insert_eq.
Qed.

Lemma register_then_unregister_witness :
  ∃ w1 w2,
    register 0 demo_world = (Return tt, w1)
    ∧ unregister 0 w1 = (Return tt, w2)
    ∧ type_attrs w2 !! ("Light", "fizz") = None.
Proof.
  assert (Hr : is_Return (register 0 demo_world) = true) by (vm_compute; reflexivity).
  assert (Ht : group_of <$> heap demo_world !! 0%nat = Some (Light, "fizz"))
    by (vm_compute; reflexivity).
  destruct (heap demo_world !! 0%nat) as [d|] eqn:Hd; [|discriminate Ht].
  injection Ht as Ht Hn.
  destruct (register 0 demo_world) as [[[]|e] w1] eqn:E; [|discriminate Hr].
  destruct (register_then_unregister 0 d demo_world w1 Hd E)
    as (d1 & w2 & _ & H2 & _ & H3 & _).
  exists w1, w2. split; [reflexivity|]. split; [exact H2|].
  rewrite Ht, Hn in H3. exact H3.
Defined.

(** * The class methods of the record type *)

(** X16.  The pointer attribute of a group on its target type: [unregister]
    right after [register] deletes it again, and a further [unregister]
    raises the attribute error.  Two record classes made for the same type
    and name share that one attribute: registering the second overwrites
    the pointer of the first, and once either is unregistered the
    [unregister] of the other raises. *)
Theorem pointer_attribute_is_shared (cls cls' : property_class_t)
    (attrs : gmap (string * string) bpy_prop) :
  pc_bpy_type cls' = pc_bpy_type cls → pc_name cls' = pc_name cls →
  PropertyGroup_unregister cls (PropertyGroup_register cls attrs)
    = (Return tt, delete (__name__ (pc_bpy_type cls), pc_name cls) attrs)
  ∧ PropertyGroup_unregister cls (delete (__name__ (pc_bpy_type cls), pc_name cls) attrs)
    = (Raise (AttributeError (pc_name cls)),
       delete (__name__ (pc_bpy_type cls), pc_name cls) attrs)
  ∧ PropertyGroup_register cls' (PropertyGroup_register cls attrs)
    = PropertyGroup_register cls' attrs
  ∧ PropertyGroup_register cls' (PropertyGroup_register cls attrs)
      !! (__name__ (pc_bpy_type cls), pc_name cls) = Some (pointer_to cls')
  ∧ PropertyGroup_unregister cls
      (PropertyGroup_unregister cls'
         (PropertyGroup_register cls' (PropertyGroup_register cls attrs))).2
    = (Raise (AttributeError (pc_name cls)),
       delete (__name__ (pc_bpy_type cls), pc_name cls) attrs).
Proof.
  intros Ht Hn. unfold PropertyGroup_unregister, PropertyGroup_register.
  rewrite Ht, Hn. rewrite !insert_insert_eq, !lookup_insert_eq. simpl.
  rewrite !delete_insert_eq, !lookup_delete_eq. done.
Qed.

Lemma pointer_attribute_is_shared_witness :
  PropertyGroup_unregister (PropertyClass 0 "LightgPropertyGroup" 0 Light "g" "G")
    (PropertyGroup_unregister (PropertyClass 2 "LightgPropertyGroup" 1 Light "g" "G2")
       (PropertyGroup_register (PropertyClass 2 "LightgPropertyGroup" 1 Light "g" "G2")
          (PropertyGroup_register (PropertyClass 0 "LightgPropertyGroup" 0 Light "g" "G")
             ∅))).2
  = (Raise (AttributeError "g"), delete ("Light", "g") ∅).
Proof.
  exact (proj2 (proj2 (proj2 (proj2 (pointer_attribute_is_shared
    (PropertyClass 0 "LightgPropertyGroup" 0 Light "g" "G")
    (PropertyClass 2 "LightgPropertyGroup" 1 Light "g" "G2") ∅ eq_refl eq_refl))))).
Defined.

(** * demo.py *)

Lemma assign_enabled_spec (group : string) (b : bool) (context : gmap string ctx_value)
    (groups : gmap string BaseDynamicPropertyGroup.t) (r : BaseDynamicPropertyGroup.t) :
  context !! "light" = Some (CtxObj groups) → groups !! group = Some r →
  assign_enabled group b context
  = (Return tt,
     <["light" := CtxObj (<[group := BaseDynamicPropertyGroup.Build
                                       (BaseDynamicPropertyGroup.meta r)
                                       (<["enabled" := VBool b]>
                                          (BaseDynamicPropertyGroup.values r))]> groups)]>
       context).
Proof. intros Hc Hg. unfold assign_enabled. by rewrite Hc, Hg. Qed.

(** X17.  After [update_active_group] exactly one of the two groups is
    shown: on a light that carries the records of [fizz], [buzz] and the
    toggle, the update returns, then the panel of [fizz] polls true exactly
    when the active group is [fizz] and the panel of [buzz] polls the
    opposite; no other attribute of the context and no other record of the
    light is changed. *)
Theorem toggle_shows_exactly_one (context : gmap string ctx_value)
    (groups : gmap string BaseDynamicPropertyGroup.t)
    (rf rb rt : BaseDynamicPropertyGroup.t) (v : pyval) (pf pb : panel_class_t) :
  context !! "light" = Some (CtxObj groups) →
  groups !! "fizz" = Some rf → groups !! "buzz" = Some rb →
  groups !! "demo_toggle" = Some rt →
  BaseDynamicPropertyGroup.values rt !! "active_group" = Some v →
  context_attr pf = Some "light" → pn_name pf = "fizz" →
  context_attr pb = Some "light" → pn_name pb = "buzz" →
  ∃ context' groups',
    update_active_group context = (Return tt, context')
    ∧ BaseDynamicPanel.poll pf context' = Return (eq_str v "fizz")
    ∧ BaseDynamicPanel.poll pb context' = Return (negb (eq_str v "fizz"))
    ∧ (∀ a, a ≠ "light" → context' !! a = context !! a)
    ∧ context' !! "light" = Some (CtxObj groups')
    ∧ (∀ g, g ≠ "fizz" → g ≠ "buzz" → groups' !! g = groups !! g).
Proof.
  intros Hc Hf Hb Ht Hv Hpf Hnf Hpb Hnb.
  unfold update_active_group, read_active_group, BaseDynamicPropertyGroup.getattr.
  rewrite Hc, Ht, Hv.
  assert (Hstep : ∀ b1 b2, ∃ context' groups',
    match assign_enabled "buzz" b1 context with
    | (Raise e, context) => (Raise e, context)
    | (Return _, context) => assign_enabled "fizz" b2 context
    end = (Return tt, context')
    ∧ BaseDynamicPanel.poll pf context' = Return b2
    ∧ BaseDynamicPanel.poll pb context' = Return b1
    ∧ (∀ a, a ≠ "light" → context' !! a = context !! a)
    ∧ context' !! "light" = Some (CtxObj groups')
    ∧ (∀ g, g ≠ "fizz" → g ≠ "buzz" → groups' !! g = groups !! g)).
  { intros b1 b2.
    rewrite (assign_enabled_spec "buzz" b1 context groups rb Hc Hb).
    erewrite assign_enabled_spec;
      [|apply lookup_insert_eq|by rewrite lookup_insert_ne].
    eexists _, _. split; [reflexivity|].
    unfold BaseDynamicPanel.poll, BaseDynamicPropertyGroup.getattr.
    rewrite Hpf, Hnf, Hpb, Hnb. rewrite !lookup_insert_eq.
    rewrite (lookup_insert_ne _ "fizz" "buzz") by done.
    rewrite !lookup_insert_eq. simpl. rewrite !lookup_insert_eq.
    split; [by destruct b2|]. split; [by destruct b1|].
    split; [intros a Ha; by rewrite !lookup_insert_ne|].
    split; [reflexivity|].
    intros g Hg1 Hg2. by rewrite !lookup_insert_ne. }
  destruct (eq_str v "fizz"); apply Hstep.
Qed.

Lemma toggle_shows_exactly_one_witness :
  ∃ context',
    update_active_group
      {[ "light" := CtxObj
           (<["fizz" := BaseDynamicPropertyGroup.Build ∅ {[ "enabled" := VBool true ]}]>
              (<["buzz" := BaseDynamicPropertyGroup.Build ∅ {[ "enabled" := VBool false ]}]>
                 {[ "demo_toggle" := BaseDynamicPropertyGroup.Build ∅
                                       {[ "active_group" := VStr "buzz" ]} ]})) ]}
    = (Return tt, context')
    ∧ BaseDynamicPanel.poll
        (PanelClass 3 "DYNAMIC_PT_Lightbuzz" Light "buzz" "Buzz" "Buzz" "" (Some "data")
           (Some "light")) context' = Return true.
Proof.
  destruct (toggle_shows_exactly_one
    {[ "light" := CtxObj
         (<["fizz" := BaseDynamicPropertyGroup.Build ∅ {[ "enabled" := VBool true ]}]>
            (<["buzz" := BaseDynamicPropertyGroup.Build ∅ {[ "enabled" := VBool false ]}]>
               {[ "demo_toggle" := BaseDynamicPropertyGroup.Build ∅
                                     {[ "active_group" := VStr "buzz" ]} ]})) ]}
    (<["fizz" := BaseDynamicPropertyGroup.Build ∅ {[ "enabled" := VBool true ]}]>
       (<["buzz" := BaseDynamicPropertyGroup.Build ∅ {[ "enabled" := VBool false ]}]>
          {[ "demo_toggle" := BaseDynamicPropertyGroup.Build ∅
                                {[ "active_group" := VStr "buzz" ]} ]}))
    (BaseDynamicPropertyGroup.Build ∅ {[ "enabled" := VBool true ]})
    (BaseDynamicPropertyGroup.Build ∅ {[ "enabled" := VBool false ]})
    (BaseDynamicPropertyGroup.Build ∅ {[ "active_group" := VStr "buzz" ]})
    (VStr "buzz")
    (PanelClass 1 "DYNAMIC_PT_Lightfizz" Light "fizz" "Fizz" "Fizz" "" (Some "data")
       (Some "light"))
    (PanelClass 3 "DYNAMIC_PT_Lightbuzz" Light "buzz" "Buzz" "Buzz" "" (Some "data")
       (Some "light")))
    as (context' & groups' & H1 & _ & H2 & _);
    try reflexivity; try (vm_compute; reflexivity).
  exists context'. split; [exact H1|exact H2].
Defined.

Lemma bind_clear {A} (self : nat) (enabled : bool) (m : M A) (w : world)
    (d : DynamicProperties.t) :
  heap w !! self = Some d →
  (on_collection self (OClear enabled) >> m) w
  = m (set_heap (<[self := DynamicProperties.set_coll (length (dicts w)) d]> (heap w))
         (set_dicts (dicts w ++ [PropertyCollection.init enabled]) w)).
Proof. intros Hd. unfold on_collection, bind, get_self. by rewrite Hd. Qed.

Lemma bind_add {A} (self : nat) (k : field_kind) (key name : string)
    (kwargs : gmap string pyval) (m : M A) (w : world)
    (d : DynamicProperties.t) (col : PropertyCollection.t) :
  heap w !! self = Some d →
  dicts w !! DynamicProperties.coll d = Some col →
  (on_collection self (OAdd k key name kwargs) >> m) w
  = m (set_dicts (<[DynamicProperties.coll d := add_kind k key name kwargs col]> (dicts w)) w).
Proof.
  intros Hd Hc. unfold on_collection, bind, get_self, get_dicts. rewrite Hd. simpl.
  by rewrite Hc.
Qed.

(** X18.  [DEMO_OT_change_fizz.invoke] in a state reached by calls.  When
    no registrar is found under Light and [fizz] it raises and changes
    nothing.  Otherwise the registrar found was made for Light and [fizz];
    it gets a new pair of dictionaries, whatever it held, while every
    dictionary there was stays as it is; the new pair has the descriptors
    and the keys of the six fields the operator declares, with the group
    enabled by default.  Then, when the host accepts the new classes, the
    operator finishes: the registrar keeps its place in the table, holds an
    installed record class that refers to the new pair, and the host has
    written the key as [attr] into each constructor; when the host refuses,
    the exception leaves the operator and the registrar is unregistered,
    with both handles [None] and no entry in the table. *)
Theorem change_fizz_invoke (cs : list call) :
  let w := run_calls cs init_world in
  (find Light "fizz" w = None →
   DEMO_OT_change_fizz_invoke w = (NotRegistered "`fizz` is not registered", w))
  ∧ (∀ a, find Light "fizz" w = Some a →
     ∃ d r w' d' col',
       heap w !! a = Some d
       ∧ DynamicProperties.bpy_type d = Light ∧ DynamicProperties.name d = "fizz"
       ∧ DEMO_OT_change_fizz_invoke w = (r, w')
       ∧ heap w' !! a = Some d'
       ∧ DynamicProperties.coll d' = length (dicts w)
       ∧ (∀ i, i < length (dicts w) → dicts w' !! i = dicts w !! i)
       ∧ dicts w' !! length (dicts w) = Some col'
       ∧ PropertyCollection.meta col' = PropertyCollection.meta changed_fizz
       ∧ dom (PropertyCollection.props col') = dom (PropertyCollection.props changed_fizz)
       ∧ ((r = Finished
           ∧ find Light "fizz" w' = Some a
           ∧ (∀ key, PropertyCollection.props col' !! key
                     = tag_attr key <$> PropertyCollection.props changed_fizz !! key)
           ∧ ∃ pc, DynamicProperties.property_class d' = Obj (RecordCls pc)
                   ∧ pc_dicts pc = length (dicts w)
                   ∧ RecordCls pc ∈ host w')
          ∨ (∃ e, r = Propagated e
             ∧ find Light "fizz" w' = None
             ∧ DynamicProperties.property_class d' = PyNone
             ∧ DynamicProperties.panel_class d' = PyNone)))
  ∧ dom (PropertyCollection.props changed_fizz)
    = {[ "enabled"; "my_float"; "diffuse"; "float2"; "bool2"; "str2" ]}
  ∧ PropertyCollection.props changed_fizz !! "enabled" = Some (enabled_prop true).
Proof.
  intros w. split; [|split; [|split; [|vm_compute; reflexivity]]].
  - intros Hf. unfold DEMO_OT_change_fizz_invoke. by rewrite Hf.
  - intros a Hf.
    assert (Hw : coherent w) by apply coherent_reached.
    destruct (coh_table w Hw _ a Hf) as (d & c & Ha & Hkey & Hh).
    destruct (coh_made w Hw a d c Ha Hh) as (_ & Hrec).
    destruct (get_key_recognized_pair (DynamicProperties.bpy_type d) Light
                (DynamicProperties.name d) "fizz" Hrec) as [Ht Hn];
      [by eexists|done|].
    assert (Hlt := lookup_lt_Some _ _ _ Ha).
    set (L := length (dicts w)).
    set (d6 := DynamicProperties.set_coll L d).
    set (w6 := set_heap (<[a := d6]> (heap w)) (set_dicts (dicts w ++ [changed_fizz]) w)).
    assert (Hsnoc : ∀ x y : PropertyCollection.t,
              <[L := x]> (dicts w ++ [y])%list = (dicts w ++ [x])%list).
    { intros x y. unfold L. rewrite insert_app_r_alt by lia.
      by rewrite Nat.sub_diag. }
    assert (Hlast : ∀ x : PropertyCollection.t, (dicts w ++ [x])%list !! L = Some x).
    { intros x. apply lookup_snoc_Some. right. by split. }
    assert (Hbody : ∀ {A} (m : M A),
      (on_collection a (OClear true) >>
       on_collection a
         (OAdd KFloat "my_float" "Foo Float" {[ "description" := VStr "Test float" ]}) >>
       on_collection a
         (OAdd KRgb "diffuse" "Diffuse" {[ "description" := VStr "Diffuse color" ]}) >>
       on_collection a
         (OAdd KFloat "float2" "Newer Float" {[ "description" := VStr "Test float 2" ]}) >>
       on_collection a
         (OAdd KBool "bool2" "Newer Bool" {[ "description" := VStr "Test Boolean 2" ]}) >>
       on_collection a
         (OAdd KStr "str2" "Newer String" {[ "description" := VStr "Test String 2" ]}) >>
       m) w = m w6).
    { intros A m. rewrite (bind_clear a true _ w d Ha). fold L. fold d6.
      do 5 (erewrite (bind_add a _ _ _ _ _ _ d6);
            [|cbn [heap set_heap set_dicts]; by apply list_lookup_insert_eq
             |cbn [dicts set_heap set_dicts DynamicProperties.coll d6
                   DynamicProperties.set_coll]; apply Hlast];
            cbn [dicts heap set_heap set_dicts registered_properties host rna_properties
                 type_attrs verdict_of next_class DynamicProperties.coll d6
                 DynamicProperties.set_coll];
            rewrite Hsnoc).
      reflexivity. }
    assert (Ha6 : heap w6 !! a = Some d6) by (simpl; by apply list_lookup_insert_eq).
    assert (Hp6 : placement (__name__ (DynamicProperties.bpy_type d6)) = Some ("data", "light")).
    { change (DynamicProperties.bpy_type d6) with (DynamicProperties.bpy_type d).
      by rewrite Ht. }
    assert (Hcol6 : dicts w6 !! DynamicProperties.coll d6 = Some changed_fizz)
      by apply Hlast.
    assert (Hinv : DEMO_OT_change_fizz_invoke w
                   = match attempt_register a d6 ("data", "light") w6 with
                     | (Return _, w') => (Finished, w')
                     | (Raise e, w') => (Propagated e, w')
                     end).
    { unfold DEMO_OT_change_fizz_invoke. rewrite Hf, Hbody.
      by rewrite (register_spec a d6 ("data", "light")). }
    destruct (attempt_register_dicts_own a d6 ("data", "light") w6 changed_fizz Hcol6)
      as (col' & Hcol' & Hmeta & Hdom).
    assert (Hold : ∀ i, i < L →
              dicts (attempt_register a d6 ("data", "light") w6).2 !! i = dicts w !! i).
    { intros i Hi. rewrite attempt_register_dicts_other by (simpl; lia).
      simpl. by apply lookup_app_l. }
    pose proof (attempt_register_heap_table a d6 ("data", "light") w6) as Hcases.
    assert (Hstate : ∀ w', register a w6 = (Return tt, w') →
              w' = registered_state a d6 ("data", "light") w6).
    { intros w' Hreg.
      destruct (register_returns_state a d6 w6 w' Ha6 Hreg) as (ctx & Hctx & ->).
      rewrite Hp6 in Hctx. by injection Hctx as <-. }
    rewrite <- (register_spec a d6 ("data", "light") w6 Ha6 Hp6) in *.
    destruct (register a w6) as [[[]|e] w'] eqn:Hreg; cbn [fst snd] in *;
      destruct Hcases as [(Hr & Hheap & Htab)|([e' Hr] & Hheap & Htab)];
      try discriminate Hr.
    + exists d, Finished, w'. eexists _, col'.
      split; [done|]. split; [done|]. split; [done|]. split; [done|].
      split; [rewrite Hheap; apply list_lookup_insert_eq, (lookup_lt_Some _ _ _ Ha6)|].
      split; [reflexivity|]. split; [done|]. split; [done|]. split; [done|].
      split; [done|]. left. split; [done|].
      split.
      { unfold find. rewrite Htab.
        change (DynamicProperties.bpy_type d6) with (DynamicProperties.bpy_type d).
        change (DynamicProperties.name d6) with (DynamicProperties.name d).
        rewrite Ht, Hn. apply lookup_insert_eq. }
      rewrite (Hstate w' eq_refl) in *.
      destruct (registered_state_dicts a d6 ("data", "light") w6 changed_fizz Hcol6)
        as [Hd1 _].
      assert (col' = PropertyCollection.Build
                       (define_props (λ _, true) (PropertyCollection.props changed_fizz))
                       (PropertyCollection.meta changed_fizz)) as -> by congruence.
      split; [intros key; simpl; by rewrite define_props_lookup|].
      eexists. split; [reflexivity|]. split; [reflexivity|].
      apply registered_state_host.
    + exists d, (Propagated e), w'. eexists _, col'.
      split; [done|]. split; [done|]. split; [done|]. split; [done|].
      split; [rewrite Hheap; apply list_lookup_insert_eq, (lookup_lt_Some _ _ _ Ha6)|].
      split; [reflexivity|]. split; [done|]. split; [done|]. split; [done|].
      split; [done|]. right. exists e. split; [done|].
      split; [|done].
      unfold find. rewrite Htab.
      change (DynamicProperties.bpy_type d6) with (DynamicProperties.bpy_type d).
      change (DynamicProperties.name d6) with (DynamicProperties.name d).
      rewrite Ht, Hn. apply lookup_delete_eq.
  - apply set_eq. intros k. rewrite elem_of_dom.
    unfold changed_fizz, change_fizz_ops. vm_compute dom.
    rewrite !elem_of_union, !elem_of_singleton.
    destruct (decide (k = "str2")) as [->|H1]; [split; [tauto|by eexists]|].
    destruct (decide (k = "bool2")) as [->|H2]; [split; [tauto|by eexists]|].
    destruct (decide (k = "float2")) as [->|H3]; [split; [tauto|by eexists]|].
    destruct (decide (k = "diffuse")) as [->|H4]; [split; [tauto|by eexists]|].
    destruct (decide (k = "my_float")) as [->|H5]; [split; [tauto|by eexists]|].
    destruct (decide (k = "enabled")) as [->|H6]; [split; [tauto|by eexists]|].
    split; [|tauto]. intros [x Hx]. exfalso. revert Hx.
    simpl. unfold PropertyCollection.clear; simpl.
    rewrite !lookup_insert_ne by done. by rewrite lookup_empty.
Qed.

Lemma change_fizz_invoke_witness :
  ∃ w' d',
    DEMO_OT_change_fizz_invoke demo_world = (Finished, w')
    ∧ heap w' !! 0%nat = Some d'
    ∧ DynamicProperties.coll d' = 3%nat
  ∧ DEMO_OT_change_fizz_invoke init_world
    = (NotRegistered "`fizz` is not registered", init_world).
Proof.
  assert (Hf : find Light "fizz" demo_world = Some 0%nat) by (vm_compute; reflexivity).
  assert (Hfin : (DEMO_OT_change_fizz_invoke demo_world).1 = Finished)
    by (vm_compute; reflexivity).
  assert (Hlen : length (dicts demo_world) = 3%nat) by (vm_compute; reflexivity).
  destruct (proj1 (proj2 (change_fizz_invoke demo_calls)) 0%nat Hf)
    as (d & r & w' & d' & col' & _ & _ & _ & H1 & H2 & H3 & _).
  fold demo_world in H1, H2, H3.
  rewrite H1 in Hfin. simpl in Hfin. subst r.
  exists w', d'. split; [exact H1|]. split; [exact H2|]. split; [by rewrite H3|].
  exact (proj1 (change_fizz_invoke []) eq_refl).
Defined.

(** X19.  [unregister] deletes the entry under the registrar's key whoever
    owns it: when another registrar with the same key is the one [find]
    returns, [unregister] of the first makes [find] return [None] for the
    other, although the other's object is unchanged and still holds its
    record class and its panel class. *)
Theorem unregister_drops_foreign_entry (cs : list call) (a b : nat)
    (da db : DynamicProperties.t) :
  heap (run_calls cs init_world) !! a = Some da →
  heap (run_calls cs init_world) !! b = Some db →
  a ≠ b →
  get_key (DynamicProperties.bpy_type da) (DynamicProperties.name da)
    = get_key (DynamicProperties.bpy_type db) (DynamicProperties.name db) →
  find (DynamicProperties.bpy_type db) (DynamicProperties.name db)
    (run_calls cs init_world) = Some b →
  find (DynamicProperties.bpy_type db) (DynamicProperties.name db)
    (run_call (CUnregister a) (run_calls cs init_world)) = None
  ∧ heap (run_call (CUnregister a) (run_calls cs init_world)) !! b = Some db
  ∧ ∃ pc pn,
      DynamicProperties.property_class db = Obj (RecordCls pc)
      ∧ DynamicProperties.panel_class db = Obj (PanelCls pn).
Proof.
  intros Ha Hb Hne Hkey Hfind. set (w := run_calls cs init_world) in *.
  assert (Hw : coherent w) by apply coherent_reached.
  destruct (coh_table w Hw _ b Hfind) as (db' & c & Hb' & _ & Hh).
  assert (db' = db) as -> by congruence.
  cbn [run_call]. rewrite (unregister_spec a da) by done. cbn [snd]. unfold find.
  destruct (after_unregister_frame a da w) as (-> & _ & -> & _).
  split; [rewrite Hkey; apply lookup_delete_eq|].
  split; [by rewrite list_lookup_insert_ne|].
  apply (paired_holds db c); [by apply (coh_paired w Hw b db)|done].
Qed.

Lemma unregister_drops_foreign_entry_witness :
  let w := run_calls [CNew Light "Probex" "P" true ""; CNew (BpyType "LightProbe") "x" "Q" true "";
                      CRegister 0] init_world in
  find Light "Probex" w = Some 0%nat
  ∧ find Light "Probex" (run_call (CUnregister 1) w) = None.
Proof.
  split; [vm_compute; reflexivity|].
  refine (proj1 (unregister_drops_foreign_entry
    [CNew Light "Probex" "P" true ""; CNew (BpyType "LightProbe") "x" "Q" true "";
     CRegister 0] 1 0
    (DynamicProperties.Build 1 (BpyType "LightProbe") "x" "Q" "" Unset Unset)
    _ _ _ _ _ _)).
  - vm_compute. reflexivity.
  - vm_compute. reflexivity.
  - discriminate.
  - reflexivity.
  - vm_compute. reflexivity.
Defined.





Section findable.

Implicit Types (w : world) (d : DynamicProperties.t).

(** The keys of the registrars made so far stay and new ones are added at
    the end. *)
Lemma keys_of_run_call (c : call) w :
  ∃ l, keys_of (run_call c w) = (keys_of w ++ l)%list.
Proof.
  unfold keys_of.
  destruct (heap_run_call c w) as [[l ->]|(self & d & d' & Hd & -> & Hg)].
  - eexists. by rewrite fmap_app.
  - exists []. rewrite app_nil_r, list_fmap_insert.
    injection Hg as -> ->.
    apply list_insert_id. by rewrite list_lookup_fmap, Hd.
Qed.

Lemma distinct_keys_lookup w a b da db :
  NoDup (keys_of w) → heap w !! a = Some da → heap w !! b = Some db →
  get_key (DynamicProperties.bpy_type da) (DynamicProperties.name da)
    = get_key (DynamicProperties.bpy_type db) (DynamicProperties.name db) →
  a = b.
Proof.
  intros Hnd Ha Hb Hk.
  apply (proj1 (NoDup_alt _) Hnd a b
           (get_key (DynamicProperties.bpy_type da) (DynamicProperties.name da)));
    unfold keys_of; rewrite list_lookup_fmap.
  - by rewrite Ha.
  - rewrite Hb. simpl. by rewrite Hk.
Qed.

(** A step on the registrar at [self] that keeps its group and either
    leaves the table and adds no handle, or deletes the entry under its key
    and leaves it without handles, or enters it under its key. *)
Lemma findable_update self d d' w w' :
  findable w → NoDup (keys_of w') →
  heap w !! self = Some d → heap w' = <[self := d']> (heap w) →
  DynamicProperties.bpy_type d' = DynamicProperties.bpy_type d →
  DynamicProperties.name d' = DynamicProperties.name d →
  (registered_properties w' = registered_properties w ∧ ∀ c, holds d' c → holds d c)
  ∨ (registered_properties w'
       = delete (get_key (DynamicProperties.bpy_type d) (DynamicProperties.name d))
                (registered_properties w)
     ∧ ∀ c, ¬ holds d' c)
  ∨ registered_properties w'
    = <[get_key (DynamicProperties.bpy_type d) (DynamicProperties.name d) := self]>
        (delete (get_key (DynamicProperties.bpy_type d) (DynamicProperties.name d))
                (registered_properties w)) →
  findable w'.
Proof.
  intros Hf Hnd Hd Hh Ht Hn Hcases a d1 c Ha Hc.
  assert (Hself : heap w' !! self = Some d').
  { rewrite Hh. apply list_lookup_insert_eq. by eapply lookup_lt_Some. }
  destruct (decide (a = self)) as [->|Hne].
  - assert (d1 = d') as -> by congruence. rewrite Ht, Hn.
    destruct Hcases as [[-> Hsub]|[[_ Hfree]| ->]].
    + apply (Hf self d c Hd). by apply Hsub.
    + by destruct (Hfree c).
    + apply lookup_insert_eq.
  - assert (Hk : get_key (DynamicProperties.bpy_type d1) (DynamicProperties.name d1)
                 ≠ get_key (DynamicProperties.bpy_type d) (DynamicProperties.name d)).
    { rewrite <- Ht, <- Hn. intros Hk.
      by apply Hne, (distinct_keys_lookup w' a self d1 d'). }
    rewrite Hh, list_lookup_insert_ne in Ha by done.
    destruct Hcases as [[-> _]|[[-> _]| ->]];
      rewrite ?lookup_insert_ne, ?lookup_delete_ne by done; by apply (Hf a d1 c).
Qed.

Lemma findable_run_call (c : call) w :
  findable w → NoDup (keys_of (run_call c w)) → findable (run_call c w).
Proof.
  intros Hf. destruct c as [ty nm title en ppid|self|self|self o|v].
  - intros _ a d c [[_ Ha]|[_ <-]]%lookup_snoc_Some Hh; [by apply (Hf a d c)|].
    destruct Hh as [Hh|Hh]; discriminate Hh.
  - cbn [run_call].
    destruct (heap w !! self) as [d|] eqn:Hd; [|by rewrite register_dangling].
    destruct (placement (__name__ (DynamicProperties.bpy_type d))) as [ctx|] eqn:Hp;
      [|by rewrite (register_unrecognized self d)].
    rewrite (register_spec self d ctx) by done. intros Hnd.
    destruct (attempt_register_heap_table self d ctx w) as [(_ & Hh & Ht)|(_ & Hh & Ht)].
    + apply (findable_update self d _ w _ Hf Hnd Hd Hh); [done|done|]. by right; right.
    + apply (findable_update self d _ w _ Hf Hnd Hd Hh); [done|done|]. right; left.
      split; [done|]. apply unregistered_holds.
  - cbn [run_call].
    destruct (heap w !! self) as [d|] eqn:Hd; [|by rewrite unregister_dangling].
    rewrite (unregister_spec self d) by done. cbn [snd]. intros Hnd.
    destruct (after_unregister_frame self d w) as (Hh & _ & Ht & _).
    apply (findable_update self d _ w _ Hf Hnd Hd Hh); [done|done|]. right; left.
    split; [done|]. apply unregistered_holds.
  - cbn [run_call]. unfold on_collection, bind, get_self.
    destruct (heap w !! self) as [d|] eqn:Hd; [|done].
    assert (Hstep : ∀ o', findable
      (bind (get_dicts (DynamicProperties.coll d))
         (λ col w, (Return tt,
                    set_dicts (<[DynamicProperties.coll d := run_op o' col]> (dicts w)) w)) w).2).
    { intros o'. unfold bind, get_dicts. by destruct (dicts w !! _). }
    destruct o as [k key name kwargs|key name descr|key text|key|en];
      try (intros _; apply Hstep).
    intros Hnd. apply (findable_update self d _ w _ Hf Hnd Hd eq_refl); [done|done|].
    by left.
  - done.
Qed.

Lemma findable_reached cs :
  NoDup (keys_of (run_calls cs init_world)) → findable (run_calls cs init_world).
Proof.
  induction cs as [|c cs IH] using rev_ind.
  - intros _ a d c Ha. simpl in Ha. by rewrite lookup_nil in Ha.
  - rewrite run_calls_snoc. intros Hnd. apply findable_run_call; [|done].
    apply IH.
    destruct (keys_of_run_call c (run_calls cs init_world)) as [l Hl].
    rewrite Hl in Hnd. by apply NoDup_app in Hnd as [? _].
Qed.

End findable.

(** X21.  In a state reached by calls in which no two registrars have the
    same key, [find] tells exactly which registrars are registered: a
    registrar that holds its classes is what [find] returns for its target
    type and group name, and whatever [find] returns under a key is the
    registrar made for that key and holds a class. *)
Theorem registered_is_found (cs : list call) :
  NoDup (keys_of (run_calls cs init_world)) →
  ∀ a d, heap (run_calls cs init_world) !! a = Some d →
    ((∃ c, holds d c) ↔
     find (DynamicProperties.bpy_type d) (DynamicProperties.name d)
       (run_calls cs init_world) = Some a).
Proof.
  intros Hnd a d Ha. split.
  - intros [c Hh]. by apply (findable_reached cs Hnd a d c).
  - intros Hf.
    destruct (coh_table _ (coherent_reached cs) _ a Hf) as (d' & c & Ha' & _ & Hh).
    exists c. congruence.
Qed.

Lemma registered_is_found_witness :
  find Light "buzz" demo_world = Some 1%nat.
Proof.
  assert (Hnd : NoDup (keys_of demo_world)).
  { assert (keys_of demo_world = ["Lightfizz"; "Lightbuzz"; "Camerazoom"]) as ->
      by (vm_compute; reflexivity).
    apply (bool_decide_unpack _). vm_compute. exact I. }
  assert (Hg : ∃ c, (λ d, (group_of d, DynamicProperties.property_class d))
                      <$> heap demo_world !! 1%nat = Some ((Light, "buzz"), Obj c))
    by (vm_compute; by eexists).
  destruct Hg as [c Hg].
  destruct (heap demo_world !! 1%nat) as [d|] eqn:E; [|discriminate Hg].
  injection Hg as Hty Hnm Hc.
  rewrite <- Hty, <- Hnm.
  apply (proj1 (registered_is_found demo_calls Hnd 1%nat d E)).
  exists c. by left.
Defined.
